(** * Feature engineering and sequence-model pipeline of the stock-trading repository

    A shallow embedding of [process_stock_data.compute_indicators],
    [model.format_feature], the nested [create_sequences] and the
    split/scale/window/inference part of [model.train_and_predict_lstm] and
    [model.train_and_predict_gru], followed by the properties proved about
    them.  Around these, the functions that feed and use them:
    [get_daily_kline], [fetch_stock_history] and the download batch
    [process_all] on one side, [visualize_predictions], [predict], the
    batch driver of model.py and what [plot_cumulative_earnings] and
    [plot_accuracy_comparison] draw on the other.  The remote service, the
    file system and the trained networks are parameters.

    Numbers are IEEE binary64 values (Python's [float], numpy's [float64]),
    so a missing value is [nan], comparisons with it are false and a division
    by zero gives an infinity or [nan], as in the running program.  What a
    network emits is single precision (torch's and numpy's [float32]) and
    stays so through the inverse scaling; it is kept as the binary64 number
    of the same value, and every operation on it rounds to binary32 where
    numpy does.  Python exceptions are values of an error type.

    A table is a pandas DataFrame with a DatetimeIndex and float64 columns.
    The pandas and scikit-learn calls are modelled by what those libraries
    document: [min_periods] of a rolling window is the window, a rolling
    window reads an infinity as a missing value, reductions skip missing
    values, [pct_change] pads before dividing, [dropna] drops a row with
    any missing cell, [np.mean] sums pairwise, and a scaler refuses an
    empty array or an infinity.  Plotting, printing of warnings and the
    optimiser are left out: they do not feed back into the values studied
    here. *)

From Stdlib Require Import String Ascii.
From Stdlib Require Import List ZArith Lia Bool QArith Field.
From Stdlib Require Import Floats Uint63.
From Stdlib Require Import Sorted Permutation.
Import ListNotations.

Set Warnings "-inexact-float".
Local Open Scope string_scope.
Local Open Scope list_scope.
Local Open Scope nat_scope.

(* ================================================================== *)
(** ** Python exceptions and fallible results *)
(* ================================================================== *)

(** An exception is identified by the name of its class. *)
Inductive exn : Type := PyExc (cls : string).

Definition ValueError : exn := PyExc "ValueError".
Definition IndexError : exn := PyExc "IndexError".
Definition KeyError : exn := PyExc "KeyError".
Definition ZeroDivisionError : exn := PyExc "ZeroDivisionError".

Inductive result (A : Type) : Type :=
| Ok (a : A)
| Raise (e : exn).
Arguments Ok {A} a.
Arguments Raise {A} e.

Definition bind {A B : Type} (c : result A) (k : A -> result B) : result B :=
  match c with
  | Ok a => k a
  | Raise e => Raise e
  end.

Notation "x <- c ;; k" := (bind c (fun x => k))
  (at level 61, c at next level, right associativity).
Notation "' pat <- c ;; k" := (bind c (fun x => match x with pat => k end))
  (at level 61, pat pattern, c at next level, right associativity).

(** [l[i]] on a Python list or a numpy array, for [i >= 0]. *)
Definition getitem {A : Type} (l : list A) (i : nat) : result A :=
  match nth_error l i with
  | Some a => Ok a
  | None => Raise IndexError
  end.

(** [l[i:j]] for [0 <= i <= j]. *)
Definition slice {A : Type} (l : list A) (i j : nat) : list A :=
  firstn (j - i) (skipn i l).

(** [s.iloc[i]] for an integer [i] that may be negative: a negative position
    counts from the end. *)
Definition iloc {A : Type} (l : list A) (i : Z) : result A :=
  if (0 <=? i)%Z then getitem l (Z.to_nat i)
  else if (Z.of_nat (length l) + i <? 0)%Z then Raise IndexError
  else getitem l (Z.to_nat (Z.of_nat (length l) + i)).

(* ================================================================== *)
(** ** Floating-point columns (the values of a pandas Series) *)
(* ================================================================== *)

Definition column : Type := list float.

Definition float_of_Z (z : Z) : float := PrimFloat.of_uint63 (Uint63.of_Z z).
Definition float_of_nat (n : nat) : float := float_of_Z (Z.of_nat n).

(** Python's [int(x)] on a float: truncation toward zero. *)
Definition int_of_float (x : float) : Z :=
  match Prim2SF x with
  | S754_finite s m e =>
      let mag := match e with
                 | Z0 => Z.pos m
                 | Zpos p => Z.shiftl (Z.pos m) (Z.pos p)
                 | Zneg p => Z.shiftr (Z.pos m) (Z.pos p)
                 end in
      if s then (- mag)%Z else mag
  | _ => 0%Z
  end.

(** *** Single precision

    A [float32] number is kept as the binary64 number of the same value.
    [to_f32] is the cast of a binary64 number to [float32] (to nearest, ties
    to even; beyond the largest [float32] it gives an infinity), which is
    also how numpy stores a binary64 result into a [float32] array. *)
Definition round32 (x : spec_float) : spec_float :=
  match x with
  | S754_finite s m e => SpecFloat.binary_normalize 24 128 (cond_Zopp s (Z.pos m)) e s
  | _ => x
  end.

Definition to_f32 (x : float) : float := SF2Prim (round32 (Prim2SF x)).

(** Sum and product of two [float32] numbers, in single precision. *)
Definition f32_add (a b : float) : float :=
  SF2Prim (SpecFloat.SFadd 24 128 (Prim2SF a) (Prim2SF b)).
Definition f32_mul (a b : float) : float :=
  SF2Prim (SpecFloat.SFmul 24 128 (Prim2SF a) (Prim2SF b)).

(** A number that is a [float32]: the cast leaves it as it is. *)
Record f32 : Type := mkF32 {
  f32_val :> float;
  f32_exact : to_f32 f32_val = f32_val
}.

Fixpoint map2 {A B C : Type} (f : A -> B -> C) (l : list A) (l' : list B) : list C :=
  match l, l' with
  | a :: t, b :: t' => f a b :: map2 f t t'
  | _, _ => []
  end.

(** A running computation over a column: the state is threaded from row to
    row and every row emits one value. *)
Fixpoint scan {A S B : Type} (step : S -> A -> S * B) (s : S) (l : list A) : list B :=
  match l with
  | [] => []
  | x :: r => let (s', b) := step s x in b :: scan step s' r
  end.

(** [s.shift(1)]: every value moves one row down, the first row is missing. *)
Definition shift1 (c : column) : column := firstn (length c) (nan :: c).

(** [s.diff()]. *)
Definition diff (c : column) : column := map2 PrimFloat.sub c (shift1 c).

(** [s.fillna(method='ffill')]: a missing value takes the last value seen
    above it; leading missing values stay missing. *)
Definition ffill_step (last x : float) : float * float :=
  let v := if is_nan x then last else x in (v, v).

Definition ffill (c : column) : column := scan ffill_step nan c.

(** [s.pct_change()]: pandas pads missing values first (its default
    [fill_method='pad']) and then divides each row by the previous one. *)
Definition pct_change (c : column) : column :=
  let filled := ffill c in
  map2 (fun a b => (a / b - 1)%float) filled (shift1 filled).

Definition fsum (l : list float) : float := fold_left PrimFloat.add l 0%float.

Definition mean (l : list float) : float := (fsum l / float_of_nat (length l))%float.

(** Sample standard deviation (pandas' default [ddof=1]). *)
Definition std (l : list float) : float :=
  let m := mean l in
  PrimFloat.sqrt (fsum (map (fun x => ((x - m) * (x - m))%float) l) / float_of_nat (length l - 1))%float.

(** The [w] observations that end at row [i]. *)
Definition window_at (w i : nat) (c : column) : list float :=
  firstn w (skipn (S i - w) c).

(** pandas prepares the values of a rolling window by replacing every
    infinity with a missing value. *)
Definition inf_to_nan (c : column) : column :=
  map (fun x => if is_infinity x then nan else x) c.

(** [s.rolling(window=w).agg()]: rows with fewer than [w] observations are
    missing; a missing value inside the window, or an infinity, which is
    read as one, makes the sum, and so the result, missing.  pandas keeps
    a running aggregate that it updates as the window moves; here every
    window is aggregated afresh, from left to right.  The two give a missing
    value in the same rows as long as no sum overflows; the last bits of a
    mean or of a deviation can differ. *)
Definition rolling (w : nat) (agg : list float -> float) (c : column) : column :=
  let values := inf_to_nan c in
  map (fun i => if S i <? w then nan else agg (window_at w i values))
      (seq 0 (length values)).

Definition rolling_mean (w : nat) : column -> column := rolling w mean.
Definition rolling_std (w : nat) : column -> column := rolling w std.

(** [s.ewm(span=span, adjust=False).mean()]: [y0 = x0] and
    [y_t = (1 - alpha) y_(t-1) + alpha x_t] with [alpha = 2 / (span + 1)];
    the average starts at the first observation and a missing observation
    repeats the previous average. *)
Definition ewm_mean (span : nat) (c : column) : column :=
  let alpha := (2 / (float_of_nat span + 1))%float in
  scan (fun prev x =>
          let y := if is_nan prev then x
                   else if is_nan x then prev
                   else ((1 - alpha) * prev + alpha * x)%float in
          (y, y)) nan c.

(** [s.cumsum()]: missing rows are skipped by the running sum and stay
    missing in the result. *)
Definition cumsum (c : column) : column :=
  scan (fun acc x => if is_nan x then (acc, nan) else ((acc + x)%float, (acc + x)%float))
       0%float c.

Definition clip_lower (lo : float) (c : column) : column :=
  map (fun x => if (x <? lo)%float then lo else x) c.
Definition clip_upper (hi : float) (c : column) : column :=
  map (fun x => if (hi <? x)%float then hi else x) c.

(** Maximum of two values that skips a missing one, as [max(axis=1)] does. *)
Definition nanmax (a b : float) : float :=
  if is_nan a then b else if is_nan b then a else if (a <? b)%float then b else a.

(** Rows selected by a boolean mask. *)
Fixpoint select {A : Type} (mask : list bool) (l : list A) : list A :=
  match mask, l with
  | m :: ms, x :: xs => if m then x :: select ms xs else select ms xs
  | _, _ => []
  end.

(** [s[mask] = nan]. *)
Definition mask_nan (mask : list bool) (c : column) : column :=
  map2 (fun (m : bool) x => if m then nan else x) mask c.

(** Element-wise arithmetic between two columns and between a scalar and a
    column, as pandas overloads [+], [-], [*], [/], [abs] and unary minus. *)
Definition cadd : column -> column -> column := map2 PrimFloat.add.
Definition csub : column -> column -> column := map2 PrimFloat.sub.
Definition cmul : column -> column -> column := map2 PrimFloat.mul.
Definition cdiv : column -> column -> column := map2 PrimFloat.div.
Definition cabs : column -> column := map PrimFloat.abs.
Definition cneg : column -> column := map PrimFloat.opp.
Definition kadd (k : float) : column -> column := map (fun x => (k + x)%float).
Definition ksub (k : float) : column -> column := map (fun x => (k - x)%float).
Definition kmul (k : float) : column -> column := map (fun x => (k * x)%float).
Definition kdiv (k : float) : column -> column := map (fun x => (k / x)%float).
Definition mulk (c : column) (k : float) : column := map (fun x => (x * k)%float) c.

(** [pd.concat([a, b, c], axis=1).max(axis=1)]. *)
Definition rowmax3 (a b c : column) : column :=
  map2 nanmax (map2 nanmax a b) c.

(* ================================================================== *)
(** ** Date-indexed tables (pandas DataFrame) *)
(* ================================================================== *)

Record Date : Type := mkDate { year : Z; month : Z; day : Z }.

Definition Date_eqb (a b : Date) : bool :=
  ((year a =? year b) && (month a =? month b) && (day a =? day b))%Z.

(** A table is a date index and an ordered list of named columns; pandas
    keeps the order of the columns and allows a name to occur twice. *)
Record DataFrame : Type := mkDF {
  index : list Date;
  columns : list (string * column)
}.

(** [pd.DataFrame()]. *)
Definition empty_frame : DataFrame := mkDF [] [].

Definition nrows (df : DataFrame) : nat := length (index df).
Definition names (df : DataFrame) : list string := map fst (columns df).

(** [df.empty]: some axis has length zero. *)
Definition empty (df : DataFrame) : bool :=
  (nrows df =? 0) || (length (columns df) =? 0).

(** [name in df.columns]. *)
Definition has_col (name : string) (df : DataFrame) : bool :=
  existsb (String.eqb name) (names df).

(** [df[name]], raising [KeyError] for an unknown name. *)
Definition getcol (df : DataFrame) (name : string) : result column :=
  match find (fun p => String.eqb name (fst p)) (columns df) with
  | Some p => Ok (snd p)
  | None => Raise KeyError
  end.

(** [df[name]] where the column is known to be present. *)
Definition col (name : string) (df : DataFrame) : column :=
  match find (fun p => String.eqb name (fst p)) (columns df) with
  | Some p => snd p
  | None => []
  end.

(** [df[name] = v], in place: an existing column is overwritten where it
    stands, a new one is appended on the right. *)
Definition set_col (name : string) (v : column) (df : DataFrame) : DataFrame :=
  if has_col name df
  then mkDF (index df)
            (map (fun p => if String.eqb name (fst p) then (fst p, v) else p) (columns df))
  else mkDF (index df) (columns df ++ [(name, v)]).

(** [df.loc[mask, keys] = nan], in place.  A key that is not yet a column is
    first added as an all-missing column (pandas enlarges the frame for a
    list of column labels). *)
Definition loc_set_nan (mask : list bool) (keys : list string) (df : DataFrame) : DataFrame :=
  let missing := filter (fun k => negb (has_col k df)) keys in
  let cols := columns df ++ map (fun k => (k, repeat nan (nrows df))) missing in
  mkDF (index df)
       (map (fun p => if existsb (String.eqb (fst p)) keys
                      then (fst p, mask_nan mask (snd p)) else p) cols).

(** [df.fillna(method='ffill', inplace=True)]. *)
Definition fillna_ffill (df : DataFrame) : DataFrame :=
  mkDF (index df) (map (fun p => (fst p, ffill (snd p))) (columns df)).

(** The values of row [i], one per column. *)
Definition row_at (i : nat) (df : DataFrame) : list float :=
  map (fun p => nth i (snd p) nan) (columns df).

Definition notna_rows (df : DataFrame) : list bool :=
  map (fun i => negb (existsb is_nan (row_at i df))) (seq 0 (nrows df)).

(** [df.dropna()]: a new table with the rows that have no missing value. *)
Definition dropna (df : DataFrame) : DataFrame :=
  let keep := notna_rows df in
  mkDF (select keep (index df))
       (map (fun p => (fst p, select keep (snd p))) (columns df)).

(** [df.iloc[1:]]. *)
Definition iloc_from1 (df : DataFrame) : DataFrame :=
  mkDF (tl (index df)) (map (fun p => (fst p, tl (snd p))) (columns df)).

(** The first [n] rows. *)
Definition head (n : nat) (df : DataFrame) : DataFrame :=
  mkDF (firstn n (index df)) (map (fun p => (fst p, firstn n (snd p))) (columns df)).

(** Position of a date in an index. *)
Fixpoint position (d : Date) (idx : list Date) : option nat :=
  match idx with
  | [] => None
  | x :: r => if Date_eqb d x then Some 0
              else match position d r with Some k => Some (S k) | None => None end
  end.

(** The dates of an index are pairwise different. *)
Fixpoint all_distinct (idx : list Date) : bool :=
  match idx with
  | [] => true
  | d :: r => negb (existsb (Date_eqb d) r) && all_distinct r
  end.

(** [df.loc[d, name]]: the cell of column [name] in the row dated [d];
    [None] when the table has no such row or column. *)
Definition loc (df : DataFrame) (d : Date) (name : string) : option float :=
  match position d (index df) with
  | Some i => nth_error (col name df) i
  | None => None
  end.

(** Every column is as long as the index. *)
Definition wf (df : DataFrame) : Prop :=
  Forall (fun p => length (snd p) = nrows df) (columns df).

(* ================================================================== *)
(** ** process_stock_data.compute_indicators *)
(* ================================================================== *)

(** Sequencing of the statements of a function body: [dlet x := v in b]
    binds the value of [v] and continues with [b], as a local assignment
    does.  It is a constant, so a proof can step through a body one
    statement at a time. *)
Definition Let_In {A B : Type} (v : A) (k : A -> B) : B := k v.
Notation "'dlet' x := v 'in' b" := (Let_In v (fun x => b))
  (at level 10, x name, b at level 200,
   format "'[v' 'dlet'  x  :=  v  'in' '/' b ']'").

Definition ohlcv : list string := ["Open"; "High"; "Low"; "Close"; "Volume"].

(** Line 72, the row selector [change.abs() > 0.3]. *)
Definition outlier_rows (change : column) : list bool :=
  map (fun c => (0.3 <? PrimFloat.abs c)%float) change.

(** Lines 70-75: a row whose close moved by more than 30% against the row
    before is blanked in the five raw columns, then every missing cell of
    the table is forward-filled.  Both steps write into the caller's
    table. *)
Definition clean_outliers (df_stock : DataFrame) : DataFrame :=
  let change := pct_change (col "Close" df_stock) in
  let df_stock := loc_set_nan (outlier_rows change) ohlcv df_stock in
  fillna_ffill df_stock.

(** Lines 112-120: the on-balance-volume loop.  [obv] starts as [[0]] and
    one entry is appended for every [i] in [range(1, len(df_stock))];
    [obv_step] is the body of the loop. *)
Definition obv_step (close volume : column) (obv : list float) (i : nat) : list float :=
  let last_obv := last obv 0%float in
  if (nth (i - 1) close nan <? nth i close nan)%float
  then obv ++ [(last_obv + nth i volume nan)%float]
  else if (nth i close nan <? nth (i - 1) close nan)%float
  then obv ++ [(last_obv - nth i volume nan)%float]
  else obv ++ [last_obv].

(** The list [obv] after [k] iterations. *)
Definition obv_upto (close volume : column) (k : nat) : list float :=
  fold_left (obv_step close volume) (seq 1 k) [0%float].

Definition obv_loop (close volume : column) (n : nat) : list float :=
  obv_upto close volume (n - 1).

(** Lines 77-156: calendar fields and the lagged indicators, each written
    into the table as a new column. *)
Definition add_indicators (df_stock : DataFrame) : DataFrame :=
  dlet df_stock := set_col "Year" (map (fun d => float_of_Z (year d)) (index df_stock)) df_stock in
  dlet df_stock := set_col "Month" (map (fun d => float_of_Z (month d)) (index df_stock)) df_stock in
  dlet df_stock := set_col "Day" (map (fun d => float_of_Z (day d)) (index df_stock)) df_stock in
  (* simple moving averages *)
  dlet df_stock := set_col "MA5" (rolling_mean 5 (shift1 (col "Close" df_stock))) df_stock in
  dlet df_stock := set_col "MA10" (rolling_mean 10 (shift1 (col "Close" df_stock))) df_stock in
  dlet df_stock := set_col "MA20" (rolling_mean 20 (shift1 (col "Close" df_stock))) df_stock in
  dlet df_stock := set_col "MA50" (rolling_mean 50 (shift1 (col "Close" df_stock))) df_stock in
  (* RSI *)
  dlet price_change := diff (col "Close" df_stock) in
  dlet rise := clip_lower 0 price_change in
  dlet drop := cneg (clip_upper 0 price_change) in
  dlet mean_rise := rolling_mean 14 rise in
  dlet mean_drop := rolling_mean 14 drop in
  dlet rs_value := cdiv mean_rise mean_drop in
  dlet df_stock := set_col "RSI" (shift1 (ksub 100 (kdiv 100 (kadd 1 rs_value)))) df_stock in
  (* MACD *)
  dlet ema_short := ewm_mean 12 (col "Close" df_stock) in
  dlet ema_long := ewm_mean 26 (col "Close" df_stock) in
  dlet df_stock := set_col "MACD" (shift1 (csub ema_short ema_long)) df_stock in
  (* VWAP *)
  dlet df_stock :=
    set_col "VWAP"
      (shift1 (cdiv (cumsum (cmul (col "Close" df_stock) (col "Volume" df_stock)))
                    (cumsum (col "Volume" df_stock)))) df_stock in
  (* Bollinger bands *)
  dlet window_size := 20 in
  dlet sma := rolling_mean window_size (col "Close" df_stock) in
  dlet std_dev := rolling_std window_size (col "Close" df_stock) in
  dlet df_stock := set_col "Upper_band" (shift1 (cadd sma (kmul 2 std_dev))) df_stock in
  dlet df_stock := set_col "Lower_band" (shift1 (csub sma (kmul 2 std_dev))) df_stock in
  (* OBV *)
  dlet obv := obv_loop (col "Close" df_stock) (col "Volume" df_stock) (nrows df_stock) in
  dlet df_stock := set_col "OBV" (shift1 obv) df_stock in
  (* ADX, +DI, -DI and ATR *)
  dlet high := col "High" df_stock in
  dlet low := col "Low" df_stock in
  dlet close := col "Close" df_stock in
  dlet plus_dm := diff high in
  dlet minus_dm := cabs (diff low) in
  dlet tr1 := csub high low in
  dlet tr2 := cabs (csub high (shift1 close)) in
  dlet tr3 := cabs (csub low (shift1 close)) in
  dlet tr := rowmax3 tr1 tr2 tr3 in
  dlet atr := rolling_mean 14 tr in
  dlet plus_di_intermediate := kmul 100 (cdiv (rolling_mean 14 plus_dm) atr) in
  dlet minus_di_intermediate := kmul 100 (cdiv (rolling_mean 14 minus_dm) atr) in
  dlet df_stock := set_col "+DI" (shift1 plus_di_intermediate) df_stock in
  dlet df_stock := set_col "-DI" (shift1 minus_di_intermediate) df_stock in
  dlet adx_intermediate :=
    mulk (rolling_mean 14
            (cdiv (cabs (csub plus_di_intermediate minus_di_intermediate))
                  (cadd plus_di_intermediate minus_di_intermediate))) 100 in
  dlet df_stock := set_col "ADX" (shift1 adx_intermediate) df_stock in
  dlet df_stock := set_col "ATR" (shift1 atr) df_stock in
  (* the previous day's bar *)
  dlet df_stock := set_col "Open_yes" (shift1 (col "Open" df_stock)) df_stock in
  dlet df_stock := set_col "High_yes" (shift1 (col "High" df_stock)) df_stock in
  dlet df_stock := set_col "Low_yes" (shift1 (col "Low" df_stock)) df_stock in
  dlet df_stock := set_col "Close_yes" (shift1 (col "Close" df_stock)) df_stock in
  dlet df_stock := set_col "Volume_yes" (shift1 (col "Volume" df_stock)) df_stock in
  dlet df_stock := set_col "Prev_Close" (shift1 (col "Close" df_stock)) df_stock in
  df_stock.

(** What a call leaves behind: the caller's table object after the call
    (the function writes into it), the lines it printed and what it
    returned. *)
Record Outcome : Type := mkOutcome {
  caller_table : DataFrame;
  printed : list string;
  returned : result DataFrame
}.

(** [compute_indicators(df_stock)] for a table with a DatetimeIndex (lines
    62-64 convert any other index and do nothing here).  Lines 66-68 are the
    guard: it prints a notice and returns [pd.DataFrame()].  Line 159
    rebinds the local name to the result of [dropna()], a new table, which
    is what the function returns. *)
Definition compute_indicators (df_stock : DataFrame) : Outcome :=
  if empty df_stock || negb (has_col "Close" df_stock) then
    mkOutcome df_stock ["数据为空或缺少 Close 列，跳过该股票。"] (Ok empty_frame)
  else
    let df_stock := clean_outliers df_stock in
    let df_stock := add_indicators df_stock in
    mkOutcome df_stock [] (Ok (dropna df_stock)).

(** *** The indicator columns in closed form

    Each column that [add_indicators] writes, as a function of the five raw
    columns of the table it starts from.  [add_indicators_closed_form]
    below proves that the function body computes exactly these. *)

Definition rsi (close : column) : column :=
  let price_change := diff close in
  let rise := clip_lower 0 price_change in
  let drop := cneg (clip_upper 0 price_change) in
  shift1 (ksub 100 (kdiv 100 (kadd 1 (cdiv (rolling_mean 14 rise) (rolling_mean 14 drop))))).

Definition macd (close : column) : column :=
  shift1 (csub (ewm_mean 12 close) (ewm_mean 26 close)).

Definition vwap (close volume : column) : column :=
  shift1 (cdiv (cumsum (cmul close volume)) (cumsum volume)).

Definition upper_band (close : column) : column :=
  shift1 (cadd (rolling_mean 20 close) (kmul 2 (rolling_std 20 close))).

Definition lower_band (close : column) : column :=
  shift1 (csub (rolling_mean 20 close) (kmul 2 (rolling_std 20 close))).

Definition true_range (high low close : column) : column :=
  rowmax3 (csub high low) (cabs (csub high (shift1 close))) (cabs (csub low (shift1 close))).

Definition atr_now (high low close : column) : column :=
  rolling_mean 14 (true_range high low close).

Definition plus_di_now (high low close : column) : column :=
  kmul 100 (cdiv (rolling_mean 14 (diff high)) (atr_now high low close)).

Definition minus_di_now (high low close : column) : column :=
  kmul 100 (cdiv (rolling_mean 14 (cabs (diff low))) (atr_now high low close)).

Definition adx_now (high low close : column) : column :=
  mulk (rolling_mean 14
          (cdiv (cabs (csub (plus_di_now high low close) (minus_di_now high low close)))
                (cadd (plus_di_now high low close) (minus_di_now high low close)))) 100.

Definition indicator_columns (idx : list Date) (open high low close volume : column)
  : list (string * column) :=
  [ ("Year", map (fun d => float_of_Z (year d)) idx);
    ("Month", map (fun d => float_of_Z (month d)) idx);
    ("Day", map (fun d => float_of_Z (day d)) idx);
    ("MA5", rolling_mean 5 (shift1 close));
    ("MA10", rolling_mean 10 (shift1 close));
    ("MA20", rolling_mean 20 (shift1 close));
    ("MA50", rolling_mean 50 (shift1 close));
    ("RSI", rsi close);
    ("MACD", macd close);
    ("VWAP", vwap close volume);
    ("Upper_band", upper_band close);
    ("Lower_band", lower_band close);
    ("OBV", shift1 (obv_loop close volume (length idx)));
    ("+DI", shift1 (plus_di_now high low close));
    ("-DI", shift1 (minus_di_now high low close));
    ("ADX", shift1 (adx_now high low close));
    ("ATR", shift1 (atr_now high low close));
    ("Open_yes", shift1 open);
    ("High_yes", shift1 high);
    ("Low_yes", shift1 low);
    ("Close_yes", shift1 close);
    ("Volume_yes", shift1 volume);
    ("Prev_Close", shift1 close) ].

(** A run of column assignments. *)
Definition set_cols (l : list (string * column)) (df : DataFrame) : DataFrame :=
  fold_left (fun d p => set_col (fst p) (snd p) d) l df.

(** The last value assigned to a name in a run of assignments. *)
Fixpoint assigned (c : string) (l : list (string * column)) : option column :=
  match l with
  | [] => None
  | (n, v) :: r =>
      match assigned c r with
      | Some w => Some w
      | None => if String.eqb c n then Some v else None
      end
  end.

(** What every assignment of the body preserves: the index and the five raw
    columns of the table the body started from. *)
Definition raw_kept (df0 df : DataFrame) : Prop :=
  nrows df = nrows df0 /\ index df = index df0 /\
  col "Open" df = col "Open" df0 /\ col "High" df = col "High" df0 /\
  col "Low" df = col "Low" df0 /\ col "Close" df = col "Close" df0 /\
  col "Volume" df = col "Volume" df0.

(** The derived feature fields: every indicator and every lagged raw
    value (the calendar fields and the raw bar itself are not derived). *)
Definition derived_features : list string :=
  [ "MA5"; "MA10"; "MA20"; "MA50"; "RSI"; "MACD"; "VWAP"; "Upper_band"; "Lower_band";
    "OBV"; "+DI"; "-DI"; "ADX"; "ATR"; "Open_yes"; "High_yes"; "Low_yes"; "Close_yes";
    "Volume_yes"; "Prev_Close" ].

(** Two columns that agree on their first [n] rows. *)
Definition agree (n : nat) (a b : column) : Prop := firstn n a = firstn n b.

(* ================================================================== *)
(** ** model.format_feature *)
(* ================================================================== *)

(** A pandas Series that carries its own index. *)
Record Series : Type := mkSeries { s_index : list Date; s_values : column }.

(** The column list of [format_feature], in source order. *)
Definition features : list string :=
  [ "Volume_yes"; "Year"; "Month"; "Day"; "MA5"; "MA10"; "MA20"; "MA50"; "RSI"; "MACD";
    "VWAP"; "Upper_band"; "Lower_band"; "ATR"; "Prev_Close"; "ADX"; "-DI"; "+DI";
    "Close_yes"; "Open_yes"; "High_yes"; "Low_yes"; "Volume_yes"; "OBV" ].

(** [df[keys]]: one output column per listed key, in the order of the list;
    [KeyError] for a key that is not a column. *)
Fixpoint getcols (df : DataFrame) (keys : list string) : result (list (string * column)) :=
  match keys with
  | [] => Ok []
  | k :: r => c <- getcol df k ;; cs <- getcols df r ;; Ok ((k, c) :: cs)
  end.

Definition select_columns (df : DataFrame) (keys : list string) : result DataFrame :=
  cols <- getcols df keys ;; Ok (mkDF (index df) cols).

(** [df.isnull().any().any()]. *)
Definition isnull_any (df : DataFrame) : bool :=
  existsb (fun p => existsb is_nan (snd p)) (columns df).

Definition format_feature (data : DataFrame) : result (DataFrame * Series) :=
  sel <- select_columns data features ;;
  let X := iloc_from1 sel in
  close <- getcol data "Close" ;;
  let y := mkSeries (tl (index data)) (tl (pct_change close)) in
  let X := if isnull_any X then fillna_ffill X else X in
  let y := if existsb is_nan (s_values y)
           then mkSeries (s_index y) (ffill (s_values y)) else y in
  Ok (X, y).

(* ================================================================== *)
(** ** sklearn.preprocessing.MinMaxScaler *)
(* ================================================================== *)

(** The arithmetic a scaler is computed in: binary64 in the running program,
    the rationals when a property is stated in exact arithmetic. *)
Class Arith (F : Type) : Type := {
  zero : F;
  one : F;
  add : F -> F -> F;
  sub : F -> F -> F;
  mul : F -> F -> F;
  div : F -> F -> F;
  ltb : F -> F -> bool;
  isnan : F -> bool;
  isinf : F -> bool;
  (** a data range that counts as zero (a constant column) *)
  zero_range : F -> bool
}.

#[export] Instance float_arith : Arith float := {|
  zero := 0%float;
  one := 1%float;
  add := PrimFloat.add;
  sub := PrimFloat.sub;
  mul := PrimFloat.mul;
  div := PrimFloat.div;
  ltb := PrimFloat.ltb;
  isnan := is_nan;
  isinf := is_infinity;
  zero_range := fun r => (r <? 10 * 0x1p-52)%float
|}.



Section MinMaxScaler.
Context {F : Type} {A : Arith F}.

(** The fitted attributes of one column. *)
Record ColumnScale : Type := mkColumnScale {
  data_min_ : F;
  data_max_ : F;
  scale_ : F;
  min_ : F
}.

Record MinMaxScaler : Type := mkScaler {
  feature_range : F * F;
  clip : bool;
  fitted : list ColumnScale
}.

(** Modelled from the spec: [MinMaxScaler] is a class of scikit-learn, whose
    source is not in the repository; the repository only constructs it with
    [MinMaxScaler()] and calls [fit], [transform] and [inverse_transform].
    The spec describes it as a per-column affine min-max map
    [(v - min) / (max - min)] with an inverse and without clamping.  The
    definitions below follow the computation scikit-learn documents for
    that map: [scale_ = (hi - lo) / (data_max_ - data_min_)] with a zero
    range replaced by one, [min_ = lo - data_min_ * scale_],
    [transform v = v * scale_ + min_] (clamped to the feature range only
    when [clip] is set) and [inverse_transform v = (v - min_) / scale_]. *)
Definition new_scaler : MinMaxScaler :=
  mkScaler (zero, one) false [].

(** [np.nanmin] / [np.nanmax] over one column. *)
Definition nanmin_list (c : list F) : F :=
  match c with
  | [] => zero
  | x :: r =>
      fold_left (fun acc y => if isnan acc then y else if isnan y then acc
                              else if ltb y acc then y else acc) r x
  end.

Definition nanmax_list (c : list F) : F :=
  match c with
  | [] => zero
  | x :: r =>
      fold_left (fun acc y => if isnan acc then y else if isnan y then acc
                              else if ltb acc y then y else acc) r x
  end.

Definition handle_zeros_in_scale (r : F) : F :=
  if zero_range r then one else r.

Definition fit_column (fr : F * F) (c : list F) : ColumnScale :=
  let data_min := nanmin_list c in
  let data_max := nanmax_list c in
  let data_range := sub data_max data_min in
  let scale := div (sub (snd fr) (fst fr)) (handle_zeros_in_scale data_range) in
  mkColumnScale data_min data_max scale (sub (fst fr) (mul data_min scale)).

Definition transform1 (fr : F * F) (clipped : bool) (p : ColumnScale) (v : F) : F :=
  let x := add (mul v (scale_ p)) (min_ p) in
  if clipped
  then (if ltb x (fst fr) then fst fr else if ltb (snd fr) x then snd fr else x)
  else x.

Definition inverse1 (p : ColumnScale) (v : F) : F :=
  div (sub v (min_ p)) (scale_ p).

(** Input validation shared by the three methods: at least one sample, no
    infinity (missing values are allowed). *)
Definition check_array (X : list (list F)) : result unit :=
  match X with
  | [] => Raise ValueError
  | _ => if existsb (existsb isinf) X then Raise ValueError else Ok tt
  end.

(** The columns of a two-dimensional array given by its rows. *)
Definition array_columns (X : list (list F)) : list (list F) :=
  match X with
  | [] => []
  | r :: _ => map (fun j => map (fun row => nth j row zero) X) (seq 0 (length r))
  end.

Definition fit (s : MinMaxScaler) (X : list (list F)) : result MinMaxScaler :=
  _ <- check_array X ;;
  Ok (mkScaler (feature_range s) (clip s)
               (map (fit_column (feature_range s)) (array_columns X))).

Definition transform (s : MinMaxScaler) (X : list (list F)) : result (list (list F)) :=
  _ <- check_array X ;;
  Ok (map (fun row => map2 (transform1 (feature_range s) (clip s)) (fitted s) row) X).

End MinMaxScaler.

Arguments ColumnScale F : clear implicits.
Arguments MinMaxScaler F : clear implicits.

(* ================================================================== *)
(** ** model.create_sequences (nested in both training functions) *)
(* ================================================================== *)

(** The body of the [for] loop, run over the values of [range(...)]:
    [X_seq] and [y_seq] grow by one entry per iteration; [target[i + n_steps]]
    raises [IndexError] when the target is too short. *)
Fixpoint create_sequences_loop {A B : Type} (features : list A) (target : list B)
    (n_steps : nat) (rng : list nat) (X_seq : list (list A)) (y_seq : list B)
    : result (list (list A) * list B) :=
  match rng with
  | [] => Ok (X_seq, y_seq)
  | i :: rest =>
      t <- getitem target (i + n_steps) ;;
      create_sequences_loop features target n_steps rest
        (X_seq ++ [slice features i (i + n_steps)]) (y_seq ++ [t])
  end.

Definition create_sequences {A B : Type} (features : list A) (target : list B)
    (n_steps : nat) : result (list (list A) * list B) :=
  create_sequences_loop features target n_steps
    (seq 0 (length features - n_steps)) [] [].

(* ================================================================== *)
(** ** model.train_and_predict_lstm / model.train_and_predict_gru *)
(* ================================================================== *)

(** [df.values]: the table as a list of rows. *)
Definition values (df : DataFrame) : list (list float) :=
  map (fun i => row_at i df) (seq 0 (nrows df)).

(** [df.iloc[:k]] and [df.iloc[k:]]. *)
Definition iloc_to (k : nat) (df : DataFrame) : DataFrame := head k df.
Definition iloc_from (k : nat) (df : DataFrame) : DataFrame :=
  mkDF (skipn k (index df)) (map (fun p => (fst p, skipn k (snd p))) (columns df)).

(** [s.values.reshape(-1, 1)]. *)
Definition reshape_col {F : Type} (c : list F) : list (list F) := map (fun v => [v]) c.

(** [int(len(X) * 0.8)]. *)
Definition split_index (n : nat) : nat :=
  Z.to_nat (int_of_float (float_of_nat n * 0.8)%float).

(** [len(DataLoader(dataset, batch_size))]: the number of batches. *)
Definition loader_len (n : nat) (batch_size : positive) : nat :=
  (n + Pos.to_nat batch_size - 1) / Pos.to_nat batch_size.

(** The trained network in evaluation mode: one scaled prediction per
    window, a [float32] as torch computes it.  Training itself (optimiser,
    losses, plots) is outside the model; only the places where the
    surrounding Python can raise are kept. *)
Definition Net : Type := list (list float) -> f32.

(** [scaler_y.inverse_transform] on the [float32] array a network returns.
    The array keeps its type: [X -= self.min_] and [X /= self.scale_] are
    each computed in binary64, the fitted attributes being [float64], and
    stored back into the [float32] array. *)
Definition inverse1_f32 (p : ColumnScale float) (v : float) : float :=
  to_f32 (to_f32 (v - min_ p) / scale_ p)%float.

Definition inverse_transform_f32 (s : MinMaxScaler float) (X : list (list float))
  : result (list (list float)) :=
  _ <- check_array X ;;
  Ok (map (fun row => map2 inverse1_f32 (fitted s) row) X).

(** The four lists the inference loop appends to. *)
Record Predictions : Type := mkPredictions {
  predictions : list float;
  test_indices : list Date;
  predict_percentages : list float;
  actual_percentages : list float
}.

(** The guard of the inference loop. *)
Definition in_range (data : DataFrame) (y : Series) (original_idx : nat) : bool :=
  (original_idx <? nrows data) && (original_idx <? length (s_values y)).

(** One iteration of [for i, x_input in enumerate(X_val)].  The window is
    cast to [float32] for the network.  [y_pred_value] is a [float32]:
    [1 + y_pred_value] and [y_pred_value * 100] are single-precision
    results, and the product with the [float64] close is a binary64 one. *)
Definition inference_step (net : Net) (scaler_y : MinMaxScaler float)
    (data : DataFrame) (y : Series) (split_idx n_steps : nat)
    (acc : Predictions) (i : nat) (x_input : list (list float)) : result Predictions :=
  let x_input_tensor := map (map to_f32) x_input in
  let y_pred := net x_input_tensor in
  inv <- inverse_transform_f32 scaler_y [[f32_val y_pred]] ;;
  row0 <- getitem inv 0 ;;
  y_pred_value <- getitem row0 0 ;;
  let original_idx := split_idx + n_steps + i in
  if in_range data y original_idx then
    close <- getcol data "Close" ;;
    prev_close <- iloc close (Z.of_nat original_idx - 1) ;;
    date <- getitem (index data) original_idx ;;
    actual <- iloc (s_values y) (Z.of_nat original_idx) ;;
    Ok (mkPredictions
          (predictions acc ++ [(f32_add 1 y_pred_value * prev_close)%float])
          (test_indices acc ++ [date])
          (predict_percentages acc ++ [f32_mul y_pred_value 100])
          (actual_percentages acc ++ [(actual * 100)%float]))
  else Ok acc.

Fixpoint inference_loop (net : Net) (scaler_y : MinMaxScaler float)
    (data : DataFrame) (y : Series) (split_idx n_steps : nat)
    (acc : Predictions) (i : nat) (X_val : list (list (list float)))
    : result Predictions :=
  match X_val with
  | [] => Ok acc
  | x_input :: rest =>
      acc' <- inference_step net scaler_y data y split_idx n_steps acc i x_input ;;
      inference_loop net scaler_y data y split_idx n_steps acc' (S i) rest
  end.

(** The epoch loop, reduced to its divisions by the number of batches. *)
Definition epoch_loop (num_epochs n_train n_val : nat) (batch_size : positive)
    : result unit :=
  match num_epochs with
  | O => Ok tt
  | S _ =>
      if loader_len n_train batch_size =? 0 then Raise ZeroDivisionError
      else if loader_len n_val batch_size =? 0 then Raise ZeroDivisionError
      else Ok tt
  end.

(** The body shared by [train_and_predict_lstm] and [train_and_predict_gru]:
    the two functions differ only in the network class and in the label
    passed to the plotting calls. *)
Definition train_and_predict (net : Net) (data X : DataFrame) (y : Series)
    (n_steps num_epochs : nat) (batch_size : positive) : result Predictions :=
  let split_idx := split_index (nrows X) in
  let X_train_raw := iloc_to split_idx X in
  let X_val_raw := iloc_from split_idx X in
  let y_train_raw := firstn split_idx (s_values y) in
  let y_val_raw := skipn split_idx (s_values y) in
  scaler_y <- fit new_scaler (reshape_col y_train_raw) ;;
  scaler_X <- fit new_scaler (values X_train_raw) ;;
  y_train_scaled <- transform scaler_y (reshape_col y_train_raw) ;;
  y_val_scaled <- transform scaler_y (reshape_col y_val_raw) ;;
  X_train_scaled <- transform scaler_X (values X_train_raw) ;;
  X_val_scaled <- transform scaler_X (values X_val_raw) ;;
  '(X_train, y_train) <- create_sequences X_train_scaled y_train_scaled n_steps ;;
  '(X_val, y_val) <- create_sequences X_val_scaled y_val_scaled n_steps ;;
  (* input_size = X_train.shape[2] *)
  input_size <- match X_train with
                | [] => Raise IndexError
                | _ => Ok (length (columns X))
                end ;;
  _ <- epoch_loop num_epochs (length X_train) (length X_val) batch_size ;;
  inference_loop net scaler_y data y split_idx n_steps
    (mkPredictions [] [] [] []) 0 X_val.

Definition train_and_predict_lstm (lstm : Net) := train_and_predict lstm.
Definition train_and_predict_gru (gru : Net) := train_and_predict gru.

(* ================================================================== *)
(** ** process_stock_data.get_daily_kline, fetch_stock_history and process_all *)
(* ================================================================== *)

(** Timestamps compare chronologically. *)
Definition Date_leb (a b : Date) : bool :=
  ((year a <? year b) ||
   ((year a =? year b) &&
    ((month a <? month b) || ((month a =? month b) && (day a <=? day b)))))%Z.

(** An index in ascending order of date. *)
Definition chronological (idx : list Date) : Prop :=
  StronglySorted (fun a b => Date_leb a b = true) idx.

(** [df[mask]]: a new table with the rows a boolean mask selects. *)
Definition filter_rows (mask : list bool) (df : DataFrame) : DataFrame :=
  mkDF (select mask (index df))
       (map (fun p => (fst p, select mask (snd p))) (columns df)).

(** One entry of the ['values'] list in the answer of the service, with its
    date read by [pd.to_datetime] and its five fields converted by
    [astype(float)]. *)
Record Bar : Type := mkBar {
  bar_datetime : Date;
  bar_open : float;
  bar_high : float;
  bar_low : float;
  bar_close : float;
  bar_volume : float
}.

(** The remote service: for a symbol, the ['values'] list of the JSON answer
    ([None] when the answer has no such key), or the exception the request
    raised. *)
Definition Service : Type := string -> result (option (list Bar)).

(** Lines 32-43: the table of the listed bars, in the order of the list,
    with the renamed columns and the date as index. *)
Definition frame_of_values (values : list Bar) : DataFrame :=
  mkDF (map bar_datetime values)
       [ ("Open", map bar_open values); ("High", map bar_high values);
         ("Low", map bar_low values); ("Close", map bar_close values);
         ("Volume", map bar_volume values) ].

(** Insertion into an ascending list, before the first item that [x] does
    not come after: the step of a stable sort. *)
Fixpoint insert_sorted {A : Type} (leb : A -> A -> bool) (x : A) (l : list A) : list A :=
  match l with
  | [] => [x]
  | y :: r => if leb x y then x :: l else y :: insert_sorted leb x r
  end.

Definition sort_by {A : Type} (leb : A -> A -> bool) (l : list A) : list A :=
  fold_right (insert_sorted leb) [] l.

(** [df.sort_index()]: a new table with the rows in ascending order of
    date.  Rows of the same date keep their order here; pandas does not
    promise an order for them. *)
Definition sort_index (df : DataFrame) : DataFrame :=
  let order :=
    map snd (sort_by (fun a b => Date_leb (fst a) (fst b))
                     (combine (index df) (seq 0 (nrows df)))) in
  mkDF (map (fun i => nth i (index df) (mkDate 0 0 0)) order)
       (map (fun p => (fst p, map (fun i => nth i (snd p) nan) order)) (columns df)).

(** Lines 13-47.  Without ['values'] the function prints the message of
    the service and returns [pd.DataFrame()]; an empty list gives a table
    without a ['Date'] column, which line 42 reads. *)
Definition get_daily_kline (service : Service) (symbol : string) : result DataFrame :=
  data <- service symbol ;;
  match data with
  | None => Ok empty_frame
  | Some [] => Raise KeyError
  | Some values => Ok (sort_index (frame_of_values values))
  end.

(** Lines 163-170.  The row selector keeps the dates [d] with
    [date_from <= d <= date_to]; indexing with it builds a new table, which
    is the one [compute_indicators] then works on. *)
Definition fetch_stock_history (service : Service) (stock_symbol : string)
    (date_from date_to : Date) : result DataFrame :=
  df_raw <- get_daily_kline service stock_symbol ;;
  if empty df_raw then Ok empty_frame
  else
    let df_raw :=
      filter_rows (map (fun d => Date_leb date_from d && Date_leb d date_to) (index df_raw))
                  df_raw in
    returned (compute_indicators df_raw).

(** Lines 205-209: the wrapper the user interface imports. *)
Definition get_stock_data (service : Service) (ticker : string)
    (start_date end_date : Date) : result DataFrame :=
  fetch_stock_history service ticker start_date end_date.

Definition symbols : list string :=
  [ "MSFT"; "AAPL"; "UBER"; "IBM"; "NVDA";
    "JPM"; "BAC"; "V"; "MS"; "MA";
    "AMZN"; "MCD"; "NKE"; "TSLA"; "SBUX";
    "META"; "NFLX"; "TMUS"; "DIS"; "T";
    "LLY"; "TMO"; "MRK"; "ABBV"; "GILD";
    "WM"; "DE"; "BA"; "GE"; "HON" ].

(** What a run of the batch leaves behind: the tables handed to [to_csv]
    with the symbol that names the file, and the arguments of the calls of
    [time.sleep], in seconds, both in the order of the calls. *)
Record Batch : Type := mkBatch {
  written : list (string * DataFrame);
  sleeps : list nat
}.

(** Lines 199-204: the pause after the symbol at position [i]. *)
Definition pause (i : nat) : nat :=
  if (i + 1) mod 7 =? 0 then 65 else 8.

(** Lines 188-204, the body of the loop for the symbol [code] at position
    [i]: any exception of the [try] block is caught and reported, and the
    pause follows in every case. *)
Definition process_symbol (service : Service) (from_date to_date : Date)
    (st : Batch) (i : nat) (code : string) : Batch :=
  let files :=
    match fetch_stock_history service code from_date to_date with
    | Ok df_result =>
        if empty df_result then written st else written st ++ [(code, df_result)]
    | Raise err => written st
    end in
  mkBatch files (sleeps st ++ [pause i]).

(** [for i, code in enumerate(...)], from position [i] on. *)
Fixpoint process_loop (service : Service) (from_date to_date : Date)
    (i : nat) (codes : list string) (st : Batch) : Batch :=
  match codes with
  | [] => st
  | code :: rest =>
      process_loop service from_date to_date (S i) rest
        (process_symbol service from_date to_date st i code)
  end.

Definition process_all (service : Service) : Batch :=
  process_loop service (mkDate 2020 1 1) (mkDate 2024 1 1) 0 symbols
    (mkBatch [] []).

(* ================================================================== *)
(** ** model.visualize_predictions, model.predict and the batch driver *)
(* ================================================================== *)

(** *** [np.mean] over a one-dimensional [float64] array

    numpy adds the elements of an array pairwise.  Fewer than eight
    elements are added one after the other.  Up to 128 elements are added
    into eight running sums, element [i] into sum [i mod 8]; the eight are
    then combined as a balanced tree and what is left over after the last
    full group of eight is added to the result.  A longer array is cut in
    two near its middle, at a multiple of eight, and the sums of the halves
    are added. *)
Fixpoint accumulate8 (groups : nat) (r a : list float) : list float * list float :=
  match groups with
  | O => (r, a)
  | S k => accumulate8 k (map2 PrimFloat.add r (firstn 8 a)) (skipn 8 a)
  end.

Definition sum_block (a : list float) : float :=
  let add := PrimFloat.add in
  let (r, rest) := accumulate8 (length a / 8 - 1) (firstn 8 a) (skipn 8 a) in
  let r := fun k => nth k r nan in
  let res := add (add (add (r 0) (r 1)) (add (r 2) (r 3)))
                 (add (add (r 4) (r 5)) (add (r 6) (r 7))) in
  fold_left add rest res.

(** [fuel] bounds the depth of the halving; the length of the array is
    always enough. *)
Fixpoint pairwise_sum_upto (fuel : nat) (a : list float) : float :=
  let n := length a in
  if n <? 8 then fold_left PrimFloat.add a (-0)%float
  else if n <=? 128 then sum_block a
  else match fuel with
       | O => nan
       | S fuel' =>
           let n2 := n / 2 - (n / 2) mod 8 in
           (pairwise_sum_upto fuel' (firstn n2 a) + pairwise_sum_upto fuel' (skipn n2 a))%float
       end.

Definition pairwise_sum (a : list float) : float := pairwise_sum_upto (length a) a.

(** [np.add.reduce]: the sum of no element is [0.0]; otherwise the pairwise
    sum is added to the start value [-0.0], which leaves it as it is.
    (Releases of numpy that start from [+0.0] give another result only when
    every element is [-0.0].) *)
Definition np_sum (a : list float) : float :=
  match a with
  | [] => 0%float
  | _ => (-0 + pairwise_sum a)%float
  end.

Definition np_mean (a : list float) : float := (np_sum a / float_of_nat (length a))%float.

Record Metrics : Type := mkMetrics {
  rmse : float;
  mae : float;
  accuracy : float
}.

(** [s.loc[labels]] for a list of labels: the rows that carry each label in
    turn, all of them when the index repeats a label; [KeyError] for a label
    that is not in the index. *)
Fixpoint loc_labels (idx : list Date) (vals : column) (labels : list Date)
    : result column :=
  match labels with
  | [] => Ok []
  | d :: rest =>
      if existsb (Date_eqb d) idx then
        more <- loc_labels idx vals rest ;;
        Ok (select (map (Date_eqb d) idx) vals ++ more)
      else Raise KeyError
  end.

(** An element-wise numpy operation on two one-dimensional arrays: equal
    lengths pair up, an array of one element is broadcast, any other pair of
    lengths raises [ValueError]. *)
Definition broadcast (f : float -> float -> float) (a b : list float)
    : result (list float) :=
  if length a =? length b then Ok (map2 f a b)
  else match a, b with
       | [x], _ => Ok (map (f x) b)
       | _, [y] => Ok (map (fun x => f x y) a)
       | _, _ => Raise ValueError
       end.

(** Lines 279-291.  [np.mean] is the sum divided by the count (the mean of
    an empty array is [nan]); the sum is taken here from left to right.  The
    plot is drawn inside a [try] of its own and does not change the
    metrics. *)
Definition visualize_predictions (data : DataFrame) (test_indices : list Date)
    (predictions : list float) : result Metrics :=
  close <- getcol data "Close" ;;
  actual_prices <- loc_labels (index data) close test_indices ;;
  let predicted_prices := predictions in
  error <- broadcast PrimFloat.sub predicted_prices actual_prices ;;
  let mse := np_mean (map (fun e => (e * e)%float) error) in
  let rmse := PrimFloat.sqrt mse in
  let mae := np_mean (map PrimFloat.abs error) in
  relative <- broadcast PrimFloat.div (map PrimFloat.abs error) actual_prices ;;
  let accuracy := (1 - np_mean relative)%float in
  Ok (mkMetrics rmse mae accuracy).

(** Lines 416-427: the table of dates and predictions; [pd.DataFrame]
    refuses two columns of different lengths. *)
Definition save_predictions_with_indices (test_indices : list Date)
    (predictions : list float) : result unit :=
  if length test_indices =? length predictions then Ok tt else Raise ValueError.

(** Lines 430-484.  [lstm] and [gru] stand for the two networks after
    training; the window is the default of the training functions, 30 rows.
    The summary written at the end is computed from the one entry of
    [prediction_metrics] and cannot fail. *)
Definition predict (lstm gru : Net) (stock_data : DataFrame)
    (stock_features : DataFrame * Series) (model_type : string)
    (epochs : nat) (batch_size : positive) : result Metrics :=
  let data := stock_data in
  let '(X, y) := stock_features in
  r <- (if String.eqb model_type "LSTM"
        then train_and_predict_lstm lstm data X y 30 epochs batch_size
        else if String.eqb model_type "GRU"
        then train_and_predict_gru gru data X y 30 epochs batch_size
        else Raise ValueError) ;;
  metrics <- visualize_predictions data (test_indices r) (predictions r) ;;
  _ <- save_predictions_with_indices (test_indices r) (predictions r) ;;
  Ok metrics.

(** [d[key] = value] on a Python dict, kept in insertion order. *)
Definition dict_set {V : Type} (key : string) (value : V) (d : list (string * V))
    : list (string * V) :=
  if existsb (fun p => String.eqb key (fst p)) d
  then map (fun p => if String.eqb key (fst p) then (key, value) else p) d
  else d ++ [(key, value)].

(** The two dictionaries the batch driver collects. *)
Record Tally : Type := mkTally {
  all_lstm_metrics : list (string * Metrics);
  all_gru_metrics : list (string * Metrics)
}.

(** Lines 503-534, the body of the driver's loop for one ticker.
    [read_csv] stands for [get_stock_data] of model.py with the file system
    behind it.  Any exception abandons the ticker at the point where it
    is raised; a metrics dictionary has three keys and is always true. *)
Definition driver_step (read_csv : string -> result DataFrame) (lstm gru : string -> Net)
    (st : Tally) (ticker_name : string) : Tally :=
  match read_csv ticker_name with
  | Raise _ => st
  | Ok stock_data =>
      match format_feature stock_data with
      | Raise _ => st
      | Ok stock_features =>
          match predict (lstm ticker_name) (gru ticker_name) stock_data stock_features
                        "LSTM" 100 64 with
          | Raise _ => st
          | Ok lstm_metrics =>
              let st := mkTally (dict_set ticker_name lstm_metrics (all_lstm_metrics st))
                                (all_gru_metrics st) in
              match predict (lstm ticker_name) (gru ticker_name) stock_data stock_features
                            "GRU" 100 64 with
              | Raise _ => st
              | Ok gru_metrics =>
                  mkTally (all_lstm_metrics st)
                          (dict_set ticker_name gru_metrics (all_gru_metrics st))
              end
          end
      end
  end.

Definition driver (read_csv : string -> result DataFrame) (lstm gru : string -> Net)
    (tickers : list string) : Tally :=
  fold_left (driver_step read_csv lstm gru) tickers (mkTally [] []).

(* ================================================================== *)
(** ** visualization.plot_cumulative_earnings and plot_accuracy_comparison *)
(* ================================================================== *)

(** [np.cumsum] on a one-dimensional array: a missing value is carried on. *)
Definition np_cumsum (l : list float) : list float :=
  match l with
  | [] => []
  | x :: r => x :: scan (fun acc v => ((acc + v)%float, (acc + v)%float)) x r
  end.

(** Lines 105-108: the two curves of the plot, the cumulated actual returns
    and the cumulated returns of the days for which the model predicted a
    rise. *)
Definition cumulative_earnings (actual_percentages predict_percentages : list float)
    : list float * list float :=
  let cumulative_naive_percentage := np_cumsum actual_percentages in
  let cumulative_model_percentage :=
    np_cumsum (map2 (fun p a => if (0 <? p)%float then a else 0%float)
                    predict_percentages actual_percentages) in
  (cumulative_naive_percentage, cumulative_model_percentage).

(** [d[key]] on a Python dict, raising [KeyError] for an unknown key. *)
Definition dict_getitem {V : Type} (d : list (string * V)) (key : string) : result V :=
  match find (fun p => String.eqb key (fst p)) d with
  | Some p => Ok (snd p)
  | None => Raise KeyError
  end.

(** [sorted(...)] on a list of strings. *)
Definition sorted (l : list string) : list string := sort_by String.leb l.

(** [[d[t]['accuracy'] * 100 for t in tickers]]. *)
Fixpoint accuracies (d : list (string * Metrics)) (tickers : list string)
    : result (list float) :=
  match tickers with
  | [] => Ok []
  | t :: rest =>
      m <- dict_getitem d t ;;
      more <- accuracies d rest ;;
      Ok ((accuracy m * 100)%float :: more)
  end.

(** Lines 146-161: what the grouped bar chart shows, the tickers and the
    two rows of bar heights.  The function returns [None] without a chart
    when a dictionary is empty and when anything raises; a ticker without
    GRU metrics gets the height of [{'accuracy': 0}]. *)
Definition plot_accuracy_comparison (lstm_metrics gru_metrics : list (string * Metrics))
    : option (list string * list float * list float) :=
  if (length lstm_metrics =? 0) || (length gru_metrics =? 0) then None
  else
    let tickers := sorted (map fst lstm_metrics) in
    match accuracies lstm_metrics tickers with
    | Raise _ => None
    | Ok lstm_acc =>
        let gru_acc :=
          map (fun t => match dict_getitem gru_metrics t with
                        | Ok m => (accuracy m * 100)%float
                        | Raise _ => (0 * 100)%float
                        end) tickers in
        Some (tickers, lstm_acc, gru_acc)
    end.

(* ================================================================== *)
(** ** Sample tables *)
(* ================================================================== *)

(** A synthetic table of [n] daily bars starting on 2020-01-01; the close
    of row [i] is [100 + (7 i + bump i) mod 11]. *)
Definition mk_bars (bump : nat -> nat) (n : nat) : DataFrame :=
  let idx := map (fun i => mkDate 2020 (1 + Z.of_nat (i / 28)) (1 + Z.of_nat (i mod 28)))
                 (seq 0 n) in
  let close := map (fun i => (100 + float_of_nat ((i * 7 + bump i) mod 11))%float) (seq 0 n) in
  let high := map (fun x => (x + 2)%float) close in
  let low := map (fun x => (x - 3)%float) close in
  let open := map (fun x => (x - 1)%float) close in
  let vol := map (fun i => (1000 + float_of_nat ((i * 13 + bump i) mod 17))%float) (seq 0 n) in
  mkDF idx [("Open", open); ("High", high); ("Low", low); ("Close", close); ("Volume", vol)].

Definition sample_bars : DataFrame := mk_bars (fun _ => 0) 62.

(** The same bars, changed from row 55 (2020-02-28) on. *)
Definition sample_bars_perturbed : DataFrame :=
  mk_bars (fun i => if 55 <=? i then 3 else 0) 62.

(** The indicator table of the sample bars, as [compute_indicators] returns it. *)
Definition sample_table : DataFrame :=
  match returned (compute_indicators sample_bars) return DataFrame with
  | Ok t => t
  | Raise _ => empty_frame
  end.

Definition sample_table_perturbed : DataFrame :=
  match returned (compute_indicators sample_bars_perturbed) return DataFrame with
  | Ok t => t
  | Raise _ => empty_frame
  end.

(** Four bars whose third close jumps by 50%. *)
Definition spike_bars : DataFrame :=
  mkDF [mkDate 2024 1 2; mkDate 2024 1 3; mkDate 2024 1 4; mkDate 2024 1 5]
       [ ("Open", [99; 100; 149; 150]%float);
         ("High", [101; 102; 152; 153]%float);
         ("Low", [98; 99; 148; 149]%float);
         ("Close", [100; 100; 150; 151]%float);
         ("Volume", [1000; 1100; 9000; 1200]%float) ].

(** A table without a [Close] column. *)
Definition no_close_bars : DataFrame :=
  mkDF [mkDate 2024 1 2] [("Open", [99]%float); ("Volume", [1000]%float)].

(** A network that answers 0.5 (in scaled units) for every window. *)
Definition const_net : Net := fun _ => mkF32 0.5 eq_refl.

(** [format_feature] on the sample indicator table: 11 rows, so the split
    index is 8 and the validation slice has 3 rows. *)
Definition sample_features : DataFrame * Series :=
  match format_feature sample_table return DataFrame * Series with
  | Ok p => p
  | Raise _ => (empty_frame, mkSeries [] [])
  end.

Definition sample_X : DataFrame := fst sample_features.
Definition sample_y : Series := snd sample_features.

(** A longer history, enough for the default window of 30 rows: 215 bars
    give an indicator table of 165 rows and 164 feature rows, so the split
    index is 131 and the validation slice has 33 rows, hence 3 windows. *)
Definition long_bars : DataFrame := mk_bars (fun _ => 0) 215.

Definition long_table : DataFrame :=
  match returned (compute_indicators long_bars) return DataFrame with
  | Ok t => t
  | Raise _ => empty_frame
  end.

Definition long_features : DataFrame * Series :=
  match format_feature long_table return DataFrame * Series with
  | Ok p => p
  | Raise _ => (empty_frame, mkSeries [] [])
  end.

Definition long_X : DataFrame := fst long_features.
Definition long_y : Series := snd long_features.

(** The target scaler fitted on the train slice of the long sample. *)
Definition long_scaler_y : MinMaxScaler float :=
  match fit new_scaler (reshape_col (firstn (split_index (nrows long_X)) (s_values long_y)))
        return MinMaxScaler float with
  | Ok s => s
  | Raise _ => new_scaler
  end.

(** The validation slice of the long sample and its windows of 30 rows. *)
Definition long_val_rows : list (list float) :=
  values (iloc_from (split_index (nrows long_X)) long_X).

Definition long_val_target : list (list float) :=
  reshape_col (skipn (split_index (nrows long_X)) (s_values long_y)).

Definition long_val_windows : list (list (list float)) * list (list float) :=
  match create_sequences long_val_rows long_val_target 30
        return list (list (list float)) * list (list float) with
  | Ok p => p
  | Raise _ => ([], [])
  end.



(** The sample bars followed by twenty bars at a close of 100, a high of 102
    and a low of 97. *)
Definition flat_tail_bars : DataFrame :=
  mkDF (index sample_bars ++
        map (fun i => mkDate 2021 (1 + Z.of_nat (i / 28)) (1 + Z.of_nat (i mod 28)))
            (seq 0 20))
       (map (fun p => (fst p,
                       snd p ++ repeat (if String.eqb (fst p) "High" then 102
                                        else if String.eqb (fst p) "Low" then 97
                                        else 100)%float 20))
            (columns sample_bars)).

Definition flat_tail_table : DataFrame :=
  match returned (compute_indicators flat_tail_bars) return DataFrame with
  | Ok t => t
  | Raise _ => empty_frame
  end.

(** The sample bars with a volume of 2e306 in every row: the product of a
    close and the volume is beyond the largest binary64 number, the sum of
    all 62 volumes is not. *)
Definition huge_volume_bars : DataFrame :=
  mkDF (index sample_bars)
       (map (fun p => (fst p, if String.eqb (fst p) "Volume"
                              then map (fun _ => 2e306%float) (snd p) else snd p))
            (columns sample_bars)).

Definition huge_volume_table : DataFrame :=
  match returned (compute_indicators huge_volume_bars) return DataFrame with
  | Ok t => t
  | Raise _ => empty_frame
  end.

(* ================================================================== *)
(** * Properties *)
(* ================================================================== *)

Arguments Let_In : simpl never.
Arguments add_indicators : simpl never.
Arguments clean_outliers : simpl never.

(** ** Lists, scans and windows *)

Lemma length_map2 {A B C : Type} (f : A -> B -> C) (l : list A) (l' : list B) :
  length (map2 f l l') = Nat.min (length l) (length l').
Proof.
  revert l'. induction l as [|a l IH]; intros [|b l']; simpl; auto.
Qed.

Lemma firstn_map2 {A B C : Type} (f : A -> B -> C) (n : nat) (l : list A) (l' : list B) :
  firstn n (map2 f l l') = map2 f (firstn n l) (firstn n l').
Proof.
  revert l l'. induction n as [|n IH]; intros [|a l] [|b l']; simpl; auto.
  rewrite IH. reflexivity.
Qed.

Lemma nth_map2 {A B C : Type} (f : A -> B -> C) (l : list A) (l' : list B) (i : nat) dA dB dC :
  i < length l -> i < length l' ->
  nth i (map2 f l l') dC = f (nth i l dA) (nth i l' dB).
Proof.
  revert l l'. induction i as [|i IH]; intros [|a l] [|b l']; simpl; intros; try lia; auto.
  apply IH; lia.
Qed.

Lemma length_scan {A S B : Type} (step : S -> A -> S * B) (s : S) (l : list A) :
  length (scan step s l) = length l.
Proof.
  revert s. induction l as [|x l IH]; intros s; simpl; auto.
  destruct (step s x). simpl. rewrite IH. reflexivity.
Qed.

Lemma firstn_scan {A S B : Type} (step : S -> A -> S * B) (n : nat) (s : S) (l : list A) :
  firstn n (scan step s l) = scan step s (firstn n l).
Proof.
  revert s l. induction n as [|n IH]; intros s [|x l]; simpl; auto.
  destruct (step s x). simpl. rewrite IH. reflexivity.
Qed.

Lemma length_shift1 (c : column) : length (shift1 c) = length c.
Proof. unfold shift1. rewrite length_firstn. simpl. lia. Qed.

Lemma firstn_shift1 (n : nat) (c : column) :
  firstn n (shift1 c) = shift1 (firstn n c).
Proof.
  unfold shift1. rewrite firstn_firstn, length_firstn.
  destruct (Nat.min n (length c)) as [|k] eqn:E; [reflexivity|].
  simpl. rewrite firstn_firstn. f_equal. f_equal. lia.
Qed.

Lemma firstn_S_shift1 (n : nat) (c : column) :
  n < length c -> firstn (S n) (shift1 c) = nan :: firstn n c.
Proof.
  intros H. unfold shift1. rewrite firstn_firstn.
  replace (Nat.min (S n) (length c)) with (S n) by lia. reflexivity.
Qed.

Lemma nth_shift1 (n : nat) (c : column) :
  S n < length c -> nth (S n) (shift1 c) nan = nth n c nan.
Proof.
  intros H. unfold shift1. rewrite nth_firstn.
  destruct (S n <? length c) eqn:E; [reflexivity|].
  apply Nat.ltb_ge in E. lia.
Qed.

Lemma firstn_seq (n a len : nat) : firstn n (seq a len) = seq a (Nat.min n len).
Proof.
  revert a len. induction n as [|n IH]; intros a [|len]; simpl; auto.
  rewrite IH. reflexivity.
Qed.

Lemma length_inf_to_nan (c : column) : length (inf_to_nan c) = length c.
Proof. apply length_map. Qed.

Lemma firstn_inf_to_nan (n : nat) (c : column) :
  firstn n (inf_to_nan c) = inf_to_nan (firstn n c).
Proof. apply firstn_map. Qed.

Lemma length_rolling (w : nat) (agg : list float -> float) (c : column) :
  length (rolling w agg c) = length c.
Proof. unfold rolling. rewrite length_map, length_seq. apply length_inf_to_nan. Qed.

Lemma firstn_rolling (w : nat) (agg : list float -> float) (n : nat) (c : column) :
  firstn n (rolling w agg c) = rolling w agg (firstn n c).
Proof.
  unfold rolling. cbv zeta. rewrite <- firstn_inf_to_nan.
  generalize (inf_to_nan c). clear c. intros c.
  rewrite firstn_map, firstn_seq, length_firstn.
  apply map_ext_in. intros i Hi. apply in_seq in Hi.
  destruct (S i <? w) eqn:E; [reflexivity|].
  apply Nat.ltb_ge in E. f_equal. unfold window_at.
  rewrite skipn_firstn_comm, firstn_firstn. f_equal. lia.
Qed.

Lemma existsb_false_Forall {A : Type} (f : A -> bool) (l : list A) :
  existsb f l = false <-> Forall (fun x => f x = false) l.
Proof.
  induction l as [|x l IH]; simpl.
  - split; [constructor | reflexivity].
  - rewrite orb_false_iff, IH. split.
    + intros [H1 H2]. constructor; assumption.
    + intros H. inversion H. auto.
Qed.

(** ** Columns that agree on a prefix

    Every pandas operation used by the indicator engine is causal: the first
    [n] rows of its result are determined by the first [n] rows of its
    arguments.  [shift(1)] is strictly causal: it buys one more row. *)

Lemma agree_le (n m : nat) (a b : column) : m <= n -> agree n a b -> agree m a b.
Proof.
  unfold agree. intros Hm H.
  rewrite <- (Nat.min_l m n Hm), <- !firstn_firstn, H. reflexivity.
Qed.

Lemma agree_nth (n k : nat) (a b : column) (d : float) :
  agree n a b -> k < n -> nth k a d = nth k b d.
Proof.
  unfold agree. intros H Hk.
  pose proof (nth_firstn n a k d) as Ha. pose proof (nth_firstn n b k d) as Hb.
  apply Nat.ltb_lt in Hk. rewrite Hk in Ha, Hb. rewrite <- Ha, <- Hb, H. reflexivity.
Qed.

Lemma agree_map (f : float -> float) (n : nat) (a b : column) :
  agree n a b -> agree n (map f a) (map f b).
Proof. unfold agree. intros H. rewrite !firstn_map, H. reflexivity. Qed.

Lemma agree_map2 (f : float -> float -> float) (n : nat) (a b a' b' : column) :
  agree n a b -> agree n a' b' -> agree n (map2 f a a') (map2 f b b').
Proof. unfold agree. intros H H'. rewrite !firstn_map2, H, H'. reflexivity. Qed.

Lemma agree_mask_nan (n : nat) (m m' : list bool) (a b : column) :
  firstn n m = firstn n m' -> agree n a b -> agree n (mask_nan m a) (mask_nan m' b).
Proof. unfold agree, mask_nan. intros H H'. rewrite !firstn_map2, H, H'. reflexivity. Qed.

Lemma agree_scan {S : Type} (step : S -> float -> S * float) (s : S) (n : nat) (a b : column) :
  agree n a b -> agree n (scan step s a) (scan step s b).
Proof. unfold agree. intros H. rewrite !firstn_scan, H. reflexivity. Qed.

Lemma agree_rolling (w : nat) (agg : list float -> float) (n : nat) (a b : column) :
  agree n a b -> agree n (rolling w agg a) (rolling w agg b).
Proof. unfold agree. intros H. rewrite !firstn_rolling, H. reflexivity. Qed.

Lemma agree_shift1 (n : nat) (a b : column) :
  agree n a b -> agree n (shift1 a) (shift1 b).
Proof. unfold agree. intros H. rewrite !firstn_shift1, H. reflexivity. Qed.

(** The one-period lag: rows [0..n] of a shifted column are determined by
    rows [0..n-1] of the column. *)
Lemma lag_shift1 (n : nat) (a b : column) :
  n < length a -> n < length b -> agree n a b -> agree (S n) (shift1 a) (shift1 b).
Proof.
  unfold agree. intros Ha Hb H. rewrite !firstn_S_shift1, H by assumption. reflexivity.
Qed.

Lemma agree_repeat_nan (n N1 N2 : nat) :
  n <= N1 -> n <= N2 -> agree n (repeat nan N1) (repeat nan N2).
Proof.
  unfold agree. intros H1 H2.
  replace N1 with (n + (N1 - n)) by lia. replace N2 with (n + (N2 - n)) by lia.
  rewrite !repeat_app, !firstn_app, !repeat_length, !Nat.sub_diag. simpl.
  rewrite !firstn_all2 by (rewrite repeat_length; lia). reflexivity.
Qed.

(** *** The on-balance-volume loop *)

Lemma obv_loop_upto (close volume : column) (n : nat) :
  obv_loop close volume n = obv_upto close volume (n - 1).
Proof. reflexivity. Qed.

Lemma obv_step_app (close volume : column) (obv : list float) (i : nat) :
  exists x, obv_step close volume obv i = obv ++ [x].
Proof.
  unfold obv_step.
  destruct (nth (i - 1) close nan <? nth i close nan)%float; [eauto|].
  destruct (nth i close nan <? nth (i - 1) close nan)%float; eauto.
Qed.

Lemma obv_upto_S (close volume : column) (k : nat) :
  obv_upto close volume (S k) = obv_step close volume (obv_upto close volume k) (S k).
Proof. unfold obv_upto. rewrite seq_S, fold_left_app. reflexivity. Qed.

Lemma length_obv_upto (close volume : column) (k : nat) :
  length (obv_upto close volume k) = S k.
Proof.
  induction k as [|k IH]; [reflexivity|].
  rewrite obv_upto_S.
  destruct (obv_step_app close volume (obv_upto close volume k) (S k)) as [x ->].
  rewrite length_app, IH. simpl. lia.
Qed.

Lemma length_obv_loop (close volume : column) (n : nat) :
  1 <= n -> length (obv_loop close volume n) = n.
Proof. intros H. rewrite obv_loop_upto, length_obv_upto. lia. Qed.

Lemma firstn_obv_upto (close volume : column) (j k : nat) :
  j <= k -> firstn (S j) (obv_upto close volume k) = obv_upto close volume j.
Proof.
  induction k as [|k IH]; intros Hj.
  - assert (j = 0) by lia. subst. reflexivity.
  - destruct (Nat.eq_dec j (S k)) as [->|Hne].
    + apply firstn_all2. rewrite length_obv_upto. lia.
    + rewrite obv_upto_S.
      destruct (obv_step_app close volume (obv_upto close volume k) (S k)) as [x ->].
      rewrite firstn_app, length_obv_upto.
      replace (S j - S k) with 0 by lia. simpl. rewrite app_nil_r. apply IH. lia.
Qed.

Lemma obv_upto_agree (c1 v1 c2 v2 : column) (k : nat) :
  agree (S k) c1 c2 -> agree (S k) v1 v2 -> obv_upto c1 v1 k = obv_upto c2 v2 k.
Proof.
  induction k as [|k IH]; intros Hc Hv; [reflexivity|].
  rewrite !obv_upto_S, IH by (eapply agree_le; [|eassumption]; lia).
  unfold obv_step.
  rewrite (agree_nth (S (S k)) (S k - 1) c1 c2 nan Hc) by lia.
  rewrite (agree_nth (S (S k)) (S k) c1 c2 nan Hc) by lia.
  rewrite (agree_nth (S (S k)) (S k) v1 v2 nan Hv) by lia.
  reflexivity.
Qed.

Lemma agree_obv_loop (n N1 N2 : nat) (c1 v1 c2 v2 : column) :
  n <= N1 -> n <= N2 -> agree n c1 c2 -> agree n v1 v2 ->
  agree n (obv_loop c1 v1 N1) (obv_loop c2 v2 N2).
Proof.
  intros H1 H2 Hc Hv. destruct n as [|n]; [reflexivity|].
  unfold agree. rewrite !obv_loop_upto.
  rewrite !firstn_obv_upto by lia.
  apply obv_upto_agree; assumption.
Qed.

Create HintDb agree.
#[local] Hint Resolve agree_map agree_map2 agree_scan agree_rolling agree_shift1 : agree.

(** Normalises the length of a column expression and closes the bound. *)
Ltac col_length :=
  repeat (rewrite ?length_map, ?length_map2, ?length_scan, ?length_rolling,
            ?length_shift1, ?Nat.min_id in *);
  lia.

(** Unfolds the element-wise operators down to [map], [map2], [scan],
    [rolling] and [shift1]. *)
Ltac unfold_columns :=
  cbv beta delta [rsi macd vwap upper_band lower_band true_range atr_now plus_di_now
                  minus_di_now adx_now cadd csub cmul cdiv cabs cneg kadd ksub kmul kdiv
                  mulk rowmax3 diff rolling_mean rolling_std ewm_mean cumsum clip_lower
                  clip_upper ffill pct_change mask_nan outlier_rows] zeta.

(** Syntax-directed: one rule per operator, down to the hypotheses. *)
Ltac causal_rules :=
  lazymatch goal with
  | |- agree _ (map _ _) (map _ _) => apply agree_map; causal_rules
  | |- agree _ (map2 _ _ _) (map2 _ _ _) => apply agree_map2; causal_rules
  | |- agree _ (scan _ _ _) (scan _ _ _) => apply agree_scan; causal_rules
  | |- agree _ (rolling _ _ _) (rolling _ _ _) => apply agree_rolling; causal_rules
  | |- agree _ (shift1 _) (shift1 _) => apply agree_shift1; causal_rules
  | |- _ => eauto with agree
  end.

Ltac causal := unfold_columns; causal_rules.

(** ** Tables: reading and writing columns *)

Lemma find_app_pair (f : string * column -> bool) (l l' : list (string * column)) :
  find f (l ++ l') = match find f l with Some p => Some p | None => find f l' end.
Proof. induction l as [|a l IH]; simpl; auto. destruct (f a); auto. Qed.

Lemma find_map_replace (name : string) (v : column) (l : list (string * column)) (c : string) :
  find (fun p => String.eqb c (fst p))
       (map (fun p => if String.eqb name (fst p) then (fst p, v) else p) l) =
  match find (fun p => String.eqb c (fst p)) l with
  | Some p => Some (if String.eqb name (fst p) then (fst p, v) else p)
  | None => None
  end.
Proof.
  induction l as [|[n w] l IH]; simpl; auto.
  destruct (String.eqb name n) eqn:E1; simpl; destruct (String.eqb c n) eqn:E2; simpl;
    rewrite ?E1; auto.
Qed.

Lemma has_col_find (c : string) (df : DataFrame) :
  has_col c df =
  match find (fun p => String.eqb c (fst p)) (columns df) with
  | Some _ => true
  | None => false
  end.
Proof.
  unfold has_col, names. induction (columns df) as [|[n w] l IH]; simpl; auto.
  destruct (String.eqb c n); auto.
Qed.

Lemma getcol_col (df : DataFrame) (c : string) :
  has_col c df = true -> getcol df c = Ok (col c df).
Proof.
  rewrite has_col_find. unfold getcol, col.
  destruct (find _ (columns df)); [reflexivity | discriminate].
Qed.

Lemma getcol_missing (df : DataFrame) (c : string) :
  has_col c df = false -> getcol df c = Raise KeyError.
Proof.
  rewrite has_col_find. unfold getcol.
  destruct (find _ (columns df)); [discriminate | reflexivity].
Qed.

Lemma col_missing (df : DataFrame) (c : string) : has_col c df = false -> col c df = [].
Proof.
  rewrite has_col_find. unfold col.
  destruct (find _ (columns df)); [discriminate | reflexivity].
Qed.

Lemma col_in_columns (df : DataFrame) (c : string) :
  has_col c df = true -> In (c, col c df) (columns df).
Proof.
  rewrite has_col_find. unfold col.
  destruct (find _ (columns df)) as [[n w]|] eqn:E; [|discriminate].
  intros _. apply find_some in E. destruct E as [Hin Hn]. simpl in *.
  apply String.eqb_eq in Hn. subst. exact Hin.
Qed.

Lemma wf_col (df : DataFrame) (c : string) :
  wf df -> has_col c df = true -> length (col c df) = nrows df.
Proof.
  intros Hwf Hc. apply col_in_columns in Hc.
  unfold wf in Hwf. rewrite Forall_forall in Hwf. exact (Hwf _ Hc).
Qed.

Lemma col_set_col (c name : string) (v : column) (df : DataFrame) :
  col c (set_col name v df) = if String.eqb c name then v else col c df.
Proof.
  unfold set_col, col. rewrite (has_col_find name df).
  destruct (find (fun p => String.eqb name (fst p)) (columns df)) eqn:Hf; simpl.
  - rewrite find_map_replace.
    destruct (String.eqb c name) eqn:E.
    + apply String.eqb_eq in E. subst c. rewrite Hf.
      apply find_some in Hf. destruct Hf as [_ Hf]. rewrite Hf. reflexivity.
    + destruct (find (fun p0 => String.eqb c (fst p0)) (columns df)) eqn:Hc; auto.
      apply find_some in Hc. destruct Hc as [_ Hc].
      destruct (String.eqb name (fst p0)) eqn:E2; auto.
      apply String.eqb_eq in E2. apply String.eqb_eq in Hc. subst.
      rewrite String.eqb_refl in E. discriminate.
  - rewrite find_app_pair.
    destruct (find (fun p => String.eqb c (fst p)) (columns df)) eqn:Hc.
    + destruct (String.eqb c name) eqn:E; auto.
      apply String.eqb_eq in E. subst. congruence.
    + simpl. destruct (String.eqb c name); auto.
Qed.

Lemma has_col_set_col (c name : string) (v : column) (df : DataFrame) :
  has_col c (set_col name v df) = String.eqb c name || has_col c df.
Proof.
  rewrite (has_col_find c (set_col name v df)). unfold set_col.
  rewrite (has_col_find name df).
  destruct (find (fun p => String.eqb name (fst p)) (columns df)) eqn:Hf; simpl.
  - rewrite find_map_replace, (has_col_find c df).
    destruct (find (fun p => String.eqb c (fst p)) (columns df)) eqn:Hc.
    + symmetry. apply orb_true_r.
    + destruct (String.eqb c name) eqn:E; [|reflexivity].
      apply String.eqb_eq in E. subst. congruence.
  - rewrite find_app_pair, (has_col_find c df).
    destruct (find (fun p => String.eqb c (fst p)) (columns df)); simpl.
    + symmetry. apply orb_true_r.
    + destruct (String.eqb c name); reflexivity.
Qed.

Lemma index_set_col (name : string) (v : column) (df : DataFrame) :
  index (set_col name v df) = index df.
Proof. unfold set_col. destruct (has_col name df); reflexivity. Qed.

Lemma wf_set_col (name : string) (v : column) (df : DataFrame) :
  wf df -> length v = nrows df -> wf (set_col name v df).
Proof.
  unfold wf, set_col, nrows. intros Hwf Hv.
  destruct (has_col name df); simpl.
  - apply Forall_map. eapply Forall_impl; [|exact Hwf].
    intros [n w] H. simpl in *. destruct (String.eqb name n); simpl; assumption.
  - apply Forall_app. split; [assumption|]. constructor; [assumption|constructor].
Qed.

Lemma col_set_cols (c : string) (l : list (string * column)) (df : DataFrame) :
  col c (set_cols l df) = match assigned c l with Some v => v | None => col c df end.
Proof.
  unfold set_cols. revert df. induction l as [|[n v] l IH]; intros df; simpl; auto.
  rewrite IH. destruct (assigned c l); auto. rewrite col_set_col.
  destruct (String.eqb c n); reflexivity.
Qed.

Lemma has_col_set_cols (c : string) (l : list (string * column)) (df : DataFrame) :
  has_col c (set_cols l df) =
  match assigned c l with Some _ => true | None => has_col c df end.
Proof.
  unfold set_cols. revert df. induction l as [|[n v] l IH]; intros df; simpl; auto.
  rewrite IH. destruct (assigned c l); auto. rewrite has_col_set_col.
  destruct (String.eqb c n); reflexivity.
Qed.

Lemma index_set_cols (l : list (string * column)) (df : DataFrame) :
  index (set_cols l df) = index df.
Proof.
  unfold set_cols. revert df. induction l as [|[n v] l IH]; intros df; simpl; auto.
  rewrite IH. apply index_set_col.
Qed.

Lemma wf_set_cols (l : list (string * column)) (df : DataFrame) :
  wf df -> Forall (fun p => length (snd p) = nrows df) l -> wf (set_cols l df).
Proof.
  unfold set_cols. revert df. induction l as [|[n v] l IH]; intros df Hwf Hl; simpl; auto.
  inversion Hl; subst. simpl in *. apply IH.
  - apply wf_set_col; assumption.
  - unfold nrows in *. rewrite index_set_col. assumption.
Qed.

(** ** The body of [add_indicators], statement by statement *)

Lemma let_elim {A B : Type} (v : A) (b : A -> B) (R : B) :
  (forall x, x = v -> b x = R) -> Let_In v b = R.
Proof. intros H. exact (H v eq_refl). Qed.

Lemma raw_kept_set_col (df0 df : DataFrame) (name : string) (v : column) :
  existsb (String.eqb name) ohlcv = false ->
  raw_kept df0 df -> raw_kept df0 (set_col name v df).
Proof.
  intros Hn (Hr & Hi & Ho & Hh & Hl & Hc & Hv). unfold raw_kept.
  unfold nrows in *.
  rewrite index_set_col, !col_set_col.
  simpl in Hn. repeat (apply orb_false_elim in Hn; destruct Hn as [? Hn]).
  rewrite !(String.eqb_sym _ name).
  repeat match goal with H : String.eqb name _ = false |- _ => rewrite H; clear H end.
  tauto.
Qed.

(** One assignment [df_stock[name] = v]: name the new table, record what it
    keeps, and read later columns from the starting table. *)
Ltac step_assign df0 :=
  lazymatch goal with
  | |- Let_In (set_col ?n ?v ?d) ?b = ?R =>
      refine (let_elim (set_col n v d) b R _);
      let y := fresh "df" in
      let Hy := fresh "E" in
      let Iy := fresh "K" in
      intros y Hy; cbv beta;
      assert (Iy : raw_kept df0 y)
        by (rewrite Hy; apply raw_kept_set_col; [reflexivity | assumption]);
      let Hr := fresh in
      let Hi := fresh in
      let Ho := fresh in
      let Hh := fresh in
      let Hl := fresh in
      let Hc := fresh in
      let Hv := fresh in
      pose proof Iy as (Hr & Hi & Ho & Hh & Hl & Hc & Hv);
      rewrite ?Hr, ?Hi, ?Ho, ?Hh, ?Hl, ?Hc, ?Hv; clear Hr Hi Ho Hh Hl Hc Hv
  end.

(** One local binding: inline it. *)
Ltac step_local :=
  lazymatch goal with
  | |- Let_In ?v ?b = ?R =>
      refine (let_elim v b R _);
      let y := fresh "x" in
      let Hy := fresh "E" in
      intros y Hy; cbv beta; rewrite Hy; clear y Hy
  end.

Ltac step_body df0 := first [step_assign df0 | step_local].

(** The function body computes the closed-form columns, assigned in order. *)
Lemma add_indicators_closed_form (df : DataFrame) :
  add_indicators df =
  set_cols (indicator_columns (index df) (col "Open" df) (col "High" df) (col "Low" df)
              (col "Close" df) (col "Volume" df)) df.
Proof.
  cbv beta delta [add_indicators].
  assert (K0 : raw_kept df df) by (unfold raw_kept; tauto).
  repeat step_body df.
  repeat match goal with K : raw_kept _ _ |- _ => clear K end.
  subst.
  cbv beta iota zeta delta [set_cols indicator_columns fold_left fst snd rsi macd vwap
                            upper_band lower_band true_range atr_now plus_di_now
                            minus_di_now adx_now nrows].
  reflexivity.
Qed.

(** From here on the body is used through its closed form only. *)
#[global] Opaque add_indicators Let_In.

(** ** The lag of every derived column *)

Lemma agree_nth_error (n : nat) (a b : column) :
  agree (S n) a b -> nth_error a n = nth_error b n.
Proof.
  unfold agree. intros H.
  pose proof (nth_error_firstn (S n) a n) as Ha.
  pose proof (nth_error_firstn (S n) b n) as Hb.
  assert (E : (n <? S n) = true) by (apply Nat.ltb_lt; lia).
  rewrite E in Ha, Hb. rewrite <- Ha, <- Hb, H. reflexivity.
Qed.

Ltac col_length ::=
  unfold obv_loop;
  repeat (rewrite ?length_map, ?length_map2, ?length_scan, ?length_rolling,
            ?length_shift1, ?length_obv_upto, ?Nat.min_id in *);
  lia.

(** A shifted causal expression, or a rolling window over a shifted column. *)
Ltac lagged :=
  unfold_columns;
  first
    [ apply lag_shift1; [col_length | col_length | ]
    | apply agree_rolling; apply lag_shift1; [col_length | col_length | ] ];
  first [ assumption
        | apply agree_obv_loop; [lia | lia | assumption | assumption]
        | causal_rules ].

Lemma derived_columns_lag (n : nat) (idx1 idx2 : list Date)
    (o1 h1 l1 c1 v1 o2 h2 l2 c2 v2 : column) (c : string) :
  In c derived_features ->
  n < length idx1 -> n < length idx2 ->
  length o1 = length idx1 -> length h1 = length idx1 -> length l1 = length idx1 ->
  length c1 = length idx1 -> length v1 = length idx1 ->
  length o2 = length idx2 -> length h2 = length idx2 -> length l2 = length idx2 ->
  length c2 = length idx2 -> length v2 = length idx2 ->
  agree n o1 o2 -> agree n h1 h2 -> agree n l1 l2 -> agree n c1 c2 -> agree n v1 v2 ->
  exists V1 V2,
    assigned c (indicator_columns idx1 o1 h1 l1 c1 v1) = Some V1 /\
    assigned c (indicator_columns idx2 o2 h2 l2 c2 v2) = Some V2 /\
    agree (S n) V1 V2 /\ n < length V1 /\ n < length V2.
Proof.
  intros Hin Hn1 Hn2 Lo1 Lh1 Ll1 Lc1 Lv1 Lo2 Lh2 Ll2 Lc2 Lv2 Ao Ah Al Ac Av.
  simpl in Hin.
  repeat (destruct Hin as [Hin | Hin]; [subst c|]); [..| contradiction];
    eexists; eexists;
    (split; [cbv [assigned indicator_columns String.eqb Ascii.eqb Bool.eqb]; reflexivity|]);
    (split; [cbv [assigned indicator_columns String.eqb Ascii.eqb Bool.eqb]; reflexivity|]);
    (split; [lagged | split; unfold_columns; col_length]).
Qed.

(** ** Row-wise table operations *)

Lemma find_map_keep (h : string * column -> string * column) (l : list (string * column))
    (c : string) :
  (forall p, fst (h p) = fst p) ->
  find (fun p => String.eqb c (fst p)) (map h l) =
  option_map h (find (fun p => String.eqb c (fst p)) l).
Proof.
  intros Hh. induction l as [|p l IH]; simpl; auto.
  rewrite Hh. destruct (String.eqb c (fst p)); auto.
Qed.

Lemma names_map_keep (h : string * column -> string * column) (l : list (string * column)) :
  (forall p, fst (h p) = fst p) -> map fst (map h l) = map fst l.
Proof. intros Hh. rewrite map_map. apply map_ext. exact Hh. Qed.

(** A table whose columns are each rewritten by [g], names kept. *)
Lemma col_map_values (g : column -> column) (idx : list Date) (df : DataFrame) (c : string) :
  g [] = [] ->
  col c (mkDF idx (map (fun p => (fst p, g (snd p))) (columns df))) = g (col c df).
Proof.
  intros Hg. unfold col. simpl.
  rewrite (find_map_keep (fun p => (fst p, g (snd p)))) by reflexivity.
  destruct (find _ (columns df)); simpl; auto.
Qed.

Lemma has_col_map_values (g : column -> column) (idx : list Date) (df : DataFrame) (c : string) :
  has_col c (mkDF idx (map (fun p => (fst p, g (snd p))) (columns df))) = has_col c df.
Proof.
  unfold has_col, names. simpl.
  rewrite (names_map_keep (fun p => (fst p, g (snd p)))) by reflexivity. reflexivity.
Qed.

Lemma ffill_nil : ffill [] = [].
Proof. reflexivity. Qed.

Lemma select_nil {A : Type} (mask : list bool) : select mask (@nil A) = [].
Proof. destruct mask; reflexivity. Qed.

Lemma col_fillna_ffill (c : string) (df : DataFrame) :
  col c (fillna_ffill df) = ffill (col c df).
Proof. apply col_map_values. reflexivity. Qed.

Lemma col_head (n : nat) (c : string) (df : DataFrame) :
  col c (head n df) = firstn n (col c df).
Proof. apply (col_map_values (firstn n)). apply firstn_nil. Qed.

Lemma col_dropna (c : string) (df : DataFrame) :
  col c (dropna df) = select (notna_rows df) (col c df).
Proof. apply (col_map_values (select (notna_rows df))). apply select_nil. Qed.

Lemma has_col_head (n : nat) (c : string) (df : DataFrame) :
  has_col c (head n df) = has_col c df.
Proof. apply has_col_map_values. Qed.

Lemma has_col_dropna (c : string) (df : DataFrame) :
  has_col c (dropna df) = has_col c df.
Proof. apply has_col_map_values. Qed.

Lemma has_col_fillna_ffill (c : string) (df : DataFrame) :
  has_col c (fillna_ffill df) = has_col c df.
Proof. apply has_col_map_values. Qed.

(** Tables with the same first [n] rows have the same column names and
    columns that agree on [n] rows. *)
Lemma head_eq_agree (n : nat) (df1 df2 : DataFrame) (c : string) :
  head n df1 = head n df2 -> agree n (col c df1) (col c df2).
Proof.
  intros H. unfold agree. rewrite <- !col_head, H. reflexivity.
Qed.

Lemma head_eq_has_col (n : nat) (df1 df2 : DataFrame) (c : string) :
  head n df1 = head n df2 -> has_col c df1 = has_col c df2.
Proof.
  intros H. rewrite <- (has_col_head n c df1), <- (has_col_head n c df2), H. reflexivity.
Qed.

(** *** The outlier step *)

Lemma find_missing_key (c : string) (keys : list string) (g : string -> column)
    (keep : string -> bool) :
  existsb (String.eqb c) keys = true -> keep c = true ->
  find (fun p => String.eqb c (fst p)) (map (fun k => (k, g k)) (filter keep keys)) =
  Some (c, g c).
Proof.
  intros Hin Hk. induction keys as [|k keys IH]; simpl in *; [discriminate|].
  destruct (String.eqb c k) eqn:E.
  - apply String.eqb_eq in E. subst k. rewrite Hk. simpl. rewrite String.eqb_refl. reflexivity.
  - simpl in Hin. destruct (keep k); simpl; rewrite ?E; apply IH; exact Hin.
Qed.

Lemma existsb_eqb_sym (c : string) (keys : list string) :
  existsb (String.eqb c) keys = existsb (fun k => String.eqb k c) keys.
Proof.
  induction keys as [|k keys IH]; simpl; auto. rewrite IH, (String.eqb_sym c k). reflexivity.
Qed.

Lemma col_loc_set_nan (mask : list bool) (keys : list string) (df : DataFrame) (c : string) :
  existsb (String.eqb c) keys = true ->
  col c (loc_set_nan mask keys df) =
  mask_nan mask (if has_col c df then col c df else repeat nan (nrows df)).
Proof.
  intros Hin. unfold loc_set_nan, col. simpl.
  rewrite find_map_keep
    by (intros p; destruct (existsb (String.eqb (fst p)) keys); reflexivity).
  rewrite find_app_pair, (has_col_find c df).
  destruct (find (fun p => String.eqb c (fst p)) (columns df)) as [p|] eqn:E; simpl.
  - apply find_some in E. destruct E as [_ E]. apply String.eqb_eq in E. subst c.
    rewrite Hin. reflexivity.
  - rewrite (find_missing_key c keys (fun _ => repeat nan (nrows df))); auto.
    + simpl. rewrite Hin. reflexivity.
    + rewrite has_col_find, E. reflexivity.
Qed.

Lemma has_col_loc_set_nan (mask : list bool) (keys : list string) (df : DataFrame) (c : string) :
  has_col c df = true -> has_col c (loc_set_nan mask keys df) = true.
Proof.
  intros H. unfold has_col, names, loc_set_nan in *. simpl.
  rewrite names_map_keep
    by (intros p; destruct (existsb (String.eqb (fst p)) keys); reflexivity).
  rewrite map_app, existsb_app, H. reflexivity.
Qed.

Lemma length_ffill (c : column) : length (ffill c) = length c.
Proof. apply length_scan. Qed.

Lemma length_pct_change (c : column) : length (pct_change c) = length c.
Proof.
  unfold pct_change. rewrite length_map2, length_shift1, length_ffill. lia.
Qed.

Lemma wf_fillna_ffill (df : DataFrame) : wf df -> wf (fillna_ffill df).
Proof.
  unfold wf, fillna_ffill, nrows. simpl. intros H. apply Forall_map.
  eapply Forall_impl; [|exact H]. intros p Hp. simpl. rewrite length_ffill. exact Hp.
Qed.

Lemma wf_loc_set_nan (mask : list bool) (keys : list string) (df : DataFrame) :
  wf df -> length mask = nrows df -> wf (loc_set_nan mask keys df).
Proof.
  unfold wf, loc_set_nan, nrows. simpl. intros H Hm. apply Forall_map, Forall_app. split.
  - eapply Forall_impl; [|exact H]. intros p Hp. cbv beta in Hp.
    destruct (existsb (String.eqb (fst p)) keys); simpl; auto.
    unfold mask_nan. rewrite length_map2. unfold column in *. lia.
  - apply Forall_map, Forall_forall. intros k _. simpl.
    destruct (existsb (String.eqb k) keys); simpl; unfold mask_nan;
      rewrite ?length_map2, repeat_length; lia.
Qed.

Lemma wf_clean_outliers (df : DataFrame) :
  wf df -> has_col "Close" df = true -> wf (clean_outliers df).
Proof.
  intros Hwf Hc. unfold clean_outliers.
  apply wf_fillna_ffill, wf_loc_set_nan; [assumption|].
  unfold outlier_rows. rewrite length_map, length_pct_change. apply wf_col; assumption.
Qed.

Lemma index_clean_outliers (df : DataFrame) : index (clean_outliers df) = index df.
Proof. reflexivity. Qed.

Lemma has_col_clean_outliers (df : DataFrame) (c : string) :
  has_col c df = true -> has_col c (clean_outliers df) = true.
Proof.
  intros H. unfold clean_outliers.
  rewrite has_col_fillna_ffill. apply has_col_loc_set_nan. exact H.
Qed.

(** The cleaned raw columns are causal in the raw table. *)
Lemma clean_outliers_agree (n : nat) (df1 df2 : DataFrame) (c : string) :
  head n df1 = head n df2 -> n <= nrows df1 -> n <= nrows df2 ->
  In c ohlcv ->
  agree n (col c (clean_outliers df1)) (col c (clean_outliers df2)).
Proof.
  intros H H1 H2 Hin.
  assert (Hk : existsb (String.eqb c) ohlcv = true).
  { apply existsb_exists. exists c. split; [assumption | apply String.eqb_refl]. }
  unfold clean_outliers. rewrite !col_fillna_ffill, !col_loc_set_nan by assumption.
  unfold ffill. apply agree_scan, agree_mask_nan.
  - unfold outlier_rows. rewrite !firstn_map. f_equal.
    change (agree n (pct_change (col "Close" df1)) (pct_change (col "Close" df2))).
    pose proof (head_eq_agree n df1 df2 "Close" H). causal.
  - rewrite (head_eq_has_col n df1 df2 c H).
    destruct (has_col c df2).
    + apply head_eq_agree. exact H.
    + apply agree_repeat_nan; assumption.
Qed.

Lemma length_clean_col (df : DataFrame) (c : string) :
  wf df -> has_col "Close" df = true -> In c ohlcv ->
  length (col c (clean_outliers df)) = nrows df.
Proof.
  intros Hwf Hc Hin.
  assert (Hk : existsb (String.eqb c) ohlcv = true).
  { apply existsb_exists. exists c. split; [assumption | apply String.eqb_refl]. }
  unfold clean_outliers. rewrite col_fillna_ffill, col_loc_set_nan by assumption.
  rewrite length_ffill. unfold mask_nan, outlier_rows.
  rewrite length_map2, length_map, length_pct_change, (wf_col df "Close") by assumption.
  destruct (has_col c df) eqn:E.
  - rewrite (wf_col df c) by assumption. lia.
  - rewrite repeat_length. lia.
Qed.

(** *** Rows kept by [dropna], looked up by date *)

Lemma Date_eqb_eq (a b : Date) : Date_eqb a b = true <-> a = b.
Proof.
  destruct a as [y m d], b as [y' m' d']. unfold Date_eqb. simpl.
  rewrite !andb_true_iff, !Z.eqb_eq. split.
  - intros [[-> ->] ->]. reflexivity.
  - intros H. inversion H. auto.
Qed.

Lemma Date_eqb_refl (a : Date) : Date_eqb a a = true.
Proof. apply Date_eqb_eq. reflexivity. Qed.

Lemma Date_eqb_neq (a b : Date) : a <> b -> Date_eqb a b = false.
Proof.
  intros H. destruct (Date_eqb a b) eqn:E; [|reflexivity].
  apply Date_eqb_eq in E. contradiction.
Qed.

Lemma In_select {A : Type} (mask : list bool) (l : list A) (x : A) :
  In x (select mask l) -> In x l.
Proof.
  revert l. induction mask as [|m ms IH]; intros [|y l]; simpl; try contradiction.
  destruct m; simpl; intros H.
  - destruct H; [left; assumption | right; apply IH; assumption].
  - right. apply IH. assumption.
Qed.

(** A kept row is found in the filtered table at the position where the
    filtered columns hold its values. *)
Lemma position_select {A : Type} (idx : list Date) (keep : list bool) (l : list A)
    (n : nat) (t : Date) :
  NoDup idx -> nth_error idx n = Some t -> In t (select keep idx) ->
  exists j, position t (select keep idx) = Some j /\
            nth_error (select keep l) j = nth_error l n.
Proof.
  revert keep l n. induction idx as [|d idx IH]; intros keep l n Hnd Hn Hin.
  - destruct n; discriminate.
  - destruct keep as [|m ms]; [contradiction|].
    inversion Hnd as [|? ? Hd Hnd']; subst.
    destruct n as [|n]; simpl in Hn.
    + inversion Hn; subst d. destruct m; simpl in Hin.
      * exists 0. simpl. rewrite Date_eqb_refl. split; [reflexivity|].
        destruct l; reflexivity.
      * apply In_select in Hin. contradiction.
    + assert (Hne : t <> d).
      { intros ->. apply Hd. eapply nth_error_In; eassumption. }
      destruct m; simpl in Hin.
      * destruct Hin as [Hin | Hin]; [congruence|].
        destruct l as [|x l].
        -- destruct (IH ms [] n Hnd' Hn Hin) as (j & Hj & _).
           exists (S j). simpl. rewrite Date_eqb_neq, Hj by assumption. split; reflexivity.
        -- destruct (IH ms l n Hnd' Hn Hin) as (j & Hj & Hv).
           exists (S j). simpl. rewrite Date_eqb_neq, Hj by assumption. split; auto.
      * destruct l as [|x l].
        -- destruct (IH ms [] n Hnd' Hn Hin) as (j & Hj & _).
           exists j. simpl. split; [assumption|]. destruct j; reflexivity.
        -- destruct (IH ms l n Hnd' Hn Hin) as (j & Hj & Hv).
           exists j. simpl. split; assumption.
Qed.

Lemma loc_dropna (df : DataFrame) (n : nat) (t : Date) (c : string) :
  NoDup (index df) -> nth_error (index df) n = Some t -> In t (index (dropna df)) ->
  loc (dropna df) t c = nth_error (col c df) n.
Proof.
  intros Hnd Hn Hin. unfold loc. rewrite col_dropna.
  destruct (position_select (index df) (notna_rows df) (col c df) n t Hnd Hn Hin)
    as (j & Hj & Hv).
  simpl. rewrite Hj. exact Hv.
Qed.

(** What [compute_indicators] returns when it returns a row at all. *)
Lemma compute_indicators_rows (df out : DataFrame) (t : Date) :
  returned (compute_indicators df) = Ok out -> In t (index out) ->
  has_col "Close" df = true /\ empty df = false /\
  out = dropna (add_indicators (clean_outliers df)).
Proof.
  unfold compute_indicators.
  destruct (empty df) eqn:E; destruct (has_col "Close" df) eqn:Hc;
    cbn [orb negb returned]; intros H Hin; injection H as <-.
  - destruct Hin.
  - destruct Hin.
  - repeat split.
  - destruct Hin.
Qed.

(** ** C1: no lookahead *)

(** C1.  Let two bar tables, each with pairwise different dates, hold the
    same rows strictly before date [t] (row [n] in both) and differ freely
    from date [t] on.  If both runs of
    [compute_indicators] return a row dated [t], then every derived feature
    field (moving averages, RSI, MACD, VWAP, Bollinger bands, OBV, ADX, +DI,
    -DI, ATR and the lagged open, high, low, close and volume) has the same
    value in the two returned rows. *)
Theorem no_lookahead (bars1 bars2 out1 out2 : DataFrame) (n : nat) (t : Date) (c : string) :
  wf bars1 -> wf bars2 ->
  NoDup (index bars1) -> NoDup (index bars2) ->
  nth_error (index bars1) n = Some t -> nth_error (index bars2) n = Some t ->
  head n bars1 = head n bars2 ->
  returned (compute_indicators bars1) = Ok out1 ->
  returned (compute_indicators bars2) = Ok out2 ->
  In t (index out1) -> In t (index out2) ->
  In c derived_features ->
  exists v, loc out1 t c = Some v /\ loc out2 t c = Some v.
Proof.
  intros Hwf1 Hwf2 Hnd1 Hnd2 Hn1 Hn2 Hhead Hr1 Hr2 Hin1 Hin2 Hc.
  destruct (compute_indicators_rows _ _ _ Hr1 Hin1) as (Hc1 & _ & ->).
  destruct (compute_indicators_rows _ _ _ Hr2 Hin2) as (Hc2 & _ & ->).
  assert (Hlt1 : n < nrows bars1) by (apply nth_error_Some; rewrite Hn1; discriminate).
  assert (Hlt2 : n < nrows bars2) by (apply nth_error_Some; rewrite Hn2; discriminate).
  assert (Hx1 : index (add_indicators (clean_outliers bars1)) = index bars1)
    by (rewrite add_indicators_closed_form, index_set_cols; reflexivity).
  assert (Hx2 : index (add_indicators (clean_outliers bars2)) = index bars2)
    by (rewrite add_indicators_closed_form, index_set_cols; reflexivity).
  rewrite (loc_dropna _ n t c), (loc_dropna _ n t c) by (rewrite ?Hx1, ?Hx2; assumption).
  rewrite !add_indicators_closed_form, !col_set_cols.
  assert (Hcl : forall b, In b ohlcv ->
            agree n (col b (clean_outliers bars1)) (col b (clean_outliers bars2)))
    by (intros b Hb; apply clean_outliers_agree; auto; lia).
  assert (Hl1 : forall b, In b ohlcv ->
            length (col b (clean_outliers bars1)) = length (index (clean_outliers bars1)))
    by (intros b Hb; apply length_clean_col; assumption).
  assert (Hl2 : forall b, In b ohlcv ->
            length (col b (clean_outliers bars2)) = length (index (clean_outliers bars2)))
    by (intros b Hb; apply length_clean_col; assumption).
  destruct (derived_columns_lag n
              (index (clean_outliers bars1)) (index (clean_outliers bars2))
              (col "Open" (clean_outliers bars1)) (col "High" (clean_outliers bars1))
              (col "Low" (clean_outliers bars1)) (col "Close" (clean_outliers bars1))
              (col "Volume" (clean_outliers bars1))
              (col "Open" (clean_outliers bars2)) (col "High" (clean_outliers bars2))
              (col "Low" (clean_outliers bars2)) (col "Close" (clean_outliers bars2))
              (col "Volume" (clean_outliers bars2)) c Hc)
    as (V1 & V2 & -> & -> & Hag & HL1 & HL2);
    try (apply Hl1; simpl; tauto); try (apply Hl2; simpl; tauto);
    try (apply Hcl; simpl; tauto); try assumption.
  exists (nth n V1 nan). split.
  - apply nth_error_nth'. assumption.
  - rewrite <- (agree_nth_error n V1 V2 Hag). apply nth_error_nth'. assumption.
Qed.

Lemma all_distinct_NoDup (idx : list Date) : all_distinct idx = true -> NoDup idx.
Proof.
  induction idx as [|d r IH]; simpl; intros H; constructor.
  - apply andb_true_iff in H. destruct H as [H _].
    intros Hin. apply negb_true_iff in H.
    assert (E : existsb (Date_eqb d) r = true).
    { apply existsb_exists. exists d. split; [assumption | apply Date_eqb_refl]. }
    congruence.
  - apply IH. apply andb_true_iff in H. tauto.
Qed.

(** Row 55 of the sample (2020-02-28) keeps its moving average when the bars
    from that date on are changed. *)
Lemma no_lookahead_witness :
  exists v, loc sample_table (mkDate 2020 2 28) "MA5" = Some v /\
            loc sample_table_perturbed (mkDate 2020 2 28) "MA5" = Some v.
Proof.
  apply (no_lookahead sample_bars sample_bars_perturbed sample_table
           sample_table_perturbed 55 (mkDate 2020 2 28) "MA5").
  - repeat constructor.
  - repeat constructor.
  - apply all_distinct_NoDup. vm_compute. reflexivity.
  - apply all_distinct_NoDup. vm_compute. reflexivity.
  - vm_compute. reflexivity.
  - vm_compute. reflexivity.
  - vm_compute. reflexivity.
  - vm_compute. reflexivity.
  - vm_compute. reflexivity.
  - apply (nth_error_In _ 5). vm_compute. reflexivity.
  - apply (nth_error_In _ 5). vm_compute. reflexivity.
  - simpl. tauto.
Defined.

(** ** C5: the outlier policy *)

(** A change measured against a missing previous close is itself missing and
    never counts as an outlier; this is the first row of every table. *)
Lemma change_against_nan_not_outlier (a : float) :
  (0.3 <? abs (a / nan - 1))%float = false.
Proof.
  rewrite FloatAxioms.ltb_spec, FloatAxioms.abs_spec, FloatAxioms.sub_spec,
    FloatAxioms.div_spec.
  replace (Prim2SF nan) with S754_nan by reflexivity.
  destruct (Prim2SF a); reflexivity.
Qed.

Lemma pct_change_first (c : column) :
  c <> [] -> exists a, nth 0 (pct_change c) nan = (a / nan - 1)%float.
Proof.
  destruct c as [|x r]; [congruence|]. intros _.
  unfold pct_change, ffill. simpl.
  eexists. unfold shift1. simpl. reflexivity.
Qed.

Lemma outlier_rows_first (c : column) : nth 0 (outlier_rows (pct_change c)) false = false.
Proof.
  destruct c as [|x r]; [reflexivity|].
  destruct (pct_change_first (x :: r)) as [a Ha]; [discriminate|].
  unfold outlier_rows.
  change false with ((fun v => (0.3 <? abs v)%float) nan) at 1.
  rewrite map_nth, Ha. apply change_against_nan_not_outlier.
Qed.

Lemma nth_outlier_rows (change : column) (n : nat) :
  nth n (outlier_rows change) false = (0.3 <? abs (nth n change nan))%float.
Proof.
  unfold outlier_rows.
  change false with ((fun v => (0.3 <? abs v)%float) nan) at 1.
  apply map_nth.
Qed.

Lemma nth_mask_nan (mask : list bool) (c : column) (n : nat) (d : float) :
  n < length mask -> n < length c -> nth n mask false = true ->
  nth n (mask_nan mask c) d = nan.
Proof.
  intros Hm Hc H. unfold mask_nan.
  rewrite (nth_map2 _ mask c n false nan d Hm Hc), H. reflexivity.
Qed.

(** A missing cell below the first row takes the filled value of the row
    above it. *)
Lemma scan_ffill_prev (s : float) (l : column) (n : nat) :
  1 <= n -> n < length l -> is_nan (nth n l nan) = true ->
  nth n (scan ffill_step s l) nan = nth (n - 1) (scan ffill_step s l) nan.
Proof.
  revert s n. induction l as [|x r IH]; intros s n H1 Hn Hnan; simpl in Hn; [lia|].
  destruct n as [|m]; [lia|]. simpl. rewrite Nat.sub_0_r.
  destruct m as [|m'].
  - destruct r as [|y r']; simpl in *; [lia|]. rewrite Hnan. reflexivity.
  - simpl in Hnan.
    rewrite (IH (if is_nan x then s else x) (S m')) by (simpl; auto; lia).
    simpl. rewrite Nat.sub_0_r. reflexivity.
Qed.

Lemma ffill_prev (l : column) (n : nat) :
  1 <= n -> n < length l -> is_nan (nth n l nan) = true ->
  nth n (ffill l) nan = nth (n - 1) (ffill l) nan.
Proof. apply scan_ffill_prev. Qed.

Lemma assigned_raw (c : string) (idx : list Date) (o h l cl v : column) :
  In c ohlcv -> assigned c (indicator_columns idx o h l cl v) = None.
Proof.
  intros H. simpl in H.
  repeat (destruct H as [H | H]; [subst c; reflexivity|]). contradiction.
Qed.

Lemma col_add_indicators_raw (df : DataFrame) (c : string) :
  In c ohlcv -> col c (add_indicators df) = col c df.
Proof.
  intros H. rewrite add_indicators_closed_form, col_set_cols, assigned_raw by assumption.
  reflexivity.
Qed.

(** A cell that is not missing is left as it is. *)
Lemma scan_ffill_keeps (s : float) (l : column) (i : nat) :
  is_nan (nth i l nan) = false -> nth i (scan ffill_step s l) nan = nth i l nan.
Proof.
  revert s i. induction l as [|x r IH]; intros s [|i] H; simpl in *; auto.
  rewrite H. reflexivity.
Qed.

(** A run of missing cells takes the value of the cell above the run. *)
Lemma ffill_run (l : column) (k n : nat) :
  k <= n -> n < length l ->
  is_nan (nth k l nan) = false ->
  (forall j, k < j <= n -> is_nan (nth j l nan) = true) ->
  nth n (ffill l) nan = nth k l nan.
Proof.
  intros Hkn Hn Hk Hrun. induction n as [|n IH].
  - replace k with 0 in * by lia. apply scan_ffill_keeps. exact Hk.
  - destruct (Nat.eq_dec k (S n)) as [-> | Hne].
    + apply scan_ffill_keeps. exact Hk.
    + rewrite ffill_prev by (try lia; apply Hrun; lia).
      replace (S n - 1) with n by lia.
      apply IH; [lia | lia |]. intros j Hj. apply Hrun. lia.
Qed.

(** C5.  In a non-empty table with a [Close] column, let row [n] have a
    close-to-close change above 30% in absolute value.  Then [n] is not the
    first row and each of [Open], [High], [Low], [Close], [Volume] is
    blanked at row [n].  After the forward fill the column is as long as
    the table and holds at row [n] what it holds at row [n-1]; that value
    is the original value of the nearest row [k] above [n] that is itself
    neither an outlier nor missing, every row between the two being an
    outlier or missing, and row [k] keeps its own value.  The indicators
    are computed from that cleaned table, whose raw columns they leave as
    they are, and the returned table is its rows without a missing cell. *)
Theorem outlier_rows_forward_filled (df : DataFrame) (n : nat) (c : string) :
  wf df -> empty df = false -> has_col "Close" df = true ->
  n < nrows df ->
  (0.3 <? abs (nth n (pct_change (col "Close" df)) nan))%float = true ->
  In c ohlcv ->
  let outlier := fun j => nth j (outlier_rows (pct_change (col "Close" df))) false in
  let cleaned := col c (clean_outliers df) in
  1 <= n /\
  outlier n = true /\
  nth n (col c (loc_set_nan (outlier_rows (pct_change (col "Close" df))) ohlcv df)) 0%float
    = nan /\
  length cleaned = nrows df /\
  nth n cleaned nan = nth (n - 1) cleaned nan /\
  (forall k, k < n -> has_col c df = true ->
     outlier k = false -> is_nan (nth k (col c df) nan) = false ->
     (forall j, k < j < n -> outlier j = true \/ is_nan (nth j (col c df) nan) = true) ->
     nth k cleaned nan = nth k (col c df) nan /\
     nth n cleaned nan = nth k (col c df) nan) /\
  caller_table (compute_indicators df) = add_indicators (clean_outliers df) /\
  col c (caller_table (compute_indicators df)) = cleaned /\
  returned (compute_indicators df) = Ok (dropna (add_indicators (clean_outliers df))).
Proof.
  intros Hwf He Hc Hn Hout Hin outlier cleaned.
  assert (Hk : existsb (String.eqb c) ohlcv = true).
  { apply existsb_exists. exists c. split; [assumption | apply String.eqb_refl]. }
  assert (Hmask : outlier n = true)
    by (unfold outlier; rewrite nth_outlier_rows; exact Hout).
  assert (Hlm : length (outlier_rows (pct_change (col "Close" df))) = nrows df).
  { unfold outlier_rows. rewrite length_map, length_pct_change. apply wf_col; assumption. }
  assert (Hblank : forall d,
            nth n (col c (loc_set_nan (outlier_rows (pct_change (col "Close" df))) ohlcv df)) d
            = nan).
  { intros d. rewrite col_loc_set_nan by assumption.
    apply nth_mask_nan; [rewrite Hlm; exact Hn | | assumption].
    destruct (has_col c df) eqn:E;
      [rewrite wf_col by assumption | rewrite repeat_length]; exact Hn. }
  assert (H1 : 1 <= n).
  { destruct n; [|lia]. unfold outlier in Hmask. rewrite outlier_rows_first in Hmask.
    discriminate. }
  assert (Hcaller : caller_table (compute_indicators df) = add_indicators (clean_outliers df)).
  { unfold compute_indicators. rewrite He, Hc. reflexivity. }
  assert (Hlen : length (col c (loc_set_nan (outlier_rows (pct_change (col "Close" df)))
                                  ohlcv df)) = nrows df).
  { rewrite col_loc_set_nan by assumption. unfold mask_nan.
    rewrite length_map2, Hlm.
    destruct (has_col c df) eqn:E;
      [rewrite wf_col by assumption | rewrite repeat_length];
      apply Nat.min_id. }
  split; [exact H1|]. split; [exact Hmask|]. split; [apply Hblank|].
  split; [apply length_clean_col; assumption|].
  split.
  { unfold cleaned, clean_outliers. rewrite col_fillna_ffill. apply ffill_prev.
    - exact H1.
    - rewrite Hlen. exact Hn.
    - rewrite Hblank. reflexivity. }
  split.
  { intros k Hkn Hcol Hok Hval Hrun.
    assert (Ecell : forall j, j < nrows df ->
              nth j (col c (loc_set_nan (outlier_rows (pct_change (col "Close" df)))
                              ohlcv df)) nan
              = if outlier j then nan else nth j (col c df) nan).
    { intros j Hj. rewrite col_loc_set_nan, Hcol by assumption. unfold mask_nan.
      rewrite (nth_map2 _ _ _ j false nan nan)
        by (rewrite ?Hlm, ?wf_col by assumption; exact Hj).
      reflexivity. }
    unfold cleaned, clean_outliers. rewrite col_fillna_ffill.
    assert (Ek : nth k (col c (loc_set_nan (outlier_rows (pct_change (col "Close" df)))
                                 ohlcv df)) nan = nth k (col c df) nan)
      by (rewrite Ecell by lia; rewrite Hok; reflexivity).
    split.
    - rewrite <- Ek. apply scan_ffill_keeps. rewrite Ek. exact Hval.
    - rewrite <- Ek. apply ffill_run.
      + lia.
      + rewrite Hlen. exact Hn.
      + rewrite Ek. exact Hval.
      + intros j Hj. rewrite Ecell by lia.
        destruct (Nat.eq_dec j n) as [-> | Hjn]; [rewrite Hmask; reflexivity|].
        destruct (Hrun j) as [Ho | Hm]; [lia | rewrite Ho; reflexivity |].
        destruct (outlier j); [reflexivity | exact Hm]. }
  split; [exact Hcaller|]. split.
  - rewrite Hcaller. apply col_add_indicators_raw. assumption.
  - unfold compute_indicators. rewrite He, Hc. reflexivity.
Qed.

(** The +50% bar of [spike_bars] (row 2): its close, 150, becomes 100, the
    close of the row before. *)
Lemma outlier_rows_forward_filled_witness :
  let df := spike_bars in
  let outlier := fun j => nth j (outlier_rows (pct_change (col "Close" df))) false in
  let cleaned := col "Close" (clean_outliers df) in
  nth 1 (col "Close" df) nan = 100%float /\
  nth 2 (col "Close" df) nan = 150%float /\
  nth 2 cleaned nan = 100%float /\
  1 <= 2 /\
  outlier 2 = true /\
  nth 2 (col "Close" (loc_set_nan (outlier_rows (pct_change (col "Close" df))) ohlcv df))
      0%float = nan /\
  length cleaned = nrows df /\
  nth 2 cleaned nan = nth (2 - 1) cleaned nan /\
  (forall k, k < 2 -> has_col "Close" df = true ->
     outlier k = false -> is_nan (nth k (col "Close" df) nan) = false ->
     (forall j, k < j < 2 -> outlier j = true \/ is_nan (nth j (col "Close" df) nan) = true) ->
     nth k cleaned nan = nth k (col "Close" df) nan /\
     nth 2 cleaned nan = nth k (col "Close" df) nan) /\
  caller_table (compute_indicators df) = add_indicators (clean_outliers df) /\
  col "Close" (caller_table (compute_indicators df)) = cleaned /\
  returned (compute_indicators df) = Ok (dropna (add_indicators (clean_outliers df))).
Proof.
  cbv zeta.
  split; [reflexivity|]. split; [reflexivity|]. split; [vm_compute; reflexivity|].
  apply (outlier_rows_forward_filled spike_bars 2 "Close").
  - repeat constructor.
  - reflexivity.
  - reflexivity.
  - vm_compute. lia.
  - vm_compute. reflexivity.
  - simpl. tauto.
Defined.

(** The cleaned sample: the 150 of the spike is replaced by 100, the level
    of the day before, in the table the indicators read. *)
Example spike_bars_cleaned :
  col "Close" (clean_outliers spike_bars) = [100; 100; 100; 151]%float /\
  col "Volume" (clean_outliers spike_bars) = [1000; 1100; 1100; 1200]%float.
Proof. split; vm_compute; reflexivity. Qed.

(** ** C7: an empty table or a table without [Close] *)

(** C7, as the code behaves.  For an empty table, or a table without a
    [Close] column, [compute_indicators] raises nothing: it prints one
    notice, leaves the caller's table as it was and returns the empty table
    [pd.DataFrame()], for which the callers' test [.empty] is true. *)
Theorem missing_data_returns_empty_frame (df : DataFrame) :
  empty df = true \/ has_col "Close" df = false ->
  returned (compute_indicators df) = Ok empty_frame /\
  empty empty_frame = true /\
  caller_table (compute_indicators df) = df /\
  length (printed (compute_indicators df)) = 1.
Proof.
  intros H. unfold compute_indicators.
  assert (G : empty df || negb (has_col "Close" df) = true).
  { destruct H as [-> | ->]; [reflexivity | apply orb_true_r]. }
  rewrite G. repeat split.
Qed.

Lemma missing_data_returns_empty_frame_witness :
  returned (compute_indicators no_close_bars) = Ok empty_frame /\
  empty empty_frame = true /\
  caller_table (compute_indicators no_close_bars) = no_close_bars /\
  length (printed (compute_indicators no_close_bars)) = 1.
Proof.
  apply (missing_data_returns_empty_frame no_close_bars).
  right. reflexivity.
Defined.

(** Against C7 as the specification words it: neither the empty table nor
    a table without [Close] makes the call raise a [SchemaError]; both
    calls return. *)
Lemma compute_indicators_raises_no_schema_error :
  returned (compute_indicators empty_frame) = Ok empty_frame /\
  returned (compute_indicators no_close_bars) = Ok empty_frame /\
  returned (compute_indicators empty_frame) <> Raise (PyExc "SchemaError") /\
  returned (compute_indicators no_close_bars) <> Raise (PyExc "SchemaError").
Proof.
  assert (E1 : returned (compute_indicators empty_frame) = Ok empty_frame) by reflexivity.
  assert (E2 : returned (compute_indicators no_close_bars) = Ok empty_frame) by reflexivity.
  rewrite E1, E2. repeat split; discriminate.
Qed.

(** ** C9: what a call does to the caller's table *)

Lemma has_col_add_indicators (df : DataFrame) (c : string) :
  In c (["Year"; "Month"; "Day"] ++ derived_features) ->
  has_col c (add_indicators df) = true.
Proof.
  intros H. rewrite add_indicators_closed_form, has_col_set_cols.
  simpl in H.
  repeat (destruct H as [H | H]; [subst c; reflexivity|]). contradiction.
Qed.

Lemma index_add_indicators (df : DataFrame) : index (add_indicators df) = index df.
Proof. rewrite add_indicators_closed_form. apply index_set_cols. Qed.

(** C9, as the code behaves.  The outcome of a call is a function of the
    input table.  When the table is empty or has no [Close] column the
    caller's table is left as it was.  Otherwise the call writes into the
    caller's table: afterwards it is the outlier-cleaned table with the
    calendar and indicator columns added, on the same index; only the
    returned table, its rows without missing values, is a new object. *)
Theorem compute_indicators_effects (df : DataFrame) :
  let out := compute_indicators df in
  (forall df', df' = df -> compute_indicators df' = out) /\
  if empty df || negb (has_col "Close" df)
  then caller_table out = df /\ returned out = Ok empty_frame
  else caller_table out = add_indicators (clean_outliers df) /\
       returned out = Ok (dropna (caller_table out)) /\
       index (caller_table out) = index df /\
       (forall c, In c ohlcv -> col c (caller_table out) = col c (clean_outliers df)) /\
       (forall c, In c (["Year"; "Month"; "Day"] ++ derived_features) ->
                  has_col c (caller_table out) = true).
Proof.
  cbv zeta. split; [intros df' ->; reflexivity|].
  unfold compute_indicators.
  destruct (empty df || negb (has_col "Close" df)).
  - split; reflexivity.
  - cbn [caller_table returned]. repeat split.
    + rewrite index_add_indicators. reflexivity.
    + intros c Hc. apply col_add_indicators_raw. exact Hc.
    + intros c Hc. apply has_col_add_indicators. exact Hc.
Qed.

(** Against C9 as the specification words it: after a call on
    [spike_bars] the caller's table has 28 columns instead of 5 and its 150
    close is overwritten. *)
Lemma compute_indicators_mutates_input :
  length (columns spike_bars) = 5 /\
  length (columns (caller_table (compute_indicators spike_bars))) = 28 /\
  col "Close" spike_bars = [100; 100; 150; 151]%float /\
  col "Close" (caller_table (compute_indicators spike_bars)) = [100; 100; 100; 151]%float /\
  caller_table (compute_indicators spike_bars) <> spike_bars.
Proof.
  assert (L : length (columns (caller_table (compute_indicators spike_bars))) = 28)
    by (vm_compute; reflexivity).
  repeat split; try (vm_compute; reflexivity).
  intros H. rewrite H in L. clear H. vm_compute in L. discriminate L.
Qed.

(** ** C3: the sequence windower *)

Lemma getitem_nth_error {A : Type} (l : list A) (i : nat) (a : A) :
  nth_error l i = Some a -> getitem l i = Ok a.
Proof. unfold getitem. intros ->. reflexivity. Qed.


(** The loop over [start, start + k) appends one window and one target per
    index, provided every [target[i + n_steps]] exists. *)
Lemma create_sequences_loop_ok {A B : Type} (features : list A) (target : list B)
    (n_steps k start : nat) (X0 : list (list A)) (y0 : list B) :
  k = 0 \/ start + k + n_steps <= length target ->
  exists ys,
    create_sequences_loop features target n_steps (seq start k) X0 y0 =
      Ok (X0 ++ map (fun i => slice features i (i + n_steps)) (seq start k), y0 ++ ys) /\
    length ys = k /\
    forall j, j < k -> nth_error ys j = nth_error target (start + j + n_steps).
Proof.
  revert start X0 y0. induction k as [|k IH]; intros start X0 y0 H; simpl.
  - exists []. rewrite !app_nil_r. repeat split. intros j Hj. lia.
  - destruct H as [H | H]; [discriminate|].
    destruct (nth_error target (start + n_steps)) as [t|] eqn:E.
    2:{ apply nth_error_None in E. lia. }
    rewrite (getitem_nth_error _ _ _ E). simpl.
    destruct (IH (S start) (X0 ++ [slice features start (start + n_steps)]) (y0 ++ [t]))
      as (ys & Hrun & Hlen & Hnth); [lia|].
    exists (t :: ys). rewrite Hrun, <- !app_assoc. simpl. repeat split.
    + lia.
    + intros [|j] Hj; simpl.
      * rewrite Nat.add_0_r. symmetry. exact E.
      * rewrite Hnth by lia. f_equal. lia.
Qed.



Lemma create_sequences_loop_length {A B : Type} (features : list A) (target : list B)
    (n_steps : nat) (rng : list nat) (X0 X_seq : list (list A)) (y0 y_seq : list B) :
  create_sequences_loop features target n_steps rng X0 y0 = Ok (X_seq, y_seq) ->
  length X_seq = length X0 + length rng.
Proof.
  revert X0 y0. induction rng as [|i rng IH]; intros X0 y0; simpl.
  - intros H. injection H as <- _. lia.
  - destruct (getitem target (i + n_steps)); simpl; [|discriminate].
    intros H. apply IH in H. rewrite length_app in H. simpl in H. lia.
Qed.

(** A run that returns has one window per start index. *)
Lemma create_sequences_length {A B : Type} (features : list A) (target : list B)
    (n_steps : nat) (X_seq : list (list A)) (y_seq : list B) :
  create_sequences features target n_steps = Ok (X_seq, y_seq) ->
  length X_seq = length features - n_steps.
Proof.
  unfold create_sequences. intros H.
  apply create_sequences_loop_length in H. rewrite length_seq in H. exact H.
Qed.

(** C3.  For features of length [L] and a target aligned with them,
    [create_sequences] returns without error; it returns [L - n_steps]
    windows and as many targets (none when [n_steps >= L]); window [i] is
    the [n_steps] consecutive feature rows that start at row [i], and it is
    paired with the target at index [i + n_steps]. *)
Theorem create_sequences_windows {A B : Type} (features : list A) (target : list B)
    (n_steps : nat) :
  length target = length features ->
  exists X_seq y_seq,
    create_sequences features target n_steps = Ok (X_seq, y_seq) /\
    length X_seq = length features - n_steps /\
    length y_seq = length features - n_steps /\
    (forall i, i < length features - n_steps ->
       nth_error X_seq i = Some (firstn n_steps (skipn i features)) /\
       length (firstn n_steps (skipn i features)) = n_steps /\
       nth_error y_seq i = nth_error target (i + n_steps)) /\
    (length features <= n_steps -> X_seq = [] /\ y_seq = []).
Proof.
  intros Hlen. unfold create_sequences.
  destruct (create_sequences_loop_ok features target n_steps
              (length features - n_steps) 0 [] []) as (ys & Hrun & Hys & Hnth); [lia|].
  rewrite Hrun. simpl.
  exists (map (fun i => slice features i (i + n_steps)) (seq 0 (length features - n_steps))), ys.
  split; [reflexivity|]. split; [rewrite length_map, length_seq; reflexivity|].
  split; [exact Hys|]. split.
  - intros i Hi. repeat split.
    + rewrite nth_error_map, nth_error_seq.
      apply Nat.ltb_lt in Hi. rewrite Hi. simpl. unfold slice.
      replace (i + n_steps - i) with n_steps by lia. reflexivity.
    + rewrite length_firstn, length_skipn. lia.
    + rewrite Hnth by assumption. reflexivity.
  - intros Hshort. replace (length features - n_steps) with 0 in * by lia.
    split; [reflexivity|]. destruct ys; [reflexivity | discriminate].
Qed.

(** Five feature rows and a window of two: three windows; a window of seven:
    none, and no error. *)
Lemma create_sequences_windows_witness :
  exists X_seq y_seq,
    create_sequences [10; 11; 12; 13; 14] [20; 21; 22; 23; 24] 2 = Ok (X_seq, y_seq) /\
    length X_seq = length [10; 11; 12; 13; 14] - 2 /\
    length y_seq = length [10; 11; 12; 13; 14] - 2 /\
    (forall i, i < length [10; 11; 12; 13; 14] - 2 ->
       nth_error X_seq i = Some (firstn 2 (skipn i [10; 11; 12; 13; 14])) /\
       length (firstn 2 (skipn i [10; 11; 12; 13; 14])) = 2 /\
       nth_error y_seq i = nth_error [20; 21; 22; 23; 24] (i + 2)) /\
    (length [10; 11; 12; 13; 14] <= 2 -> X_seq = [] /\ y_seq = []).
Proof.
  apply (create_sequences_windows [10; 11; 12; 13; 14] [20; 21; 22; 23; 24] 2).
  reflexivity.
Defined.

Example create_sequences_run :
  create_sequences [10; 11; 12; 13; 14] [20; 21; 22; 23; 24] 2 =
    Ok ([[10; 11]; [11; 12]; [12; 13]], [22; 23; 24]) /\
  create_sequences [10; 11; 12; 13; 14] [20; 21; 22; 23; 24] 7 = Ok ([], []) /\
  create_sequences [10; 11; 12; 13; 14] [20; 21; 22] 2 = Raise IndexError.
Proof. repeat split. Qed.

(** ** C6: the min-max scaler *)

Section ExactScaler.
Local Open Scope Q_scope.






End ExactScaler.



(** *** What the three methods accept *)

Lemma existsb_reshape_col {F : Type} (f : F -> bool) (c : list F) :
  existsb (existsb f) (reshape_col c) = existsb f c.
Proof.
  unfold reshape_col. induction c as [|x c IH]; simpl; [reflexivity|].
  rewrite IH, orb_false_r. reflexivity.
Qed.

Lemma check_array_cases {F : Type} {A : Arith F} (X : list (list F)) :
  check_array X =
  if (length X =? 0) || existsb (existsb isinf) X then Raise ValueError else Ok tt.
Proof. destruct X as [|r X]; reflexivity. Qed.

Lemma fit_cases {F : Type} {A : Arith F} (s : MinMaxScaler F) (X : list (list F)) :
  fit s X =
  if (length X =? 0) || existsb (existsb isinf) X then Raise ValueError
  else Ok (mkScaler (feature_range s) (clip s)
                    (map (fit_column (feature_range s)) (array_columns X))).
Proof.
  unfold fit. rewrite check_array_cases.
  destruct ((length X =? 0) || existsb (existsb isinf) X); reflexivity.
Qed.

Lemma transform_cases {F : Type} {A : Arith F} (s : MinMaxScaler F) (X : list (list F)) :
  transform s X =
  if (length X =? 0) || existsb (existsb isinf) X then Raise ValueError
  else Ok (map (fun row => map2 (transform1 (feature_range s) (clip s)) (fitted s) row) X).
Proof.
  unfold transform. rewrite check_array_cases.
  destruct ((length X =? 0) || existsb (existsb isinf) X); reflexivity.
Qed.

Lemma array_columns_reshape_col {F : Type} {A : Arith F} (c : list F) :
  c <> [] -> array_columns (reshape_col c) = [c].
Proof.
  destruct c as [|x c]; [congruence|]. intros _.
  unfold array_columns, reshape_col. cbn [map length seq nth]. f_equal. f_equal.
  rewrite map_map. cbn [nth]. apply map_id.
Qed.

Lemma length_reshape_col {F : Type} (c : list F) : length (reshape_col c) = length c.
Proof. apply length_map. Qed.




(** The train column 1, 3, 2 in binary64, as the running program computes
    it: 5 scales to 2 (not clamped to 1) and the inverse returns 5; a
    constant column is shifted by its minimum, not divided by zero. *)
Example float_scaler_run :
  let p := fit_column (0, 1)%float [1; 3; 2]%float in
  transform1 (0, 1)%float false p 5%float = 2%float /\
  inverse1 p 2%float = 5%float /\
  transform1 (0, 1)%float false (fit_column (0, 1)%float [7; 7]%float) 9%float = 2%float.
Proof. repeat split. Qed.

(** ** C4: the feature frame and the target *)

Lemma getcols_ok (df : DataFrame) (keys : list string) :
  Forall (fun k => has_col k df = true) keys ->
  getcols df keys = Ok (map (fun k => (k, col k df)) keys).
Proof.
  induction 1 as [|k keys Hk _ IH]; simpl; [reflexivity|].
  rewrite (getcol_col df k Hk), IH. reflexivity.
Qed.

(** What survives a row filter satisfies whatever the kept rows satisfy. *)
Lemma Forall_select {A : Type} (P : A -> Prop) (d : A) (keep : list bool) (l : list A) :
  (forall i, i < length l -> nth i keep false = true -> P (nth i l d)) ->
  Forall P (select keep l).
Proof.
  revert l. induction keep as [|m ms IH]; intros [|x l] H; simpl; try constructor.
  destruct m.
  - constructor.
    + apply (H 0); simpl; [lia | reflexivity].
    + apply IH. intros i Hi Hk. apply (H (S i)); simpl; [lia | assumption].
  - apply IH. intros i Hi Hk. apply (H (S i)); simpl; [lia | assumption].
Qed.

Lemma nth_notna_rows (df : DataFrame) (i : nat) :
  nth i (notna_rows df) false = true ->
  i < nrows df /\ existsb is_nan (row_at i df) = false.
Proof.
  unfold notna_rows. intros H.
  destruct (Nat.lt_ge_cases i (nrows df)) as [Hlt | Hge].
  - split; [assumption|].
    rewrite (nth_indep _ false (negb (existsb is_nan (row_at 0 df)))) in H
      by (rewrite length_map, length_seq; assumption).
    rewrite (map_nth (fun i => negb (existsb is_nan (row_at i df)))) in H.
    rewrite seq_nth in H by assumption. simpl in H.
    apply negb_true_iff in H. exact H.
  - rewrite nth_overflow in H by (rewrite length_map, length_seq; assumption).
    discriminate.
Qed.

(** A table returned by [dropna] has no missing value. *)
Lemma dropna_col_notna (df : DataFrame) (c : string) :
  has_col c df = true -> existsb is_nan (col c (dropna df)) = false.
Proof.
  intros Hc. rewrite col_dropna. apply existsb_false_Forall.
  apply (Forall_select _ nan). intros i Hi Hk.
  apply nth_notna_rows in Hk. destruct Hk as [_ Hk].
  rewrite existsb_false_Forall, Forall_forall in Hk. apply Hk.
  unfold row_at. apply col_in_columns in Hc.
  apply (in_map (fun p => nth i (snd p) nan)) in Hc. exact Hc.
Qed.

Lemma scan_ffill_notna (s : float) (l : column) :
  existsb is_nan l = false -> scan ffill_step s l = l.
Proof.
  revert s. induction l as [|x r IH]; intros s H; simpl in *; [reflexivity|].
  apply orb_false_iff in H. destruct H as [Hx Hr].
  rewrite Hx, IH by assumption. reflexivity.
Qed.

Lemma ffill_notna (l : column) : existsb is_nan l = false -> ffill l = l.
Proof. apply scan_ffill_notna. Qed.

Lemma nth_pct_change (c : column) (i : nat) :
  S i < length c ->
  nth (S i) (pct_change c) nan = (nth (S i) (ffill c) nan / nth i (ffill c) nan - 1)%float.
Proof.
  intros H. unfold pct_change.
  rewrite (nth_map2 _ _ _ _ nan nan nan)
    by (rewrite ?length_shift1, length_ffill; assumption).
  rewrite nth_shift1 by (rewrite length_ffill; assumption). reflexivity.
Qed.

Lemma nth_tl {A : Type} (l : list A) (i : nat) (d : A) : nth i (tl l) d = nth (S i) l d.
Proof. destruct l; [destruct i|]; reflexivity. Qed.

Lemma features_in_table : forall k, In k features ->
  In k (["Year"; "Month"; "Day"] ++ derived_features).
Proof.
  intros k H. simpl in H. simpl.
  repeat (destruct H as [H | H]; [subst k; tauto|]). contradiction.
Qed.

Lemma has_col_add_indicators_kept (df : DataFrame) (c : string) :
  has_col c df = true -> has_col c (add_indicators df) = true.
Proof.
  intros H. rewrite add_indicators_closed_form, has_col_set_cols.
  destruct (assigned c _); [reflexivity | exact H].
Qed.

Lemma wf_add_indicators (df : DataFrame) :
  wf df -> 1 <= nrows df ->
  length (col "Open" df) = nrows df -> length (col "High" df) = nrows df ->
  length (col "Low" df) = nrows df -> length (col "Close" df) = nrows df ->
  length (col "Volume" df) = nrows df ->
  wf (add_indicators df).
Proof.
  intros Hwf H1 Lo Lh Ll Lc Lv. rewrite add_indicators_closed_form.
  apply wf_set_cols; [assumption|].
  unfold indicator_columns, nrows in *.
  repeat (constructor; [cbn [snd]; unfold_columns; col_length|]). constructor.
Qed.

Lemma wf_dropna (df : DataFrame) : wf df -> wf (dropna df).
Proof.
  unfold wf, dropna, nrows. simpl. intros H. apply Forall_map.
  eapply Forall_impl; [|exact H]. intros p Hp. cbv beta in Hp. simpl.
  clear H. revert Hp. generalize (notna_rows df), (snd p), (index df).
  intros keep l idx. revert l idx.
  induction keep as [|m ms IH]; intros [|x l] [|d idx] Hl; simpl in *; try reflexivity;
    try discriminate.
  destruct m; simpl; rewrite (IH l idx) by lia; reflexivity.
Qed.

Lemma compute_indicators_table (bars T : DataFrame) :
  empty bars = false -> has_col "Close" bars = true ->
  returned (compute_indicators bars) = Ok T ->
  T = dropna (add_indicators (clean_outliers bars)).
Proof.
  intros He Hc. unfold compute_indicators. rewrite He, Hc.
  cbn [orb negb returned]. intros H. injection H as <-. reflexivity.
Qed.

Lemma wf_indicator_table (bars : DataFrame) :
  wf bars -> empty bars = false -> has_col "Close" bars = true ->
  wf (add_indicators (clean_outliers bars)).
Proof.
  intros Hwf He Hc.
  assert (H1 : 1 <= nrows bars).
  { unfold empty in He. apply orb_false_iff in He. destruct He as [He _].
    apply Nat.eqb_neq in He. lia. }
  apply wf_add_indicators;
    try (change (nrows (clean_outliers bars)) with (nrows bars));
    try (apply length_clean_col; [assumption | assumption | simpl; tauto]).
  - apply wf_clean_outliers; assumption.
  - exact H1.
Qed.

(** C4, as the code behaves.  For the indicator table [T] that
    [compute_indicators] returns for a non-empty bar table with a [Close]
    column, [format_feature] succeeds.  [X] has 24 columns, in the order of
    the source list, under 23 different names ([Volume_yes] is selected
    twice); each is the column of [T] without its first row.  [y] is the
    close-to-close percentage change [close[i+1] / close[i] - 1] without its
    first row (a missing change repeats the one before it).  [X] and [y]
    share the index of [T] without its first date. *)
Theorem format_feature_columns (bars T : DataFrame) :
  wf bars -> empty bars = false -> has_col "Close" bars = true ->
  returned (compute_indicators bars) = Ok T ->
  exists X y,
    format_feature T = Ok (X, y) /\
    columns X = map (fun k => (k, tl (col k T))) features /\
    names X = features /\
    length (columns X) = 24 /\
    length (nodup string_dec features) = 23 /\
    index X = tl (index T) /\
    s_index y = tl (index T) /\
    wf X /\
    length (s_values y) = nrows X /\
    (forall i, S i < nrows T ->
       let r := (nth (S i) (col "Close" T) nan / nth i (col "Close" T) nan - 1)%float in
       is_nan r = false -> nth i (s_values y) nan = r).
Proof.
  intros Hwf He Hc Hret.
  pose proof (compute_indicators_table bars T He Hc Hret) as HT.
  pose proof (wf_indicator_table bars Hwf He Hc) as HwfA.
  set (A := add_indicators (clean_outliers bars)) in *.
  assert (HwfT : wf T) by (rewrite HT; apply wf_dropna; exact HwfA).
  assert (Hfeat : Forall (fun k => has_col k T = true) features).
  { apply Forall_forall. intros k Hk. rewrite HT, has_col_dropna.
    apply has_col_add_indicators, features_in_table, Hk. }
  assert (HcloseT : has_col "Close" T = true).
  { rewrite HT, has_col_dropna. apply has_col_add_indicators_kept.
    apply has_col_clean_outliers. exact Hc. }
  assert (Hnotna : forall k, has_col k T = true -> existsb is_nan (col k T) = false).
  { intros k Hk. rewrite HT in *. rewrite has_col_dropna in Hk.
    apply dropna_col_notna. exact Hk. }
  assert (Htl : forall l : column, existsb is_nan l = false -> existsb is_nan (tl l) = false).
  { intros [|x l]; simpl; [auto|]. intros H. apply orb_false_iff in H. tauto. }
  set (X := mkDF (tl (index T)) (map (fun k => (k, tl (col k T))) features)).
  assert (HX : isnull_any X = false).
  { unfold isnull_any, X. cbn [columns]. apply existsb_false_Forall.
    apply Forall_map. eapply Forall_impl; [|exact Hfeat].
    intros k Hk. cbn [snd]. apply Htl, Hnotna, Hk. }
  set (r := tl (pct_change (col "Close" T))).
  exists X, (mkSeries (tl (index T)) (if existsb is_nan r then ffill r else r)).
  assert (Hrun : format_feature T =
                 Ok (X, mkSeries (tl (index T)) (if existsb is_nan r then ffill r else r))).
  { unfold format_feature, select_columns.
    rewrite (getcols_ok T features Hfeat). cbn [bind].
    rewrite (getcol_col T "Close" HcloseT). cbn [bind].
    unfold iloc_from1. cbn [index columns].
    replace (map (fun p : string * list float => (fst p, tl (snd p)))
               (map (fun k : string => (k, col k T)) features))
      with (map (fun k => (k, tl (col k T))) features)
      by (symmetry;
          apply (map_map (fun k : string => (k, col k T))
                         (fun p : string * column => (fst p, tl (snd p))))).
    fold X. rewrite HX. cbn [s_values s_index]. fold r.
    destruct (existsb is_nan r); reflexivity. }
  assert (Hlen : length (col "Close" T) = nrows T) by (apply wf_col; assumption).
  assert (Hr : length r = nrows X).
  { unfold r, X, nrows. cbn [index].
    rewrite !length_tl, length_pct_change. unfold nrows in Hlen. rewrite Hlen. reflexivity. }
  split; [exact Hrun|].
  split; [reflexivity|].
  split; [reflexivity|].
  split; [reflexivity|].
  split; [reflexivity|].
  split; [reflexivity|].
  split; [reflexivity|].
  split; [|split].
  - unfold wf, X, nrows. cbn [columns index]. apply Forall_map.
    eapply Forall_impl; [|exact Hfeat]. intros k Hk. cbn [snd].
    rewrite !length_tl. f_equal. apply wf_col; assumption.
  - cbn [s_values]. destruct (existsb is_nan r); [rewrite length_ffill|]; exact Hr.
  - intros i Hi rv Hnan. cbn [s_values].
    assert (Eri : nth i r nan = rv).
    { unfold r, rv. rewrite nth_tl, nth_pct_change by (rewrite Hlen; exact Hi).
      rewrite (ffill_notna (col "Close" T)) by (apply Hnotna, HcloseT). reflexivity. }
    destruct (existsb is_nan r).
    + unfold ffill. rewrite scan_ffill_keeps; rewrite Eri; [reflexivity | exact Hnan].
    + exact Eri.
Qed.

(** The sample: 12 rows in the indicator table, 11 in [X] and [y]. *)
Lemma format_feature_columns_witness :
  exists X y,
    format_feature sample_table = Ok (X, y) /\
    columns X = map (fun k => (k, tl (col k sample_table))) features /\
    names X = features /\
    length (columns X) = 24 /\
    length (nodup string_dec features) = 23 /\
    index X = tl (index sample_table) /\
    s_index y = tl (index sample_table) /\
    wf X /\
    length (s_values y) = nrows X /\
    (forall i, S i < nrows sample_table ->
       let r := (nth (S i) (col "Close" sample_table) nan /
                 nth i (col "Close" sample_table) nan - 1)%float in
       is_nan r = false -> nth i (s_values y) nan = r).
Proof.
  apply (format_feature_columns sample_bars sample_table).
  - repeat constructor.
  - reflexivity.
  - reflexivity.
  - vm_compute. reflexivity.
Defined.

(** Against C4 as the specification words it: the feature frame of the
    sample has 24 columns, not 23, because [Volume_yes] is listed, and so
    selected, twice. *)
Lemma format_feature_has_24_columns :
  exists X y,
    format_feature sample_table = Ok (X, y) /\
    length (columns X) = 24 /\
    length (columns X) <> 23 /\
    length (filter (String.eqb "Volume_yes") (names X)) = 2.
Proof.
  destruct (format_feature sample_table) as [[X y]|e] eqn:E.
  - exists X, y. split; [reflexivity|].
    vm_compute in E. injection E as <- _. repeat split. discriminate.
  - vm_compute in E. discriminate E.
Qed.

(** ** The inference loop *)

Lemma getcol_inv (df : DataFrame) (c : string) (v : column) :
  getcol df c = Ok v -> has_col c df = true /\ v = col c df.
Proof.
  unfold getcol, col. rewrite has_col_find.
  destruct (find _ (columns df)); [|discriminate].
  intros H. injection H as <-. auto.
Qed.

Lemma format_feature_lengths (data X : DataFrame) (y : Series) :
  wf data -> format_feature data = Ok (X, y) ->
  nrows X = nrows data - 1 /\ length (s_values y) = nrows data - 1 /\
  has_col "Close" data = true.
Proof.
  intros Hwf. unfold format_feature, select_columns.
  destruct (getcols data features) as [cols|]; [|discriminate]. cbn [bind].
  destruct (getcol data "Close") as [close|] eqn:Ec; [|discriminate]. cbn [bind].
  apply getcol_inv in Ec. destruct Ec as [Hc ->].
  intros H. injection H as <- <-.
  assert (Hl : length (col "Close" data) = nrows data) by (apply wf_col; assumption).
  repeat split.
  - destruct (isnull_any _); unfold nrows; cbn [index iloc_from1 fillna_ffill];
      apply length_tl.
  - cbn [s_values]. destruct (existsb is_nan _); cbn [s_values];
      rewrite ?length_ffill, length_tl, length_pct_change, Hl; reflexivity.
  - exact Hc.
Qed.

Lemma iloc_in_range {A : Type} (l : list A) (o : nat) (d : A) :
  o < length l -> iloc l (Z.of_nat o) = Ok (nth o l d).
Proof.
  intros H. unfold iloc.
  destruct (0 <=? Z.of_nat o)%Z eqn:E; [|apply Z.leb_gt in E; lia].
  rewrite Nat2Z.id. apply getitem_nth_error, nth_error_nth'. exact H.
Qed.

(** [iloc[o - 1]] below a valid position never fails: for [o = 0] it wraps
    to the last row. *)
Lemma iloc_pred_ok {A : Type} (l : list A) (o : nat) :
  o < length l -> exists a, iloc l (Z.of_nat o - 1) = Ok a.
Proof.
  intros H. destruct l as [|d l]; [simpl in H; lia|].
  destruct o as [|o].
  - unfold iloc. simpl (0 <=? _)%Z. cbv iota.
    destruct (Z.of_nat (length (d :: l)) + (Z.of_nat 0 - 1) <? 0)%Z eqn:E;
      [apply Z.ltb_lt in E; simpl length in E; lia|].
    exists (nth (Z.to_nat (Z.of_nat (length (d :: l)) + (Z.of_nat 0 - 1))) (d :: l) d).
    apply getitem_nth_error, nth_error_nth'. simpl length. lia.
  - exists (nth o (d :: l) d).
    replace (Z.of_nat (S o) - 1)%Z with (Z.of_nat o) by lia.
    apply iloc_in_range. lia.
Qed.

Lemma inverse_transform_one (s : MinMaxScaler float) (p : ColumnScale float) (v : float) :
  fitted s = [p] -> is_infinity v = false ->
  inverse_transform_f32 s [[v]] = Ok [[inverse1_f32 p v]].
Proof.
  intros Hp Hv. unfold inverse_transform_f32, check_array.
  simpl existsb. unfold isinf. simpl. rewrite Hv. simpl. rewrite Hp. reflexivity.
Qed.

(** Inside the guard an iteration appends exactly one entry to each of the
    four lists. *)
Lemma inference_step_emits (net : Net) (s : MinMaxScaler float) (p : ColumnScale float)
    (data : DataFrame) (y : Series) (split_idx n_steps i : nat) (acc : Predictions)
    (x : list (list float)) :
  fitted s = [p] -> is_infinity (net (map (map to_f32) x)) = false ->
  has_col "Close" data = true -> length (col "Close" data) = nrows data ->
  in_range data y (split_idx + n_steps + i) = true ->
  exists acc',
    inference_step net s data y split_idx n_steps acc i x = Ok acc' /\
    length (predictions acc') = S (length (predictions acc)) /\
    length (test_indices acc') = S (length (test_indices acc)) /\
    length (predict_percentages acc') = S (length (predict_percentages acc)) /\
    length (actual_percentages acc') = S (length (actual_percentages acc)).
Proof.
  intros Hp Hv Hc Hl Hg. unfold inference_step. cbv zeta.
  rewrite (inverse_transform_one s p _ Hp Hv). cbn [bind getitem nth_error].
  rewrite Hg. unfold in_range in Hg. apply andb_true_iff in Hg.
  destruct Hg as [Hd Hy]. apply Nat.ltb_lt in Hd. apply Nat.ltb_lt in Hy.
  rewrite (getcol_col data "Close" Hc). cbn [bind].
  destruct (iloc_pred_ok (col "Close" data) (split_idx + n_steps + i)) as [c Ec];
    [rewrite Hl; exact Hd|].
  rewrite Ec. cbn [bind].
  rewrite (getitem_nth_error (index data) _ _
             (nth_error_nth' (index data) (mkDate 0 0 0) Hd)). cbn [bind].
  rewrite (iloc_in_range (s_values y) _ nan Hy). cbn [bind].
  eexists. split; [reflexivity|].
  cbn [predictions test_indices predict_percentages actual_percentages].
  rewrite !length_app. simpl. repeat split; lia.
Qed.

Lemma inference_loop_emits (net : Net) (s : MinMaxScaler float) (p : ColumnScale float)
    (data : DataFrame) (y : Series) (split_idx n_steps : nat)
    (X_val : list (list (list float))) (i : nat) (acc : Predictions) :
  fitted s = [p] -> (forall w, is_infinity (net w) = false) ->
  has_col "Close" data = true -> length (col "Close" data) = nrows data ->
  (forall j, j < length X_val -> in_range data y (split_idx + n_steps + (i + j)) = true) ->
  exists r,
    inference_loop net s data y split_idx n_steps acc i X_val = Ok r /\
    length (predictions r) = length (predictions acc) + length X_val /\
    length (test_indices r) = length (test_indices acc) + length X_val /\
    length (predict_percentages r) = length (predict_percentages acc) + length X_val /\
    length (actual_percentages r) = length (actual_percentages acc) + length X_val.
Proof.
  intros Hp Hv Hc Hl. revert i acc.
  induction X_val as [|x rest IH]; intros i acc Hg; simpl.
  - exists acc. repeat split; lia.
  - destruct (inference_step_emits net s p data y split_idx n_steps i acc x Hp (Hv _) Hc Hl)
      as (acc' & Hstep & L1 & L2 & L3 & L4).
    { specialize (Hg 0). rewrite Nat.add_0_r in Hg. apply Hg. simpl. lia. }
    rewrite Hstep. cbn [bind].
    destruct (IH (S i) acc') as (r & Hrun & R1 & R2 & R3 & R4).
    { intros j Hj. replace (S i + j) with (i + S j) by lia. apply Hg. simpl. lia. }
    exists r. split; [exact Hrun|]. repeat split; lia.
Qed.

(** ** C10: the guard of the inference loop *)

(** C10.  Let [X] and [y] be what [format_feature] returns for the table
    [data], and let [X_val] be the windows that [create_sequences] builds
    from the validation slice (the rows of [X] from [split_idx] on).  Then
    the guard [original_idx < len(data) and original_idx < len(y)] holds at
    every window index, so no window is skipped: the loop (run with a
    scaler fitted on one column and predictions that are not infinite, so
    that [inverse_transform] accepts them) appends one entry per window to
    each of the four result lists, [max(0, len(X) - split_idx - n_steps)]
    entries in all. *)
Theorem validation_guard_always_holds (net : Net) (scaler_y : MinMaxScaler float)
    (data X : DataFrame) (y : Series) (n_steps : nat)
    (X_val_scaled y_val_scaled : list (list float))
    (X_val : list (list (list float))) (y_val : list (list float)) :
  wf data -> format_feature data = Ok (X, y) ->
  length (fitted scaler_y) = 1 ->
  (forall w, is_infinity (net w) = false) ->
  let split_idx := split_index (nrows X) in
  length X_val_scaled = nrows X - split_idx ->
  create_sequences X_val_scaled y_val_scaled n_steps = Ok (X_val, y_val) ->
  (forall i, i < length X_val -> in_range data y (split_idx + n_steps + i) = true) /\
  exists r,
    inference_loop net scaler_y data y split_idx n_steps (mkPredictions [] [] [] []) 0 X_val
      = Ok r /\
    Z.of_nat (length (predictions r)) =
      Z.max 0 (Z.of_nat (nrows X) - Z.of_nat split_idx - Z.of_nat n_steps) /\
    length (test_indices r) = length (predictions r) /\
    length (predict_percentages r) = length (predictions r) /\
    length (actual_percentages r) = length (predictions r).
Proof.
  intros Hwf Hff Hfit Hnet split_idx Hval Hseq.
  destruct (format_feature_lengths data X y Hwf Hff) as (HX & Hy & Hc).
  assert (Hl : length (col "Close" data) = nrows data) by (apply wf_col; assumption).
  assert (Hn : length X_val = nrows X - split_idx - n_steps).
  { rewrite (create_sequences_length _ _ _ _ _ Hseq), Hval. reflexivity. }
  assert (Hguard : forall i, i < length X_val ->
                     in_range data y (split_idx + n_steps + i) = true).
  { intros i Hi. unfold in_range. apply andb_true_iff.
    split; apply Nat.ltb_lt; lia. }
  split; [exact Hguard|].
  destruct (fitted scaler_y) as [|p [|q l]] eqn:Ef; try discriminate Hfit.
  destruct (inference_loop_emits net scaler_y p data y split_idx n_steps X_val 0
              (mkPredictions [] [] [] []) Ef Hnet Hc Hl Hguard)
    as (r & Hrun & R1 & R2 & R3 & R4).
  exists r. split; [exact Hrun|]. simpl in R1, R2, R3, R4.
  repeat split; lia.
Qed.

(** The long sample with the default window of 30 rows: three validation
    windows, three records. *)
Lemma validation_guard_always_holds_witness :
  let split_idx := split_index (nrows long_X) in
  (forall i, i < length (fst long_val_windows) ->
     in_range long_table long_y (split_idx + 30 + i) = true) /\
  exists r,
    inference_loop const_net long_scaler_y long_table long_y split_idx 30
      (mkPredictions [] [] [] []) 0 (fst long_val_windows) = Ok r /\
    Z.of_nat (length (predictions r)) =
      Z.max 0 (Z.of_nat (nrows long_X) - Z.of_nat split_idx - Z.of_nat 30) /\
    length (test_indices r) = length (predictions r) /\
    length (predict_percentages r) = length (predictions r) /\
    length (actual_percentages r) = length (predictions r).
Proof.
  apply (validation_guard_always_holds const_net long_scaler_y long_table long_X long_y 30
           long_val_rows long_val_target (fst long_val_windows) (snd long_val_windows)).
  - vm_compute. repeat constructor.
  - vm_compute. reflexivity.
  - vm_compute. reflexivity.
  - intros w. reflexivity.
  - vm_compute. reflexivity.
  - vm_compute. reflexivity.
Defined.

Example long_sample_shape :
  nrows long_table = 165 /\ nrows long_X = 164 /\ length (s_values long_y) = 164 /\
  split_index (nrows long_X) = 131 /\ length (fst long_val_windows) = 3.
Proof. repeat split; vm_compute; reflexivity. Qed.

(** ** C2: what a prediction record holds *)

(** C2, evaluated.  On the long sample, with the default window of 30 rows,
    both training functions return three records, dated rows 161, 162 and
    163 of the table.  The predicted price of a record dated row [t] is
    [(1 + predicted_return) * close[t-1]], as claimed, the predicted return
    being the [float32] that the inverse scaling leaves.  Its actual return,
    however, is [y.iloc[t] * 100], and [y] has lost its first row: it is the
    return from [close[t]] to [close[t+1]], the return of the next date.
    For the first record the recorded value is positive while the return at
    the record's own date is negative. *)
Theorem actual_return_is_next_days :
  let data := long_table in
  let close := fun i => nth i (col "Close" data) nan in
  let date := fun i => nth i (index data) (mkDate 0 0 0) in
  let v := match fitted long_scaler_y with
           | p :: _ => inverse1_f32 p (const_net [])
           | [] => nan
           end in
  let predicted_price := fun t => (f32_add 1 v * close (t - 1)%nat)%float in
  let return_at :=
    fun t => (100 * ((close t - close (t - 1)%nat) / close (t - 1)%nat))%float in
  let recorded_at := fun t => ((close (t + 1)%nat / close t - 1) * 100)%float in
  let records :=
    mkPredictions [predicted_price 161; predicted_price 162; predicted_price 163]
                  [date 161; date 162; date 163]
                  [f32_mul v 100; f32_mul v 100; f32_mul v 100]
                  [recorded_at 161; recorded_at 162; recorded_at 163] in
  format_feature data = Ok (long_X, long_y) /\
  train_and_predict_lstm const_net data long_X long_y 30 100 64 = Ok records /\
  train_and_predict_gru const_net data long_X long_y 30 100 64 = Ok records /\
  PrimFloat.ltb (return_at 161) 0%float = true /\
  PrimFloat.ltb 0%float (recorded_at 161) = true /\
  Leibniz.eqb (recorded_at 161) (return_at 161) = false.
Proof.
  cbv zeta. repeat split; vm_compute; reflexivity.
Qed.

(** ** C8: a train slice too short for one window *)

Lemma fit_raises {F : Type} {A : Arith F} (s : MinMaxScaler F) (X : list (list F)) (e : exn) :
  fit s X = Raise e -> e = ValueError.
Proof.
  unfold fit, check_array. destruct X as [|r X]; simpl.
  - intros H. injection H as <-. reflexivity.
  - destruct (existsb isinf r || existsb (existsb isinf) X); simpl; intros H;
      [injection H as <-; reflexivity | discriminate].
Qed.

Lemma transform_raises {F : Type} {A : Arith F} (s : MinMaxScaler F) (X : list (list F))
    (e : exn) :
  transform s X = Raise e -> e = ValueError.
Proof.
  unfold transform, check_array. destruct X as [|r X]; simpl.
  - intros H. injection H as <-. reflexivity.
  - destruct (existsb isinf r || existsb (existsb isinf) X); simpl; intros H;
      [injection H as <-; reflexivity | discriminate].
Qed.

Lemma transform_length {F : Type} {A : Arith F} (s : MinMaxScaler F) (X Y : list (list F)) :
  transform s X = Ok Y -> length Y = length X.
Proof.
  unfold transform. destruct (check_array X); simpl; [|discriminate].
  intros H. injection H as <-. apply length_map.
Qed.


Lemma length_values (df : DataFrame) : length (values df) = nrows df.
Proof. unfold values. rewrite length_map, length_seq. reflexivity. Qed.




(** ** The records of a run that returns *)

Lemma getitem_inv {A : Type} (l : list A) (i : nat) (a : A) :
  getitem l i = Ok a -> nth_error l i = Some a.
Proof.
  unfold getitem. destruct (nth_error l i); [|discriminate].
  intros H. injection H as <-. reflexivity.
Qed.

Lemma iloc_inv {A : Type} (l : list A) (o : nat) (a : A) :
  iloc l (Z.of_nat o) = Ok a -> nth_error l o = Some a.
Proof.
  unfold iloc. destruct (0 <=? Z.of_nat o)%Z eqn:E; [|apply Z.leb_gt in E; lia].
  rewrite Nat2Z.id. apply getitem_inv.
Qed.

(** What one iteration inside the guard appends: the price built on the
    close one row above [original_idx] in [data], the date at
    [original_idx] in [data], and the target at [original_idx] in [y]. *)
Lemma inference_step_record (net : Net) (s : MinMaxScaler float) (data : DataFrame)
    (y : Series) (split_idx n_steps i : nat) (acc acc' : Predictions)
    (x : list (list float)) :
  let original_idx := split_idx + n_steps + i in
  in_range data y original_idx = true ->
  inference_step net s data y split_idx n_steps acc i x = Ok acc' ->
  exists v prev_close date actual,
    predictions acc' = predictions acc ++ [(f32_add 1 v * prev_close)%float] /\
    test_indices acc' = test_indices acc ++ [date] /\
    predict_percentages acc' = predict_percentages acc ++ [f32_mul v 100] /\
    actual_percentages acc' = actual_percentages acc ++ [(actual * 100)%float] /\
    nth_error (index data) original_idx = Some date /\
    nth_error (s_values y) original_idx = Some actual /\
    (1 <= original_idx ->
     nth_error (col "Close" data) (original_idx - 1) = Some prev_close).
Proof.
  intros o Hg. unfold inference_step. cbv zeta. fold o. rewrite Hg.
  destruct (inverse_transform_f32 s _) as [inv|]; cbn [bind]; [|discriminate].
  destruct (getitem inv 0) as [row0|]; cbn [bind]; [|discriminate].
  destruct (getitem row0 0) as [v|]; cbn [bind]; [|discriminate].
  destruct (getcol data "Close") as [close|] eqn:Ec; cbn [bind]; [|discriminate].
  apply getcol_inv in Ec. destruct Ec as [_ ->].
  destruct (iloc (col "Close" data) (Z.of_nat o - 1)) as [c|] eqn:Ei; cbn [bind];
    [|discriminate].
  destruct (getitem (index data) o) as [d|] eqn:Ed; cbn [bind]; [|discriminate].
  destruct (iloc (s_values y) (Z.of_nat o)) as [a|] eqn:Ea; cbn [bind]; [|discriminate].
  intros H. injection H as <-. exists v, c, d, a.
  cbn [predictions test_indices predict_percentages actual_percentages].
  repeat split.
  - apply getitem_inv. exact Ed.
  - apply iloc_inv. exact Ea.
  - intros H1. apply iloc_inv.
    replace (Z.of_nat (o - 1)) with (Z.of_nat o - 1)%Z by lia. exact Ei.
Qed.

Lemma inference_loop_lengths (net : Net) (s : MinMaxScaler float) (data : DataFrame)
    (y : Series) (split_idx n_steps : nat) (X_val : list (list (list float)))
    (i : nat) (acc r : Predictions) :
  (forall j, j < length X_val -> in_range data y (split_idx + n_steps + (i + j)) = true) ->
  inference_loop net s data y split_idx n_steps acc i X_val = Ok r ->
  length (predictions r) = length (predictions acc) + length X_val /\
  length (test_indices r) = length (test_indices acc) + length X_val /\
  length (predict_percentages r) = length (predict_percentages acc) + length X_val /\
  length (actual_percentages r) = length (actual_percentages acc) + length X_val.
Proof.
  revert i acc. induction X_val as [|x rest IH]; intros i acc Hg; simpl.
  - intros H. injection H as <-. repeat split; lia.
  - destruct (inference_step net s data y split_idx n_steps acc i x) as [acc'|] eqn:Es;
      cbn [bind]; [|discriminate].
    intros Hrun.
    destruct (inference_step_record net s data y split_idx n_steps i acc acc' x)
      as (v & c & d & a & P1 & P2 & P3 & P4 & _); [|exact Es|].
    { specialize (Hg 0). rewrite Nat.add_0_r in Hg. apply Hg. simpl. lia. }
    apply IH in Hrun.
    + rewrite P1, P2, P3, P4, !length_app in Hrun. simpl in Hrun.
      destruct Hrun as (R1 & R2 & R3 & R4). repeat split; lia.
    + intros j Hj. replace (S i + j) with (i + S j) by lia. apply Hg. simpl. lia.
Qed.

Lemma nrows_iloc_from (k : nat) (df : DataFrame) : nrows (iloc_from k df) = nrows df - k.
Proof. unfold nrows, iloc_from. cbn [index]. apply length_skipn. Qed.

(** Whenever a training function returns for the [X], [y] of
    [format_feature], it returns one record per validation window. *)
Lemma train_and_predict_records (net : Net) (data X : DataFrame) (y : Series)
    (n_steps num_epochs : nat) (batch_size : positive) (r : Predictions) :
  wf data -> format_feature data = Ok (X, y) ->
  train_and_predict net data X y n_steps num_epochs batch_size = Ok r ->
  length (predictions r) = nrows X - split_index (nrows X) - n_steps /\
  length (test_indices r) = length (predictions r) /\
  length (predict_percentages r) = length (predictions r) /\
  length (actual_percentages r) = length (predictions r).
Proof.
  intros Hwf Hff. destruct (format_feature_lengths data X y Hwf Hff) as (HX & Hy & _).
  unfold train_and_predict. set (split_idx := split_index (nrows X)).
  destruct (fit new_scaler (reshape_col (firstn split_idx (s_values y))))
    as [scaler_y|]; cbn [bind]; [|discriminate].
  destruct (fit new_scaler (values (iloc_to split_idx X)))
    as [scaler_X|]; cbn [bind]; [|discriminate].
  destruct (transform scaler_y (reshape_col (firstn split_idx (s_values y))))
    as [y_train_scaled|]; cbn [bind]; [|discriminate].
  destruct (transform scaler_y (reshape_col (skipn split_idx (s_values y))))
    as [y_val_scaled|]; cbn [bind]; [|discriminate].
  destruct (transform scaler_X (values (iloc_to split_idx X)))
    as [X_train_scaled|]; cbn [bind]; [|discriminate].
  destruct (transform scaler_X (values (iloc_from split_idx X)))
    as [X_val_scaled|] eqn:E6; cbn [bind]; [|discriminate].
  destruct (create_sequences X_train_scaled y_train_scaled n_steps)
    as [[X_train y_train]|]; cbn [bind]; [|discriminate].
  destruct (create_sequences X_val_scaled y_val_scaled n_steps)
    as [[X_val y_val]|] eqn:E8; cbn [bind]; [|discriminate].
  destruct X_train as [|w X_train]; cbn [bind]; [discriminate|].
  destruct (epoch_loop num_epochs _ _ batch_size); cbn [bind]; [|discriminate].
  intros Hrun.
  assert (Hn : length X_val = nrows X - split_idx - n_steps).
  { rewrite (create_sequences_length _ _ _ _ _ E8), (transform_length _ _ _ E6),
      length_values, nrows_iloc_from. reflexivity. }
  apply inference_loop_lengths in Hrun.
  - simpl in Hrun. destruct Hrun as (R1 & R2 & R3 & R4). repeat split; lia.
  - intros j Hj. unfold in_range. apply andb_true_iff.
    split; apply Nat.ltb_lt; lia.
Qed.

(* ================================================================== *)
(** * Further properties of the indicator table *)
(* ================================================================== *)

(** ** Missing values in sums *)

Lemma nan_add_l (x : float) : (nan + x)%float = nan.
Proof. apply Prim2SF_inj. rewrite FloatAxioms.add_spec. reflexivity. Qed.

Lemma nan_div_l (x : float) : (nan / x)%float = nan.
Proof. apply Prim2SF_inj. rewrite FloatAxioms.div_spec. reflexivity. Qed.

Lemma fold_add_nan (l : list float) : fold_left PrimFloat.add l nan = nan.
Proof. induction l as [|x l IH]; simpl; [reflexivity|]. rewrite nan_add_l. exact IH. Qed.

(** A window that starts with a missing value has a missing mean. *)
Lemma mean_nan_first (l : list float) : mean (nan :: l) = nan.
Proof.
  unfold mean, fsum. simpl fold_left.
  change (0 + nan)%float with nan. rewrite fold_add_nan. apply nan_div_l.
Qed.

(** ** The rows lost to the longest window *)

(** The 50-row average of the lagged close is missing in each of the first
    50 rows: 49 of them have too short a window and the 50th has the
    missing first value of the lagged column in its window. *)
Lemma ma50_warm_up (close : column) (i : nat) :
  i < 50 -> is_nan (nth i (rolling_mean 50 (shift1 close)) nan) = true.
Proof.
  intros Hi. unfold rolling_mean, rolling. cbv zeta.
  rewrite length_inf_to_nan, length_shift1.
  destruct (Nat.lt_ge_cases i (length close)) as [Hlt | Hge].
  - rewrite (nth_indep _ nan
               ((fun i => if S i <? 50 then nan
                          else mean (window_at 50 i (inf_to_nan (shift1 close)))) 0))
      by (rewrite length_map, length_seq; assumption).
    rewrite (map_nth (fun i => if S i <? 50 then nan
                               else mean (window_at 50 i (inf_to_nan (shift1 close))))).
    rewrite seq_nth by assumption. cbn [Nat.add].
    destruct (S i <? 50) eqn:E; [reflexivity|].
    apply Nat.ltb_ge in E. assert (i = 49) by lia. subst i.
    unfold window_at. change (50 - 50) with 0. cbn [Nat.sub skipn].
    rewrite firstn_inf_to_nan, (firstn_S_shift1 49 close Hlt).
    unfold inf_to_nan. cbn [map]. change (is_infinity nan) with false. cbv iota.
    rewrite mean_nan_first. reflexivity.
  - rewrite nth_overflow by (rewrite length_map, length_seq; assumption). reflexivity.
Qed.

Lemma length_select_skips {A : Type} (k : nat) (mask : list bool) (l : list A) :
  (forall i, i < k -> nth i mask false = false) ->
  length (select mask l) <= length l - k.
Proof.
  revert mask l. induction k as [|k IH]; intros mask l H.
  - rewrite Nat.sub_0_r. clear H. revert l.
    induction mask as [|m ms IHm]; intros [|x l]; simpl; try lia.
    destruct m; simpl; specialize (IHm l); lia.
  - destruct mask as [|m ms], l as [|x l]; simpl; try lia.
    assert (Hm : m = false) by (apply (H 0); lia). subst m.
    apply IH. intros i Hi. apply (H (S i)). lia.
Qed.

Lemma col_add_indicators_ma50 (df : DataFrame) :
  col "MA50" (add_indicators df) = rolling_mean 50 (shift1 (col "Close" df)).
Proof. rewrite add_indicators_closed_form, col_set_cols. reflexivity. Qed.

Lemma notna_rows_warm_up (df : DataFrame) (i : nat) :
  i < 50 -> nth i (notna_rows (add_indicators df)) false = false.
Proof.
  intros Hi. destruct (nth i (notna_rows (add_indicators df)) false) eqn:E; [|reflexivity].
  apply nth_notna_rows in E. destruct E as [_ E].
  rewrite existsb_false_Forall, Forall_forall in E.
  assert (Hc : has_col "MA50" (add_indicators df) = true)
    by (apply has_col_add_indicators; simpl; tauto).
  apply col_in_columns in Hc.
  apply (in_map (fun p => nth i (snd p) nan)) in Hc.
  apply E in Hc. cbn [snd] in Hc.
  rewrite col_add_indicators_ma50, ma50_warm_up in Hc by assumption. discriminate.
Qed.

Lemma nrows_dropna_add_indicators (df : DataFrame) :
  nrows (dropna (add_indicators df)) <= nrows df - 50.
Proof.
  unfold dropna, nrows. cbn [index].
  rewrite index_add_indicators.
  apply length_select_skips. intros i Hi. apply notna_rows_warm_up. exact Hi.
Qed.

Lemma returned_compute_indicators (bars T : DataFrame) :
  returned (compute_indicators bars) = Ok T ->
  T = empty_frame \/ T = dropna (add_indicators (clean_outliers bars)).
Proof.
  unfold compute_indicators.
  destruct (empty bars || negb (has_col "Close" bars));
    cbn [returned]; intros H; injection H as <-; [left | right]; reflexivity.
Qed.

(** X1.  The table that [compute_indicators] returns never has more rows
    than the input has beyond its first 50: the 50-row average of the
    lagged close is missing in each of the first 50 rows, and [dropna]
    drops every row with a missing cell.  A history of 50 bars or fewer
    gives a table without rows. *)
Theorem warm_up_rows_never_returned (bars T : DataFrame) :
  returned (compute_indicators bars) = Ok T ->
  nrows T <= nrows bars - 50.
Proof.
  intros H. apply returned_compute_indicators in H. destruct H as [-> | ->].
  - cbn. lia.
  - change (nrows bars) with (length (index bars)).
    rewrite <- (index_clean_outliers bars).
    apply nrows_dropna_add_indicators.
Qed.

Lemma warm_up_rows_never_returned_witness :
  returned (compute_indicators sample_bars) = Ok sample_table /\
  nrows sample_table <= nrows sample_bars - 50 /\
  nrows sample_bars = 62 /\ nrows sample_table = 12.
Proof.
  assert (H : returned (compute_indicators sample_bars) = Ok sample_table)
    by (vm_compute; reflexivity).
  split; [exact H|]. split.
  - exact (warm_up_rows_never_returned sample_bars sample_table H).
  - vm_compute. split; reflexivity.
Defined.

(** ** No missing value is returned *)

Lemma dropna_no_missing (df : DataFrame) : isnull_any (dropna df) = false.
Proof.
  unfold isnull_any. apply existsb_false_Forall, Forall_forall.
  intros q Hq. unfold dropna in Hq. cbn [columns] in Hq.
  apply in_map_iff in Hq. destruct Hq as (p & <- & Hp). cbn [snd].
  apply existsb_false_Forall. apply (Forall_select _ nan). intros i Hi Hk.
  apply nth_notna_rows in Hk. destruct Hk as [_ Hk].
  rewrite existsb_false_Forall, Forall_forall in Hk. apply Hk.
  unfold row_at. apply (in_map (fun p => nth i (snd p) nan)) in Hp. exact Hp.
Qed.

Lemma existsb_tl {A : Type} (f : A -> bool) (l : list A) :
  existsb f l = false -> existsb f (tl l) = false.
Proof. destruct l as [|x l]; simpl; [tauto|]. intros H. apply orb_false_iff in H. tauto. Qed.

Lemma getcols_inv (df : DataFrame) (keys : list string) (cols : list (string * column)) :
  getcols df keys = Ok cols -> cols = map (fun k => (k, col k df)) keys.
Proof.
  revert cols. induction keys as [|k keys IH]; simpl; intros cols H.
  - injection H as <-. reflexivity.
  - destruct (getcol df k) as [c|e] eqn:Ec; simpl in H; [|discriminate].
    destruct (getcols df keys) as [cs|e] eqn:Ecs; simpl in H; [|discriminate].
    injection H as <-. apply getcol_inv in Ec. destruct Ec as [_ ->].
    rewrite (IH cs eq_refl). reflexivity.
Qed.

(** On a table without missing values [format_feature] fills nothing in
    the feature frame. *)
Lemma format_feature_without_fill (T X : DataFrame) (y : Series) :
  isnull_any T = false -> format_feature T = Ok (X, y) ->
  isnull_any X = false /\
  columns X = map (fun k => (k, tl (col k T))) features.
Proof.
  intros HT HF.
  unfold format_feature, select_columns in HF.
  destruct (getcols T features) as [cols|e] eqn:Ec; [|discriminate].
  cbn [bind] in HF.
  destruct (getcol T "Close") as [close|e] eqn:Eclose; [|discriminate].
  cbn [bind] in HF.
  apply getcols_inv in Ec.
  assert (HX0 : isnull_any (iloc_from1 (mkDF (index T) cols)) = false).
  { unfold isnull_any, iloc_from1. cbn [columns].
    apply existsb_false_Forall, Forall_forall. intros q Hq.
    apply in_map_iff in Hq. destruct Hq as (p & <- & Hp). cbn [snd].
    apply existsb_tl. subst cols. apply in_map_iff in Hp.
    destruct Hp as (k & <- & Hk). cbn [snd].
    destruct (has_col k T) eqn:Ek.
    - unfold isnull_any in HT. rewrite existsb_false_Forall, Forall_forall in HT.
      apply (HT (k, col k T)). apply col_in_columns. exact Ek.
    - rewrite (col_missing T k Ek). reflexivity. }
  rewrite HX0 in HF. injection HF as <- _.
  split; [exact HX0|].
  unfold iloc_from1. cbn [columns]. subst cols. rewrite map_map. reflexivity.
Qed.

Lemma returned_no_missing (bars T : DataFrame) :
  returned (compute_indicators bars) = Ok T -> isnull_any T = false.
Proof.
  intros H. apply returned_compute_indicators in H.
  destruct H as [-> | ->]; [reflexivity | apply dropna_no_missing].
Qed.

(** X2.  The table that [compute_indicators] returns has no missing value
    in any column, so on such a table [format_feature] finds nothing to
    fill in the feature frame: [X] is free of missing values and is the
    selected columns without their first row, exactly as stored. *)
Theorem returned_table_has_no_missing_value (bars T : DataFrame) :
  returned (compute_indicators bars) = Ok T ->
  isnull_any T = false /\
  forall X y, format_feature T = Ok (X, y) ->
    isnull_any X = false /\
    columns X = map (fun k => (k, tl (col k T))) features.
Proof.
  intros H. pose proof (returned_no_missing bars T H) as HT.
  split; [exact HT|]. intros X y HF.
  exact (format_feature_without_fill T X y HT HF).
Qed.

Lemma returned_table_has_no_missing_value_witness :
  isnull_any sample_table = false /\
  forall X y, format_feature sample_table = Ok (X, y) ->
    isnull_any X = false /\
    columns X = map (fun k => (k, tl (col k sample_table))) features.
Proof.
  apply (returned_table_has_no_missing_value sample_bars sample_table).
  vm_compute. reflexivity.
Defined.

(** ** Two names for one column *)

(** X3.  [Prev_Close] and [Close_yes] are computed by the same expression,
    the close of the row before, so they are the same column of the
    returned table and of the feature frame built from it; with
    [Volume_yes] listed twice, the 24 columns of the feature frame hold 22
    different series. *)
Theorem prev_close_is_close_yes (bars T : DataFrame) :
  returned (compute_indicators bars) = Ok T ->
  col "Prev_Close" T = col "Close_yes" T /\
  forall X y, format_feature T = Ok (X, y) ->
    col "Prev_Close" X = col "Close_yes" X /\
    nth 0 (columns X) ("", []) = nth 22 (columns X) ("", []).
Proof.
  intros H.
  assert (HT : col "Prev_Close" T = col "Close_yes" T).
  { pose proof H as H'. apply returned_compute_indicators in H'.
    destruct H' as [-> | ->]; [reflexivity|].
    rewrite !col_dropna, add_indicators_closed_form, !col_set_cols. reflexivity. }
  split; [exact HT|]. intros X y HF.
  destruct (format_feature_without_fill T X y (returned_no_missing bars T H) HF) as [_ HX].
  unfold col. rewrite HX. cbn. split; [|reflexivity].
  fold (col "Prev_Close" T). fold (col "Close_yes" T). rewrite HT. reflexivity.
Qed.

Lemma prev_close_is_close_yes_witness :
  col "Prev_Close" sample_table = col "Close_yes" sample_table /\
  forall X y, format_feature sample_table = Ok (X, y) ->
    col "Prev_Close" X = col "Close_yes" X /\
    nth 0 (columns X) ("", []) = nth 22 (columns X) ("", []).
Proof.
  apply (prev_close_is_close_yes sample_bars sample_table).
  vm_compute. reflexivity.
Defined.

(** ** A table with nothing to clean *)

Lemma mask_nan_all_false (mask : list bool) (c : column) :
  existsb (fun b => b) mask = false -> length c <= length mask ->
  mask_nan mask c = c.
Proof.
  unfold mask_nan. revert c. induction mask as [|m ms IH]; intros [|x c]; simpl;
    intros Hm Hl; try reflexivity; try lia.
  apply orb_false_iff in Hm. destruct Hm as [-> Hm].
  rewrite IH by (assumption || lia). reflexivity.
Qed.

Lemma filter_none {A : Type} (f : A -> bool) (l : list A) :
  forallb (fun x => negb (f x)) l = true -> filter f l = [].
Proof.
  induction l as [|x l IH]; simpl; [reflexivity|].
  intros H. apply andb_true_iff in H. destruct H as [Hx H].
  apply negb_true_iff in Hx. rewrite Hx. apply IH. exact H.
Qed.

(** X4.  A well-formed table that has the five raw columns, no missing
    value and no close-to-close move above 30% is left exactly as it is by
    the outlier step: nothing is blanked and nothing is filled. *)
Theorem clean_outliers_keeps_clean_table (df : DataFrame) :
  wf df ->
  forallb (fun k => has_col k df) ohlcv = true ->
  isnull_any df = false ->
  existsb (fun b => b) (outlier_rows (pct_change (col "Close" df))) = false ->
  clean_outliers df = df.
Proof.
  intros Hwf Hraw Hnan Hout. unfold clean_outliers, loc_set_nan.
  rewrite filter_none.
  2:{ apply forallb_forall. intros k Hk. rewrite negb_involutive.
      rewrite forallb_forall in Hraw. apply Hraw. exact Hk. }
  cbn [map]. rewrite app_nil_r. unfold fillna_ffill. cbn [index columns].
  rewrite map_map. destruct df as [idx cols]. cbn [index columns] in *. f_equal.
  rewrite <- (map_id cols) at 2. apply map_ext_in. intros [name c] Hp. cbn [fst snd].
  assert (Hlen : length c = length idx).
  { unfold wf in Hwf. rewrite Forall_forall in Hwf. apply (Hwf _ Hp). }
  assert (Hc : existsb is_nan c = false).
  { unfold isnull_any in Hnan. rewrite existsb_false_Forall, Forall_forall in Hnan.
    apply (Hnan _ Hp). }
  assert (Hclose : length (col "Close" (mkDF idx cols)) = length idx).
  { apply (wf_col (mkDF idx cols) "Close" Hwf).
    cbn in Hraw. repeat (apply andb_true_iff in Hraw; destruct Hraw as [? Hraw]).
    assumption. }
  destruct (existsb (String.eqb name) ohlcv); cbn [fst snd].
  - rewrite mask_nan_all_false.
    + rewrite ffill_notna by exact Hc. reflexivity.
    + exact Hout.
    + unfold outlier_rows. rewrite length_map, length_pct_change, Hclose, Hlen. lia.
  - rewrite ffill_notna by exact Hc. reflexivity.
Qed.

Lemma clean_outliers_keeps_clean_table_witness :
  clean_outliers sample_bars = sample_bars.
Proof.
  apply clean_outliers_keeps_clean_table.
  - unfold wf. vm_compute. repeat constructor.
  - vm_compute. reflexivity.
  - vm_compute. reflexivity.
  - vm_compute. reflexivity.
Defined.

(** ** The columns [format_feature] needs *)

Lemma getcols_cases (df : DataFrame) (keys : list string) :
  getcols df keys =
  if forallb (fun k => has_col k df) keys
  then Ok (map (fun k => (k, col k df)) keys)
  else Raise KeyError.
Proof.
  induction keys as [|k keys IH]; simpl; [reflexivity|].
  destruct (has_col k df) eqn:Ek; cbn [andb].
  - rewrite (getcol_col df k Ek), IH. cbn [bind].
    destruct (forallb (fun k => has_col k df) keys); reflexivity.
  - rewrite (getcol_missing df k Ek). reflexivity.
Qed.

(** X5.  [format_feature] returns exactly when the table has the column
    [Close] and every column of the feature list; when one of them is
    absent it raises [KeyError], and it raises nothing else.  A table of raw
    bars, before the indicators are added, is such a table. *)
Theorem format_feature_key_error (data : DataFrame) :
  if forallb (fun k => has_col k data) ("Close" :: features)
  then exists X y, format_feature data = Ok (X, y)
  else format_feature data = Raise KeyError.
Proof.
  cbn [forallb]. unfold format_feature, select_columns.
  rewrite getcols_cases.
  destruct (forallb (fun k => has_col k data) features) eqn:Ef.
  - destruct (has_col "Close" data) eqn:Ec; cbn [andb bind].
    + rewrite (getcol_col data "Close" Ec). cbn [bind]. eauto.
    + rewrite (getcol_missing data "Close" Ec). reflexivity.
  - rewrite andb_false_r. reflexivity.
Qed.

(** ** Where a missing value can remain *)

Lemma scan_ffill_from_value (s : float) (l : column) :
  is_nan s = false -> existsb is_nan (scan ffill_step s l) = false.
Proof.
  revert s. induction l as [|x l IH]; intros s Hs; simpl; [reflexivity|].
  destruct (is_nan x) eqn:Ex.
  - rewrite Hs. cbn [orb]. apply IH. exact Hs.
  - rewrite Ex. cbn [orb]. apply IH. exact Ex.
Qed.

(** After a forward fill the missing values of a column are its first
    rows: below a value there is no missing value. *)
Lemma ffill_missing_prefix (l : column) (i j : nat) (v : float) :
  nth_error (ffill l) i = Some v -> is_nan v = true -> j <= i ->
  nth_error (ffill l) j = Some nan.
Proof.
  unfold ffill. revert i j. induction l as [|x l IH]; intros i j Hv Hn Hj.
  - destruct i; discriminate.
  - simpl in Hv |- *. destruct (is_nan x) eqn:Ex.
    + destruct j as [|j]; [reflexivity|].
      destruct i as [|i]; [lia|]. simpl in Hv |- *.
      apply (IH i j Hv Hn). lia.
    + destruct i as [|i].
      * simpl in Hv. injection Hv as <-. congruence.
      * simpl in Hv. apply nth_error_In in Hv.
        pose proof (scan_ffill_from_value x l Ex) as Hno.
        rewrite existsb_false_Forall, Forall_forall in Hno.
        rewrite (Hno v Hv) in Hn. discriminate.
Qed.

(** X6.  Whatever table [format_feature] is given, a missing value that
    remains in a column of [X] or in [y] is a leading one: every row above
    it in that column is missing too.  The forward fill cannot fill the
    rows before the first value, and nothing else is done about them. *)
Theorem format_feature_missing_values_lead (data X : DataFrame) (y : Series) :
  format_feature data = Ok (X, y) ->
  forall c i j v,
    In c (s_values y :: map snd (columns X)) ->
    nth_error c i = Some v -> is_nan v = true -> j <= i ->
    nth_error c j = Some nan.
Proof.
  intros HF.
  assert (Hnone : forall (c : column) i v,
            existsb is_nan c = false -> nth_error c i = Some v -> is_nan v = true -> False).
  { intros c i v Hc Hv Hn. apply nth_error_In in Hv.
    rewrite existsb_false_Forall, Forall_forall in Hc. rewrite (Hc v Hv) in Hn.
    discriminate. }
  unfold format_feature, select_columns in HF.
  destruct (getcols data features) as [cols|e]; [|discriminate]. cbn [bind] in HF.
  destruct (getcol data "Close") as [close|e]; [|discriminate]. cbn [bind] in HF.
  cbn [s_values s_index] in HF. injection HF as HX Hy.
  intros c i j v [Hc | Hc] Hv Hn Hj.
  - subst c. rewrite <- Hy in Hv |- *.
    destruct (existsb is_nan (tl (pct_change close))) eqn:E; cbn [s_values] in Hv |- *.
    + exact (ffill_missing_prefix _ i j v Hv Hn Hj).
    + exfalso. exact (Hnone _ i v E Hv Hn).
  - rewrite <- HX in Hc.
    destruct (isnull_any (iloc_from1 (mkDF (index data) cols))) eqn:E.
    + unfold fillna_ffill in Hc. cbn [columns] in Hc. rewrite map_map in Hc.
      cbn [snd] in Hc. apply in_map_iff in Hc. destruct Hc as (p & <- & _).
      exact (ffill_missing_prefix _ i j v Hv Hn Hj).
    + exfalso. unfold isnull_any in E.
      rewrite existsb_false_Forall, Forall_forall in E.
      apply in_map_iff in Hc. destruct Hc as (p & <- & Hp).
      exact (Hnone _ i v (E p Hp) Hv Hn).
Qed.

(** A table whose [MA5] is missing in its first two rows and once more
    further down: the fill repairs the third row and leaves the first two. *)
Lemma format_feature_missing_values_lead_witness :
  let data :=
    mkDF [mkDate 2024 1 2; mkDate 2024 1 3; mkDate 2024 1 4; mkDate 2024 1 5; mkDate 2024 1 8]
         (("Close", [10; 11; 12; 13; 14]%float) ::
          map (fun k => (k, if String.eqb k "MA5" then [nan; nan; nan; 3; nan]%float
                            else [1; 2; 3; 4; 5]%float)) features) in
  exists X y,
    format_feature data = Ok (X, y) /\
    col "MA5" X = [nan; nan; 3; 3]%float /\
    nth_error (col "MA5" X) 0 = Some nan.
Proof.
  intros data.
  assert (HF : exists X y, format_feature data = Ok (X, y) /\
                           col "MA5" X = [nan; nan; 3; 3]%float).
  { eexists. eexists. split; [vm_compute; reflexivity|]. vm_compute. reflexivity. }
  destruct HF as (X & y & HF & HM). exists X, y.
  split; [exact HF|]. split; [exact HM|].
  apply (format_feature_missing_values_lead data X y HF (col "MA5" X) 1 0 nan).
  - right. apply in_map_iff. exists ("MA5", col "MA5" X). split; [reflexivity|].
    apply col_in_columns.
    assert (E : columns X = columns (fst (match format_feature data with
                                          | Ok p => p
                                          | Raise _ => (empty_frame, mkSeries [] [])
                                          end))) by (rewrite HF; reflexivity).
    unfold has_col, names. rewrite E. vm_compute. reflexivity.
  - rewrite HM. reflexivity.
  - reflexivity.
  - lia.
Defined.

(** ** A target shorter than the features *)

Lemma create_sequences_loop_raises {A B : Type} (features : list A) (target : list B)
    (n_steps : nat) (rng : list nat) (X0 : list (list A)) (y0 : list B) :
  (exists i, In i rng /\ length target <= i + n_steps) ->
  create_sequences_loop features target n_steps rng X0 y0 = Raise IndexError.
Proof.
  revert X0 y0. induction rng as [|k rng IH]; intros X0 y0 (i & Hi & Hlen).
  - destruct Hi.
  - simpl. unfold getitem.
    destruct (nth_error target (k + n_steps)) as [t|] eqn:Et; cbn [bind].
    + apply IH. destruct Hi as [-> | Hi].
      * assert (i + n_steps < length target)
          by (apply nth_error_Some; rewrite Et; discriminate).
        lia.
      * exists i. split; assumption.
    + reflexivity.
Qed.

(** X7.  When the features give at least one window and the target has
    fewer rows than the features, [create_sequences] raises [IndexError]:
    the target of the last window lies beyond the end of the target, and
    the windows built before it are lost with the exception. *)
Theorem create_sequences_short_target_raises {A B : Type} (features : list A)
    (target : list B) (n_steps : nat) :
  n_steps < length features -> length target < length features ->
  create_sequences features target n_steps = Raise IndexError.
Proof.
  intros Hn Ht. unfold create_sequences. apply create_sequences_loop_raises.
  exists (length features - n_steps - 1). split.
  - apply in_seq. lia.
  - lia.
Qed.

Lemma create_sequences_short_target_raises_witness :
  create_sequences [10; 11; 12; 13; 14] [20; 21; 22; 23] 2 = Raise IndexError.
Proof.
  apply create_sequences_short_target_raises; simpl; lia.
Defined.

(* ================================================================== *)
(** * Further properties of a training run *)
(* ================================================================== *)

(** ** The slices of the split, as arrays *)

Lemma map_seq_from (B : Type) (f : nat -> B) (k m : nat) :
  map f (seq k m) = map (fun i => f (k + i)) (seq 0 m).
Proof.
  revert f k. induction m as [|m IH]; intros f k; simpl; [reflexivity|].
  rewrite Nat.add_0_r. f_equal.
  rewrite (IH f (S k)), (IH (fun i => f (k + i)) 1).
  apply map_ext. intros i. f_equal. lia.
Qed.

Lemma values_iloc_to (k : nat) (df : DataFrame) :
  values (iloc_to k df) = firstn k (values df).
Proof.
  unfold values, iloc_to, head, nrows. cbn [index].
  rewrite length_firstn, firstn_map, firstn_seq.
  apply map_ext_in. intros i Hi. apply in_seq in Hi.
  unfold row_at. cbn [columns]. rewrite map_map. apply map_ext. intros p. cbn [snd].
  rewrite nth_firstn.
  destruct (i <? k) eqn:E; [reflexivity|]. apply Nat.ltb_ge in E. lia.
Qed.

Lemma values_iloc_from (k : nat) (df : DataFrame) :
  values (iloc_from k df) = skipn k (values df).
Proof.
  unfold values, iloc_from, nrows. cbn [index].
  rewrite length_skipn, skipn_map, skipn_seq. cbn [Nat.add].
  rewrite (map_seq_from _ (fun i => row_at i df)).
  apply map_ext. intros i.
  unfold row_at. cbn [columns]. rewrite map_map. apply map_ext. intros p. cbn [snd].
  apply nth_skipn.
Qed.

Lemma existsb_firstn_skipn {A : Type} (f : A -> bool) (k : nat) (l : list A) :
  existsb f l = existsb f (firstn k l) || existsb f (skipn k l).
Proof. rewrite <- existsb_app, firstn_skipn. reflexivity. Qed.

(** ** When a scaler accepts an array *)

(** An array that a scaler accepts holds no infinity. *)
Lemma transform_ok_finite {F : Type} {A : Arith F} (s : MinMaxScaler F)
    (X Y : list (list F)) :
  transform s X = Ok Y -> existsb (existsb isinf) X = false.
Proof.
  rewrite transform_cases. destruct (length X =? 0); cbn [orb]; [discriminate|].
  destruct (existsb (existsb isinf) X); [discriminate | reflexivity].
Qed.

(** The number of batches of a non-empty data set is positive. *)
Lemma loader_len_zero (n : nat) (batch_size : positive) :
  (loader_len n batch_size =? 0) = (n =? 0).
Proof.
  unfold loader_len. pose proof (Pos2Nat.is_pos batch_size) as Hb.
  destruct n as [|n].
  - cbn [Nat.add Nat.eqb]. apply Nat.eqb_eq. apply Nat.div_small. lia.
  - cbn [Nat.eqb]. apply Nat.eqb_neq.
    assert (0 < (S n + Pos.to_nat batch_size - 1) / Pos.to_nat batch_size)
      by (apply Nat.div_str_pos; lia).
    lia.
Qed.

Lemma create_sequences_aligned {A B : Type} (features : list A) (target : list B)
    (n_steps : nat) :
  length target = length features ->
  exists y_seq,
    create_sequences features target n_steps =
      Ok (map (fun i => slice features i (i + n_steps)) (seq 0 (length features - n_steps)),
          y_seq) /\
    length y_seq = length features - n_steps.
Proof.
  intros Hlen. unfold create_sequences.
  destruct (create_sequences_loop_ok features target n_steps (length features - n_steps) 0
              [] []) as (ys & Hrun & Hys & _).
  - lia.
  - exists ys. split; [exact Hrun | exact Hys].
Qed.

(** ** The run up to the epoch loop *)

Ltac array_length :=
  repeat rewrite ?length_map, ?length_reshape_col, ?length_firstn, ?length_skipn,
                 ?length_values, ?length_seq;
  lia.

(** What the run has computed when it reaches the epoch loop, for a
    feature frame and a target of the same length that hold no infinity and
    a split that leaves rows on both sides. *)
Lemma train_and_predict_until_inference (net : Net) (data X : DataFrame) (y : Series)
    (n_steps num_epochs : nat) (batch_size : positive) :
  length (s_values y) = nrows X ->
  existsb (existsb is_infinity) (values X) = false ->
  existsb is_infinity (s_values y) = false ->
  1 <= split_index (nrows X) -> split_index (nrows X) < nrows X ->
  let split_idx := split_index (nrows X) in
  let scaler_X := map (fit_column (0%float, 1%float))
                      (array_columns (firstn split_idx (values X))) in
  let X_val_scaled := map (fun row => map2 (transform1 (0%float, 1%float) false) scaler_X row)
                          (skipn split_idx (values X)) in
  let X_val := map (fun i => slice X_val_scaled i (i + n_steps))
                   (seq 0 (nrows X - split_idx - n_steps)) in
  train_and_predict net data X y n_steps num_epochs batch_size =
    (_ <- (if split_idx <=? n_steps then Raise IndexError else Ok tt) ;;
     _ <- epoch_loop num_epochs (split_idx - n_steps) (length X_val) batch_size ;;
     inference_loop net
       (mkScaler (0%float, 1%float) false
          [fit_column (0%float, 1%float) (firstn split_idx (s_values y))])
       data y split_idx n_steps (mkPredictions [] [] [] []) 0 X_val).
Proof.
  intros Hy HXinf Hyinf Hs1 Hs2. cbv zeta.
  unfold train_and_predict. set (s := split_index (nrows X)) in *.
  rewrite (existsb_firstn_skipn (existsb is_infinity) s) in HXinf.
  rewrite (existsb_firstn_skipn is_infinity s) in Hyinf.
  apply orb_false_iff in HXinf, Hyinf.
  destruct HXinf as [HXt HXv], Hyinf as [Hyt Hyv].
  assert (Lyt : length (firstn s (s_values y)) = s) by (rewrite length_firstn; lia).
  assert (Lyv : length (skipn s (s_values y)) = nrows X - s) by (rewrite length_skipn; lia).
  assert (LXt : length (values (iloc_to s X)) = s)
    by (rewrite values_iloc_to, length_firstn, length_values; lia).
  assert (LXv : length (values (iloc_from s X)) = nrows X - s)
    by (rewrite values_iloc_from, length_skipn, length_values; lia).
  assert (Nyt : firstn s (s_values y) <> [])
    by (intros E; rewrite E in Lyt; simpl in Lyt; lia).
  (* the six calls of the scalers *)
  rewrite (fit_cases new_scaler (reshape_col (firstn s (s_values y)))).
  rewrite length_reshape_col, Lyt, existsb_reshape_col.
  change (@isinf float float_arith) with is_infinity. rewrite Hyt.
  replace (s =? 0) with false by (symmetry; apply Nat.eqb_neq; lia).
  cbn [orb bind]. rewrite (array_columns_reshape_col _ Nyt). cbn [map].
  rewrite (fit_cases new_scaler (values (iloc_to s X))).
  rewrite LXt, values_iloc_to.
  change (@isinf float float_arith) with is_infinity. rewrite HXt.
  replace (s =? 0) with false by (symmetry; apply Nat.eqb_neq; lia).
  cbn [orb bind].
  rewrite !transform_cases.
  rewrite !length_reshape_col, !existsb_reshape_col, Lyt, Lyv.
  rewrite <- values_iloc_to, LXt, LXv, values_iloc_to, values_iloc_from.
  change (@isinf float float_arith) with is_infinity. rewrite Hyt, Hyv, HXt, HXv.
  replace (s =? 0) with false by (symmetry; apply Nat.eqb_neq; lia).
  replace (nrows X - s =? 0) with false by (symmetry; apply Nat.eqb_neq; lia).
  cbn [orb bind].
  (* the windows *)
  match goal with
  | |- context [create_sequences ?f (map ?g (reshape_col (firstn s (s_values y)))) n_steps] =>
      destruct (create_sequences_aligned f (map g (reshape_col (firstn s (s_values y))))
                  n_steps) as (ytr & -> & _);
      [array_length|]; set (Xtr := f)
  end.
  cbn [bind].
  match goal with
  | |- context [create_sequences ?f (map ?g (reshape_col (skipn s (s_values y)))) n_steps] =>
      destruct (create_sequences_aligned f (map g (reshape_col (skipn s (s_values y))))
                  n_steps) as (yv & -> & _);
      [array_length|]; set (Xv := f)
  end.
  cbn [bind].
  assert (LXtr : length Xtr = s) by (unfold Xtr; array_length).
  assert (LXv' : length Xv = nrows X - s) by (unfold Xv; array_length).
  rewrite LXtr, LXv'. fold Xv.
  rewrite !length_map, !length_seq.
  destruct (s <=? n_steps) eqn:E.
  - apply Nat.leb_le in E. replace (s - n_steps) with 0 by lia. reflexivity.
  - apply Nat.leb_gt in E.
    destruct (seq 0 (s - n_steps)) as [|a l] eqn:Es.
    + apply (f_equal (@length nat)) in Es. rewrite length_seq in Es. simpl in Es. lia.
    + reflexivity.
Qed.

Lemma train_and_predict_until_epochs (net : Net) (data X : DataFrame) (y : Series)
    (n_steps num_epochs : nat) (batch_size : positive) :
  length (s_values y) = nrows X ->
  existsb (existsb is_infinity) (values X) = false ->
  existsb is_infinity (s_values y) = false ->
  1 <= split_index (nrows X) -> split_index (nrows X) < nrows X ->
  exists X_val : list (list (list float)),
    length X_val = nrows X - split_index (nrows X) - n_steps /\
    Forall (fun w => length w = n_steps) X_val /\
    train_and_predict net data X y n_steps num_epochs batch_size =
      (_ <- (if split_index (nrows X) <=? n_steps then Raise IndexError else Ok tt) ;;
       _ <- epoch_loop num_epochs (split_index (nrows X) - n_steps) (length X_val)
                       batch_size ;;
       inference_loop net
         (mkScaler (0%float, 1%float) false
            [fit_column (0%float, 1%float) (firstn (split_index (nrows X)) (s_values y))])
         data y (split_index (nrows X)) n_steps (mkPredictions [] [] [] []) 0 X_val).
Proof.
  intros Hy HXinf Hyinf Hs1 Hs2.
  pose proof (train_and_predict_until_inference net data X y n_steps num_epochs batch_size
                Hy HXinf Hyinf Hs1 Hs2) as H.
  cbv zeta in H. eexists. split; [|split; [|exact H]].
  - rewrite length_map, length_seq. reflexivity.
  - apply Forall_forall. intros w Hw. apply in_map_iff in Hw.
    destruct Hw as (i & <- & Hi). apply in_seq in Hi.
    unfold slice. rewrite length_firstn, length_skipn, length_map, length_skipn,
      length_values. lia.
Qed.

(** ** An infinity in the data *)

Lemma train_and_predict_infinity (net : Net) (data X : DataFrame) (y : Series)
    (n_steps num_epochs : nat) (batch_size : positive) :
  existsb is_infinity (s_values y) = true \/
  existsb (existsb is_infinity) (values X) = true ->
  train_and_predict net data X y n_steps num_epochs batch_size = Raise ValueError.
Proof.
  intros Hinf.
  unfold train_and_predict. set (s := split_index (nrows X)).
  rewrite (existsb_firstn_skipn is_infinity s) in Hinf.
  rewrite (existsb_firstn_skipn (existsb is_infinity) s (values X)) in Hinf.
  rewrite <- values_iloc_to, <- values_iloc_from in Hinf.
  destruct (fit new_scaler (reshape_col (firstn s (s_values y))))
    as [scaler_y|e] eqn:E1; cbn [bind];
    [|rewrite (fit_raises _ _ _ E1); reflexivity].
  destruct (fit new_scaler (values (iloc_to s X)))
    as [scaler_X|e] eqn:E2; cbn [bind];
    [|rewrite (fit_raises _ _ _ E2); reflexivity].
  destruct (transform scaler_y (reshape_col (firstn s (s_values y))))
    as [y_train_scaled|e] eqn:E3; cbn [bind];
    [|rewrite (transform_raises _ _ _ E3); reflexivity].
  destruct (transform scaler_y (reshape_col (skipn s (s_values y))))
    as [y_val_scaled|e] eqn:E4; cbn [bind];
    [|rewrite (transform_raises _ _ _ E4); reflexivity].
  destruct (transform scaler_X (values (iloc_to s X)))
    as [X_train_scaled|e] eqn:E5; cbn [bind];
    [|rewrite (transform_raises _ _ _ E5); reflexivity].
  destruct (transform scaler_X (values (iloc_from s X)))
    as [X_val_scaled|e] eqn:E6; cbn [bind];
    [|rewrite (transform_raises _ _ _ E6); reflexivity].
  exfalso.
  apply transform_ok_finite in E3, E4, E5, E6.
  rewrite existsb_reshape_col in E3, E4.
  change (@isinf float float_arith) with is_infinity in E3, E4, E5, E6.
  rewrite E3, E4, E5, E6 in Hinf. destruct Hinf; discriminate.
Qed.

(** X8.  An infinite value anywhere in the target or in a row of the
    feature frame makes the run raise [ValueError] before any window is
    built: the train and validation slices of both are each passed to a
    scaler, which refuses an array that holds an infinity.  The target is a
    percentage change, so a close of zero followed by another close is
    enough. *)
Theorem infinite_value_raises_value_error (net : Net) (data X : DataFrame) (y : Series)
    (n_steps num_epochs : nat) (batch_size : positive) :
  existsb is_infinity (s_values y) = true \/
  existsb (existsb is_infinity) (values X) = true ->
  train_and_predict_lstm net data X y n_steps num_epochs batch_size = Raise ValueError /\
  train_and_predict_gru net data X y n_steps num_epochs batch_size = Raise ValueError.
Proof.
  intros Hinf. split; apply train_and_predict_infinity; exact Hinf.
Qed.

(** Five feature rows whose target has an infinite change in its last row. *)
Lemma infinite_value_raises_value_error_witness :
  let X := mkDF [mkDate 2024 1 2; mkDate 2024 1 3; mkDate 2024 1 4; mkDate 2024 1 5;
                 mkDate 2024 1 8]
                [("MA5", [1; 2; 3; 4; 5]%float)] in
  let y := mkSeries (index X) [0.5; 0.25; nan; -1; infinity]%float in
  train_and_predict_lstm const_net X X y 2 100 64 = Raise ValueError /\
  train_and_predict_gru const_net X X y 2 100 64 = Raise ValueError.
Proof.
  intros X y. apply infinite_value_raises_value_error.
  left. vm_compute. reflexivity.
Defined.

(** ** A validation slice without a window *)

(** X9.  When the train slice gives at least one window and the validation
    slice is not empty but has no more than [n_steps] rows, there is no
    validation window, the validation loader has no batch, and the first
    epoch raises [ZeroDivisionError] when it divides the summed validation
    loss by the number of batches.  With the default window of 30 rows this
    is any feature frame of 39 to 154 rows. *)
Theorem no_validation_window_raises_zero_division (net : Net) (data X : DataFrame)
    (y : Series) (n_steps num_epochs : nat) (batch_size : positive) :
  length (s_values y) = nrows X ->
  existsb (existsb is_infinity) (values X) = false ->
  existsb is_infinity (s_values y) = false ->
  n_steps < split_index (nrows X) ->
  split_index (nrows X) < nrows X ->
  nrows X - split_index (nrows X) <= n_steps ->
  1 <= num_epochs ->
  train_and_predict_lstm net data X y n_steps num_epochs batch_size
    = Raise ZeroDivisionError /\
  train_and_predict_gru net data X y n_steps num_epochs batch_size
    = Raise ZeroDivisionError.
Proof.
  intros Hy HX Hyi Hn Hs Hv He.
  assert (H : train_and_predict net data X y n_steps num_epochs batch_size
              = Raise ZeroDivisionError); [|split; exact H].
  destruct (train_and_predict_until_epochs net data X y n_steps num_epochs batch_size
              Hy HX Hyi) as (X_val & HL & _ & ->); [lia | lia |].
  replace (split_index (nrows X) <=? n_steps) with false
    by (symmetry; apply Nat.leb_gt; lia).
  cbn [bind]. unfold epoch_loop. destruct num_epochs as [|k]; [lia|].
  rewrite !loader_len_zero, HL.
  replace (split_index (nrows X) - n_steps =? 0) with false
    by (symmetry; apply Nat.eqb_neq; lia).
  replace (nrows X - split_index (nrows X) - n_steps =? 0) with true
    by (symmetry; apply Nat.eqb_eq; lia).
  reflexivity.
Qed.

(** The short sample with a window of 5 rows: 11 feature rows, a train
    slice of 8 and a validation slice of 3. *)
Lemma no_validation_window_raises_zero_division_witness :
  train_and_predict_lstm const_net sample_table sample_X sample_y 5 100 64
    = Raise ZeroDivisionError /\
  train_and_predict_gru const_net sample_table sample_X sample_y 5 100 64
    = Raise ZeroDivisionError.
Proof.
  apply no_validation_window_raises_zero_division;
    try (vm_compute; reflexivity); vm_compute; lia.
Defined.

(** The sizes of feature frame for which the default window of 30 rows
    leaves the validation slice without a window: 39 to 150 rows. *)
Example default_window_sizes_without_validation :
  forallb (fun n => (30 <? split_index n) && (split_index n <? n) &&
                    (n - split_index n <=? 30)) (seq 39 112) = true /\
  (30 <? split_index 38) = false /\
  (151 - split_index 151 <=? 30) = false.
Proof. vm_compute. repeat split; reflexivity. Qed.

(** ** The records of a run *)

Lemma skipn_nth_error {A : Type} (l : list A) (o : nat) (a : A) :
  nth_error l o = Some a -> skipn o l = a :: skipn (S o) l.
Proof.
  revert o. induction l as [|x l IH]; intros [|o] H; try discriminate.
  - injection H as <-. reflexivity.
  - simpl in H. apply IH in H. exact H.
Qed.

(** Every window inside the guard adds the date and the stored return of
    its own position. *)
Lemma inference_loop_records (net : Net) (s : MinMaxScaler float) (data : DataFrame)
    (y : Series) (split_idx n_steps : nat) (X_val : list (list (list float)))
    (i : nat) (acc r : Predictions) :
  (forall j, j < length X_val -> in_range data y (split_idx + n_steps + (i + j)) = true) ->
  inference_loop net s data y split_idx n_steps acc i X_val = Ok r ->
  test_indices r =
    test_indices acc ++
    firstn (length X_val) (skipn (split_idx + n_steps + i) (index data)) /\
  actual_percentages r =
    actual_percentages acc ++
    map (fun v => (v * 100)%float)
        (firstn (length X_val) (skipn (split_idx + n_steps + i) (s_values y))).
Proof.
  revert i acc. induction X_val as [|x rest IH]; intros i acc Hin Hrun.
  - simpl in Hrun. injection Hrun as <-. simpl. rewrite !app_nil_r. split; reflexivity.
  - cbn [inference_loop] in Hrun.
    destruct (inference_step net s data y split_idx n_steps acc i x) as [acc'|e] eqn:Es;
      cbn [bind] in Hrun; [|discriminate].
    assert (H0 : in_range data y (split_idx + n_steps + i) = true)
      by (rewrite <- (Nat.add_0_r i) at 1; apply Hin; simpl; lia).
    destruct (inference_step_record net s data y split_idx n_steps i acc acc' x H0 Es)
      as (v & prev & date & actual & _ & Hd & _ & Ha & Hdate & Hact & _).
    apply IH in Hrun.
    + destruct Hrun as [Rd Ra]. rewrite Rd, Ra, Hd, Ha, <- !app_assoc.
      replace (split_idx + n_steps + S i) with (S (split_idx + n_steps + i)) by lia.
      rewrite (skipn_nth_error _ _ _ Hdate), (skipn_nth_error _ _ _ Hact).
      split; reflexivity.
    + intros j Hj. replace (S i + j) with (i + S j) by lia. apply Hin. simpl. lia.
Qed.

Lemma train_and_predict_run (net : Net) (data X : DataFrame) (y : Series)
    (n_steps num_epochs : nat) (batch_size : positive) :
  wf data -> format_feature data = Ok (X, y) ->
  existsb (existsb is_infinity) (values X) = false ->
  existsb is_infinity (s_values y) = false ->
  (forall w, is_infinity (net w) = false) ->
  n_steps < split_index (nrows X) ->
  split_index (nrows X) + n_steps < nrows X ->
  exists r,
    train_and_predict net data X y n_steps num_epochs batch_size = Ok r /\
    length (predictions r) = nrows X - split_index (nrows X) - n_steps /\
    test_indices r =
      firstn (nrows X - split_index (nrows X) - n_steps)
             (skipn (split_index (nrows X) + n_steps) (index data)) /\
    actual_percentages r =
      map (fun v => (v * 100)%float)
          (firstn (nrows X - split_index (nrows X) - n_steps)
                  (skipn (split_index (nrows X) + n_steps) (s_values y))).
Proof.
  intros Hwf HF HXi Hyi Hnet Hn Hv.
  destruct (format_feature_lengths data X y Hwf HF) as (HX & Hy & Hclose).
  destruct (train_and_predict_until_epochs net data X y n_steps num_epochs batch_size)
    as (X_val & HL & _ & ->); try assumption; try lia.
  set (p := fit_column (0%float, 1%float) (firstn (split_index (nrows X)) (s_values y))).
  replace (split_index (nrows X) <=? n_steps) with false
    by (symmetry; apply Nat.leb_gt; lia).
  cbn [bind].
  assert (He : epoch_loop num_epochs (split_index (nrows X) - n_steps) (length X_val)
                 batch_size = Ok tt).
  { unfold epoch_loop. destruct num_epochs as [|k]; [reflexivity|].
    rewrite !loader_len_zero, HL.
    replace (split_index (nrows X) - n_steps =? 0) with false
      by (symmetry; apply Nat.eqb_neq; lia).
    replace (nrows X - split_index (nrows X) - n_steps =? 0) with false
      by (symmetry; apply Nat.eqb_neq; lia).
    reflexivity. }
  rewrite He. cbn [bind].
  assert (Hin : forall j, j < length X_val ->
            in_range data y (split_index (nrows X) + n_steps + (0 + j)) = true).
  { intros j Hj. unfold in_range. apply andb_true_iff. split; apply Nat.ltb_lt; lia. }
  destruct (inference_loop_emits net (mkScaler (0%float, 1%float) false [p]) p data y
              (split_index (nrows X)) n_steps X_val 0 (mkPredictions [] [] [] []))
    as (r & Hr & L1 & _); try assumption; try reflexivity.
  { apply wf_col; assumption. }
  exists r. split; [exact Hr|].
  destruct (inference_loop_records _ _ _ _ _ _ _ _ _ _ Hin Hr) as [Rd Ra].
  cbn [test_indices actual_percentages app] in Rd, Ra.
  rewrite Nat.add_0_r, HL in Rd, Ra.
  split; [|split; assumption].
  rewrite L1, HL. reflexivity.
Qed.

(** X10.  A run returns when the table is well formed, the frame and the
    target come from [format_feature] and hold no infinity, the network
    answers no infinity, and the split leaves more than [n_steps] rows on
    each side.  It then returns one record for each of the
    [len(X) - split_idx - n_steps] validation windows; record [k] is dated
    [data.index[split_idx + n_steps + k]] and its stored return is
    [100 * y.iloc[split_idx + n_steps + k]], the entry of the target at that
    same position. *)
Theorem train_and_predict_returns (net : Net) (data X : DataFrame) (y : Series)
    (n_steps num_epochs : nat) (batch_size : positive) :
  wf data -> format_feature data = Ok (X, y) ->
  existsb (existsb is_infinity) (values X) = false ->
  existsb is_infinity (s_values y) = false ->
  (forall w, is_infinity (net w) = false) ->
  n_steps < split_index (nrows X) ->
  split_index (nrows X) + n_steps < nrows X ->
  exists r,
    train_and_predict_lstm net data X y n_steps num_epochs batch_size = Ok r /\
    train_and_predict_gru net data X y n_steps num_epochs batch_size = Ok r /\
    length (predictions r) = nrows X - split_index (nrows X) - n_steps /\
    test_indices r =
      firstn (nrows X - split_index (nrows X) - n_steps)
             (skipn (split_index (nrows X) + n_steps) (index data)) /\
    actual_percentages r =
      map (fun v => (v * 100)%float)
          (firstn (nrows X - split_index (nrows X) - n_steps)
                  (skipn (split_index (nrows X) + n_steps) (s_values y))).
Proof.
  intros Hwf HF HXi Hyi Hnet Hn Hv.
  destruct (train_and_predict_run net data X y n_steps num_epochs batch_size
              Hwf HF HXi Hyi Hnet Hn Hv) as (r & Hr & Hrest).
  exists r. split; [exact Hr|]. split; [exact Hr | exact Hrest].
Qed.

(** The short sample with a window of 2 rows: a split index of 8, six
    train windows and one validation window. *)
Lemma train_and_predict_returns_witness :
  exists r,
    train_and_predict_lstm const_net sample_table sample_X sample_y 2 100 64 = Ok r /\
    train_and_predict_gru const_net sample_table sample_X sample_y 2 100 64 = Ok r /\
    length (predictions r) = nrows sample_X - split_index (nrows sample_X) - 2 /\
    test_indices r =
      firstn (nrows sample_X - split_index (nrows sample_X) - 2)
             (skipn (split_index (nrows sample_X) + 2) (index sample_table)) /\
    actual_percentages r =
      map (fun v => (v * 100)%float)
          (firstn (nrows sample_X - split_index (nrows sample_X) - 2)
                  (skipn (split_index (nrows sample_X) + 2) (s_values sample_y))).
Proof.
  apply train_and_predict_returns.
  - unfold wf. vm_compute. repeat constructor.
  - vm_compute. reflexivity.
  - vm_compute. reflexivity.
  - vm_compute. reflexivity.
  - intros w. reflexivity.
  - vm_compute. lia.
  - vm_compute. lia.
Defined.

(** ** The predicted price *)

Lemma iloc_before {A : Type} (l : list A) (o : nat) (d : A) :
  1 <= o -> o <= length l -> iloc l (Z.of_nat o - 1) = Ok (nth (o - 1) l d).
Proof.
  intros H1 H2. replace (Z.of_nat o - 1)%Z with (Z.of_nat (o - 1)) by lia.
  apply iloc_in_range. lia.
Qed.

(** One window inside the guard, for a scaler of one column and a finite
    answer of the network. *)
Lemma inference_step_price (net : Net) (s : MinMaxScaler float) (p : ColumnScale float)
    (data : DataFrame) (y : Series) (split_idx n_steps i : nat) (acc : Predictions)
    (x : list (list float)) :
  fitted s = [p] -> is_infinity (net (map (map to_f32) x)) = false ->
  has_col "Close" data = true -> length (col "Close" data) = nrows data ->
  in_range data y (split_idx + n_steps + i) = true ->
  1 <= split_idx + n_steps + i ->
  let v := inverse1_f32 p (net (map (map to_f32) x)) in
  inference_step net s data y split_idx n_steps acc i x =
    Ok (mkPredictions
          (predictions acc ++
             [(f32_add 1 v * nth (split_idx + n_steps + i - 1) (col "Close" data) nan)%float])
          (test_indices acc ++ [nth (split_idx + n_steps + i) (index data) (mkDate 0 0 0)])
          (predict_percentages acc ++ [f32_mul v 100])
          (actual_percentages acc ++
             [(nth (split_idx + n_steps + i) (s_values y) nan * 100)%float])).
Proof.
  intros Hp Hv Hc Hl Hg Ho v. unfold inference_step. cbv zeta.
  rewrite (inverse_transform_one s p _ Hp Hv). cbn [bind getitem nth_error].
  rewrite Hg. unfold in_range in Hg. apply andb_true_iff in Hg.
  destruct Hg as [Hd Hy]. apply Nat.ltb_lt in Hd. apply Nat.ltb_lt in Hy.
  rewrite (getcol_col data "Close" Hc). cbn [bind].
  rewrite (iloc_before (col "Close" data) _ nan Ho) by lia. cbn [bind].
  rewrite (getitem_nth_error (index data) _ _
             (nth_error_nth' (index data) (mkDate 0 0 0) Hd)). cbn [bind].
  rewrite (iloc_in_range (s_values y) _ nan Hy). reflexivity.
Qed.

Lemma firstn_skipn_nth {A : Type} (l : list A) (o k : nat) (d : A) :
  o + S k <= length l ->
  firstn (S k) (skipn o l) = nth o l d :: firstn k (skipn (S o) l).
Proof.
  intros H. rewrite (skipn_nth_error l o (nth o l d)); [reflexivity|].
  apply nth_error_nth'. lia.
Qed.

Lemma map2_map_seq_from {A B C : Type} (f : A -> B -> C) (g : nat -> A) (l : list B)
    (d : B) (a n : nat) :
  n <= length l ->
  map2 f (map g (seq a n)) (firstn n l) =
    map (fun k => f (g k) (nth (k - a) l d)) (seq a n).
Proof.
  revert a l. induction n as [|n IH]; intros a l Hn; [reflexivity|].
  destruct l as [|x l]; [simpl in Hn; lia|]. cbn [seq map firstn map2].
  rewrite Nat.sub_diag. cbn [nth]. f_equal.
  rewrite IH by (simpl in Hn; lia).
  apply map_ext_in. intros k Hk. apply in_seq in Hk.
  replace (k - a) with (S (k - S a)) by lia. reflexivity.
Qed.

Lemma nth_skipn_add {A : Type} (l : list A) (o k : nat) (d : A) :
  nth k (skipn o l) d = nth (o + k) l d.
Proof.
  revert l. induction o as [|o IH]; intros l; [reflexivity|].
  destruct l as [|x l]; [destruct k; reflexivity|]. apply IH.
Qed.

Lemma inference_loop_prices (net : Net) (s : MinMaxScaler float) (p : ColumnScale float)
    (data : DataFrame) (y : Series) (split_idx n_steps : nat)
    (X_val : list (list (list float))) (i : nat) (acc : Predictions) :
  fitted s = [p] -> (forall w, is_infinity (net w) = false) ->
  has_col "Close" data = true -> length (col "Close" data) = nrows data ->
  (forall j, j < length X_val -> in_range data y (split_idx + n_steps + (i + j)) = true) ->
  1 <= split_idx + n_steps + i ->
  exists r,
    inference_loop net s data y split_idx n_steps acc i X_val = Ok r /\
    let v := fun w => inverse1_f32 p (net (map (map to_f32) w)) in
    predictions r =
      predictions acc ++
      map2 (fun w c => (f32_add 1 (v w) * c)%float) X_val
           (firstn (length X_val) (skipn (split_idx + n_steps + i - 1) (col "Close" data))) /\
    predict_percentages r =
      predict_percentages acc ++ map (fun w => f32_mul (v w) 100) X_val.
Proof.
  intros Hp Hnet Hc Hl. revert i acc.
  induction X_val as [|x rest IH]; intros i acc Hin Ho.
  - exists acc. simpl. rewrite !app_nil_r. repeat split; reflexivity.
  - cbn [inference_loop].
    assert (H0 : in_range data y (split_idx + n_steps + i) = true)
      by (rewrite <- (Nat.add_0_r i) at 1; apply Hin; simpl; lia).
    rewrite (inference_step_price net s p data y split_idx n_steps i acc x
               Hp (Hnet _) Hc Hl H0 Ho).
    cbn [bind].
    destruct (IH (S i)
                (mkPredictions
                   (predictions acc ++
                      [(f32_add 1 (inverse1_f32 p (net (map (map to_f32) x))) *
                        nth (split_idx + n_steps + i - 1) (col "Close" data) nan)%float])
                   (test_indices acc ++
                      [nth (split_idx + n_steps + i) (index data) (mkDate 0 0 0)])
                   (predict_percentages acc ++
                      [f32_mul (inverse1_f32 p (net (map (map to_f32) x))) 100])
                   (actual_percentages acc ++
                      [(nth (split_idx + n_steps + i) (s_values y) nan * 100)%float])))
      as (r & Hr & Rp & Rq).
    + intros j Hj. replace (S i + j) with (i + S j) by lia. apply Hin. simpl. lia.
    + lia.
    + exists r. split; [exact Hr|]. cbv zeta in Rp, Rq |- *.
      cbn [predictions predict_percentages] in Rp, Rq.
      rewrite Rp, Rq, <- !app_assoc. cbn [length map app].
      assert (Hlast : in_range data y (split_idx + n_steps + (i + length rest)) = true)
        by (apply Hin; simpl; lia).
      unfold in_range in Hlast. apply andb_true_iff in Hlast.
      destruct Hlast as [Hlast _]. apply Nat.ltb_lt in Hlast.
      rewrite (firstn_skipn_nth (col "Close" data) (split_idx + n_steps + i - 1)
                 (length rest) nan) by lia.
      cbn [map2].
      replace (S (split_idx + n_steps + i - 1)) with (split_idx + n_steps + S i - 1) by lia.
      split; reflexivity.
Qed.

(** X21.  In a run that returns, the scaler of the target is fitted on the
    train slice of the target alone and the scaler of the features on the
    train rows alone.  Window [k] of the validation slice holds the scaled
    rows [split_idx + k] to [split_idx + k + n_steps - 1] of [X]; the
    network reads it in single precision.  With [v] the network's answer
    taken back through the scaler of the target, a [float32], the record of
    the window holds the predicted return [v * 100], a single-precision
    product, and the predicted price
    [(1 + v) * close[split_idx + n_steps + k - 1]], a single-precision sum
    times the close of the row before the record's date. *)
Theorem predicted_price_from_previous_close (net : Net) (data X : DataFrame) (y : Series)
    (n_steps num_epochs : nat) (batch_size : positive) :
  wf data -> format_feature data = Ok (X, y) ->
  existsb (existsb is_infinity) (values X) = false ->
  existsb is_infinity (s_values y) = false ->
  (forall w, is_infinity (net w) = false) ->
  n_steps < split_index (nrows X) ->
  split_index (nrows X) + n_steps < nrows X ->
  let split_idx := split_index (nrows X) in
  let scale_y := fit_column (0%float, 1%float) (firstn split_idx (s_values y)) in
  let scaler_X := map (fit_column (0%float, 1%float))
                      (array_columns (firstn split_idx (values X))) in
  let scaled := fun i => map2 (transform1 (0%float, 1%float) false) scaler_X (row_at i X) in
  let window := fun k => map (fun i => scaled (split_idx + k + i)) (seq 0 n_steps) in
  let v := fun k => inverse1_f32 scale_y (net (map (map to_f32) (window k))) in
  let close := fun i => nth i (col "Close" data) nan in
  let records := seq 0 (nrows X - split_idx - n_steps) in
  exists r,
    train_and_predict_lstm net data X y n_steps num_epochs batch_size = Ok r /\
    train_and_predict_gru net data X y n_steps num_epochs batch_size = Ok r /\
    predict_percentages r = map (fun k => f32_mul (v k) 100) records /\
    predictions r =
      map (fun k => (f32_add 1 (v k) * close (split_idx + n_steps + k - 1)%nat)%float) records.
Proof.
  intros Hwf HF HXi Hyi Hnet Hn Hv split_idx scale_y scaler_X scaled window v close records.
  destruct (format_feature_lengths data X y Hwf HF) as (HX & Hy & Hclose).
  pose proof (wf_col data "Close" Hwf Hclose) as Hlc.
  unfold train_and_predict_lstm, train_and_predict_gru.
  rewrite (train_and_predict_until_inference net data X y n_steps num_epochs batch_size)
    by (try assumption; lia).
  cbv zeta. fold split_idx. fold scale_y. fold scaler_X.
  set (Xv := map (fun row => map2 (transform1 (0%float, 1%float) false) scaler_X row)
                 (skipn split_idx (values X))).
  set (X_val := map (fun i => slice Xv i (i + n_steps))
                    (seq 0 (nrows X - split_idx - n_steps))).
  assert (HL : length X_val = nrows X - split_idx - n_steps)
    by (unfold X_val; rewrite length_map, length_seq; reflexivity).
  replace (split_idx <=? n_steps) with false by (symmetry; apply Nat.leb_gt; lia).
  cbn [bind].
  assert (He : epoch_loop num_epochs (split_idx - n_steps) (length X_val) batch_size = Ok tt).
  { unfold epoch_loop. destruct num_epochs as [|k]; [reflexivity|].
    rewrite !loader_len_zero, HL.
    replace (split_idx - n_steps =? 0) with false by (symmetry; apply Nat.eqb_neq; lia).
    replace (nrows X - split_idx - n_steps =? 0) with false
      by (symmetry; apply Nat.eqb_neq; lia).
    reflexivity. }
  rewrite He. cbn [bind].
  destruct (inference_loop_prices net (mkScaler (0%float, 1%float) false [scale_y]) scale_y
              data y split_idx n_steps X_val 0 (mkPredictions [] [] [] []))
    as (r & Hr & Rp & Rq); try assumption; try reflexivity.
  - intros j Hj. unfold in_range. apply andb_true_iff. split; apply Nat.ltb_lt; lia.
  - lia.
  - exists r. cbv zeta in Rp, Rq. cbn [predictions predict_percentages app] in Rp, Rq.
    rewrite Nat.add_0_r in Rp.
    assert (Hw : forall k, k < nrows X - split_idx - n_steps ->
                   slice Xv k (k + n_steps) = window k).
    { intros k Hk. unfold slice, window, Xv, values.
      replace (k + n_steps - k) with n_steps by lia.
      repeat rewrite ?skipn_map, ?firstn_map.
      rewrite !skipn_seq, firstn_seq. cbn [Nat.add].
      replace (Nat.min n_steps (nrows X - split_idx - k)) with n_steps by lia.
      rewrite !map_map, map_seq_from. apply map_ext. intros i. reflexivity. }
    split; [exact Hr|]. split; [exact Hr|]. split.
    + rewrite Rq. unfold X_val, records. rewrite map_map.
      apply map_ext_in. intros k Hk. apply in_seq in Hk. unfold v.
      rewrite Hw by lia. reflexivity.
    + rewrite Rp, HL. unfold X_val, records.
      rewrite (map2_map_seq_from _ _ _ nan)
        by (rewrite length_skipn; lia).
      apply map_ext_in. intros k Hk. apply in_seq in Hk. unfold v, close.
      rewrite Hw, Nat.sub_0_r, nth_skipn_add by lia.
      do 2 f_equal. lia.
Qed.

(** The short sample with a window of 2 rows. *)
Lemma predicted_price_from_previous_close_witness :
  let data := sample_table in
  let X := sample_X in
  let y := sample_y in
  let split_idx := split_index (nrows X) in
  let scale_y := fit_column (0%float, 1%float) (firstn split_idx (s_values y)) in
  let scaler_X := map (fit_column (0%float, 1%float))
                      (array_columns (firstn split_idx (values X))) in
  let scaled := fun i => map2 (transform1 (0%float, 1%float) false) scaler_X (row_at i X) in
  let window := fun k => map (fun i => scaled (split_idx + k + i)) (seq 0 2) in
  let v := fun k => inverse1_f32 scale_y (const_net (map (map to_f32) (window k))) in
  let close := fun i => nth i (col "Close" data) nan in
  let records := seq 0 (nrows X - split_idx - 2) in
  exists r,
    train_and_predict_lstm const_net data X y 2 100 64 = Ok r /\
    train_and_predict_gru const_net data X y 2 100 64 = Ok r /\
    predict_percentages r = map (fun k => f32_mul (v k) 100) records /\
    predictions r =
      map (fun k => (f32_add 1 (v k) * close (split_idx + 2 + k - 1)%nat)%float) records.
Proof.
  apply predicted_price_from_previous_close.
  - unfold wf. vm_compute. repeat constructor.
  - vm_compute. reflexivity.
  - vm_compute. reflexivity.
  - vm_compute. reflexivity.
  - intros w. reflexivity.
  - vm_compute. lia.
  - vm_compute. lia.
Defined.

(* ================================================================== *)
(** * Metrics of a run *)
(* ================================================================== *)

(** ** Looking the test dates up again *)

Lemma select_other_dates {A : Type} (d : Date) (idx : list Date) (vals : list A) :
  ~ In d idx -> select (map (Date_eqb d) idx) vals = [].
Proof.
  revert vals. induction idx as [|x idx IH]; intros vals Hd; [reflexivity|].
  destruct vals as [|v vals]; [reflexivity|]. cbn [map select].
  rewrite Date_eqb_neq by (intros ->; apply Hd; left; reflexivity).
  apply IH. intros H. apply Hd. right. exact H.
Qed.

(** In an index without repeated dates a date selects the one row it
    labels. *)
Lemma select_one_date {A : Type} (idx : list Date) (vals : list A) (n : nat) (d : Date)
    (v : A) :
  NoDup idx -> nth_error idx n = Some d -> nth_error vals n = Some v ->
  select (map (Date_eqb d) idx) vals = [v].
Proof.
  revert vals n. induction idx as [|x idx IH]; intros vals n Hnd Hd Hv.
  - destruct n; discriminate.
  - destruct vals as [|v0 vals]; [destruct n; discriminate|].
    inversion Hnd as [|? ? Hx Hnd']; subst. cbn [map select].
    destruct n as [|n].
    + injection Hd as ->. injection Hv as ->. rewrite Date_eqb_refl.
      rewrite (select_other_dates d idx vals Hx). reflexivity.
    + simpl in Hd, Hv.
      rewrite Date_eqb_neq
        by (intros ->; apply Hx; apply (nth_error_In _ _ Hd)).
      apply (IH vals n Hnd' Hd Hv).
Qed.

Lemma existsb_Date_eqb_In (d : Date) (idx : list Date) :
  In d idx -> existsb (Date_eqb d) idx = true.
Proof.
  intros H. apply existsb_exists. exists d. split; [exact H | apply Date_eqb_refl].
Qed.

(** A run of consecutive dates of the index selects the same run of rows. *)
Lemma loc_labels_slice (idx : list Date) (vals : column) (k o : nat) :
  NoDup idx -> length vals = length idx ->
  loc_labels idx vals (firstn k (skipn o idx)) = Ok (firstn k (skipn o vals)).
Proof.
  intros Hnd Hlen. revert o. induction k as [|k IH]; intros o; [reflexivity|].
  destruct (nth_error idx o) as [d|] eqn:Ed.
  - assert (Ho : o < length vals)
      by (rewrite Hlen; apply nth_error_Some; rewrite Ed; discriminate).
    destruct (nth_error vals o) as [v|] eqn:Ev;
      [|apply nth_error_None in Ev; lia].
    rewrite (skipn_nth_error _ _ _ Ed), (skipn_nth_error _ _ _ Ev).
    cbn [firstn loc_labels].
    rewrite (existsb_Date_eqb_In d idx (nth_error_In _ _ Ed)), (IH (S o)).
    cbn [bind]. rewrite (select_one_date idx vals o d v Hnd Ed Ev). reflexivity.
  - apply nth_error_None in Ed.
    rewrite !skipn_all2 by lia. reflexivity.
Qed.

Lemma broadcast_same_length (f : float -> float -> float) (a b : list float) :
  length a = length b -> broadcast f a b = Ok (map2 f a b).
Proof. intros H. unfold broadcast. rewrite H, Nat.eqb_refl. reflexivity. Qed.

(** The metrics of predictions, one per date of a run of consecutive dates
    of a table without repeated dates. *)
Lemma visualize_predictions_slice (data : DataFrame) (k o : nat) (preds : list float) :
  wf data -> NoDup (index data) -> has_col "Close" data = true ->
  length preds = k -> o + k <= nrows data ->
  let actual_prices := firstn k (skipn o (col "Close" data)) in
  let error := map2 PrimFloat.sub preds actual_prices in
  visualize_predictions data (firstn k (skipn o (index data))) preds =
    Ok (mkMetrics (PrimFloat.sqrt (np_mean (map (fun e => (e * e)%float) error)))
                  (np_mean (map PrimFloat.abs error))
                  (1 - np_mean (map2 PrimFloat.div (map PrimFloat.abs error) actual_prices))).
Proof.
  intros Hwf Hnd Hc Hp Hk actual_prices error.
  pose proof (wf_col data "Close" Hwf Hc) as Hlen.
  assert (La : length actual_prices = k).
  { unfold actual_prices. rewrite length_firstn, length_skipn. lia. }
  unfold visualize_predictions. rewrite (getcol_col data "Close" Hc). cbn [bind].
  rewrite (loc_labels_slice (index data) (col "Close" data) k o Hnd Hlen). cbn [bind].
  fold actual_prices.
  rewrite (broadcast_same_length PrimFloat.sub preds actual_prices) by lia.
  cbn [bind]. fold error.
  rewrite (broadcast_same_length PrimFloat.div (map PrimFloat.abs error) actual_prices).
  - reflexivity.
  - unfold error. rewrite length_map, length_map2. lia.
Qed.

(** ** A call of [predict] *)

(** X11.  [predict] returns its metrics for either model type when the
    table is well formed and has no repeated date, the frame and the target
    come from [format_feature] and hold no infinity, the networks answer no
    infinity and the split leaves more than 30 rows on each side.  The dates
    of the records are found again in the table, one row each, so the
    prices the predictions are measured against are the closes of the
    record dates, [close[split_idx + 30 + k]] for record [k]; the three
    metrics are the root of the mean squared difference, the mean absolute
    difference and one minus the mean absolute difference relative to that
    close, each mean being [np.mean] with its pairwise sum. *)
Theorem predict_returns_metrics (lstm gru : Net) (data X : DataFrame) (y : Series)
    (model_type : string) (epochs : nat) (batch_size : positive) :
  wf data -> NoDup (index data) -> format_feature data = Ok (X, y) ->
  existsb (existsb is_infinity) (values X) = false ->
  existsb is_infinity (s_values y) = false ->
  (forall w, is_infinity (lstm w) = false) ->
  (forall w, is_infinity (gru w) = false) ->
  30 < split_index (nrows X) ->
  split_index (nrows X) + 30 < nrows X ->
  model_type = "LSTM" \/ model_type = "GRU" ->
  exists r m,
    (if String.eqb model_type "LSTM"
     then train_and_predict_lstm lstm data X y 30 epochs batch_size
     else train_and_predict_gru gru data X y 30 epochs batch_size) = Ok r /\
    predict lstm gru data (X, y) model_type epochs batch_size = Ok m /\
    let actual_prices :=
      firstn (length (predictions r))
             (skipn (split_index (nrows X) + 30) (col "Close" data)) in
    let error := map2 PrimFloat.sub (predictions r) actual_prices in
    length actual_prices = length (predictions r) /\
    rmse m = PrimFloat.sqrt (np_mean (map (fun e => (e * e)%float) error)) /\
    mae m = np_mean (map PrimFloat.abs error) /\
    accuracy m =
      (1 - np_mean (map2 PrimFloat.div (map PrimFloat.abs error) actual_prices))%float.
Proof.
  intros Hwf Hnd HF HXi Hyi Hl Hg Hn Hv Hty.
  destruct (format_feature_lengths data X y Hwf HF) as (HX & Hy & Hclose).
  set (net := if String.eqb model_type "LSTM" then lstm else gru).
  assert (Hnet : forall w, is_infinity (net w) = false)
    by (intros w; unfold net; destruct (String.eqb model_type "LSTM"); auto).
  destruct (train_and_predict_run net data X y 30 epochs batch_size
              Hwf HF HXi Hyi Hnet Hn Hv) as (r & Hr & Lr & Rd & _).
  assert (Hrun : (if String.eqb model_type "LSTM"
                  then train_and_predict_lstm lstm data X y 30 epochs batch_size
                  else train_and_predict_gru gru data X y 30 epochs batch_size) = Ok r).
  { unfold train_and_predict_lstm, train_and_predict_gru. rewrite <- Hr. unfold net.
    destruct (String.eqb model_type "LSTM"); reflexivity. }
  assert (Hvis := visualize_predictions_slice data
            (nrows X - split_index (nrows X) - 30) (split_index (nrows X) + 30)
            (predictions r) Hwf Hnd Hclose Lr).
  cbv zeta in Hvis. rewrite <- Rd in Hvis.
  eexists r, _. split; [exact Hrun|]. split.
  - unfold predict.
    replace (if String.eqb model_type "LSTM"
             then train_and_predict_lstm lstm data X y 30 epochs batch_size
             else if String.eqb model_type "GRU"
                  then train_and_predict_gru gru data X y 30 epochs batch_size
                  else Raise ValueError)
      with (Ok (A := Predictions) r).
    + cbn [bind]. rewrite Hvis by lia. cbn [bind].
      unfold save_predictions_with_indices.
      rewrite Rd, length_firstn, length_skipn, Lr.
      replace (Nat.min _ _ =? _) with true by (symmetry; apply Nat.eqb_eq; unfold nrows in *; lia).
      reflexivity.
    + rewrite <- Hrun. destruct Hty as [-> | ->]; reflexivity.
  - cbv zeta. cbn [rmse mae accuracy]. rewrite Lr.
    split; [|repeat split; reflexivity].
    rewrite length_firstn, length_skipn, (wf_col data "Close" Hwf Hclose). lia.
Qed.

(** The long sample, with the GRU network. *)
Lemma predict_returns_metrics_witness :
  exists r m,
    (if String.eqb "GRU" "LSTM"
     then train_and_predict_lstm const_net long_table long_X long_y 30 100 64
     else train_and_predict_gru const_net long_table long_X long_y 30 100 64) = Ok r /\
    predict const_net const_net long_table (long_X, long_y) "GRU" 100 64 = Ok m /\
    let actual_prices :=
      firstn (length (predictions r))
             (skipn (split_index (nrows long_X) + 30) (col "Close" long_table)) in
    let error := map2 PrimFloat.sub (predictions r) actual_prices in
    length actual_prices = length (predictions r) /\
    rmse m = PrimFloat.sqrt (np_mean (map (fun e => (e * e)%float) error)) /\
    mae m = np_mean (map PrimFloat.abs error) /\
    accuracy m =
      (1 - np_mean (map2 PrimFloat.div (map PrimFloat.abs error) actual_prices))%float.
Proof.
  apply predict_returns_metrics.
  - unfold wf. vm_compute. repeat constructor.
  - apply all_distinct_NoDup. vm_compute. reflexivity.
  - vm_compute. reflexivity.
  - vm_compute. reflexivity.
  - vm_compute. reflexivity.
  - intros w. reflexivity.
  - intros w. reflexivity.
  - vm_compute. lia.
  - vm_compute. lia.
  - right. reflexivity.
Defined.

(** ** The count of a mean, as a float *)

Lemma digits2_pos_size (p : positive) : SpecFloat.digits2_pos p = Pos.size p.
Proof. induction p as [p IH|p IH|]; simpl; [rewrite IH | rewrite IH |]; reflexivity. Qed.

Lemma Zdigits2_log2 (p : positive) :
  SpecFloat.Zdigits2 (Z.pos p) = (Z.log2 (Z.pos p) + 1)%Z.
Proof.
  unfold SpecFloat.Zdigits2. destruct p as [p|p|]; simpl; try reflexivity;
    rewrite digits2_pos_size, Pos.add_1_r; reflexivity.
Qed.

Lemma shr_1_m (r : SpecFloat.shr_record) :
  (0 <= SpecFloat.shr_m r)%Z ->
  SpecFloat.shr_m (SpecFloat.shr_1 r) = Z.shiftr (SpecFloat.shr_m r) 1.
Proof.
  destruct r as [m rr ss]. cbn [SpecFloat.shr_m]. intros Hm.
  rewrite <- Z.div2_spec.
  destruct m as [|[p|p|]|p]; try reflexivity; lia.
Qed.

Lemma iter_shr_1_m (n : positive) (r : SpecFloat.shr_record) :
  (0 <= SpecFloat.shr_m r)%Z ->
  SpecFloat.shr_m (SpecFloat.iter_pos SpecFloat.shr_1 n r) =
  Z.shiftr (SpecFloat.shr_m r) (Z.pos n).
Proof.
  revert r. induction n as [n IH|n IH|]; intros r Hr; cbn [SpecFloat.iter_pos].
  - assert (H1 : (0 <= SpecFloat.shr_m (SpecFloat.shr_1 r))%Z)
      by (rewrite shr_1_m by assumption; apply Z.shiftr_nonneg; assumption).
    assert (H2 : (0 <= SpecFloat.shr_m (SpecFloat.iter_pos SpecFloat.shr_1 n
                                          (SpecFloat.shr_1 r)))%Z)
      by (rewrite IH by assumption; apply Z.shiftr_nonneg; assumption).
    rewrite IH, IH, shr_1_m, !Z.shiftr_shiftr by (assumption || lia).
    f_equal. lia.
  - assert (H1 : (0 <= SpecFloat.shr_m (SpecFloat.iter_pos SpecFloat.shr_1 n r))%Z)
      by (rewrite IH by assumption; apply Z.shiftr_nonneg; assumption).
    rewrite IH, IH, !Z.shiftr_shiftr by (assumption || lia).
    f_equal. lia.
  - apply shr_1_m. exact Hr.
Qed.

(** Rounding a positive mantissa at an exponent that is not below the
    smallest one leaves a positive mantissa. *)
Lemma shr_fexp_positive (m : positive) (e : Z) (l : SpecFloat.location) :
  (SpecFloat.emin prec emax <= e)%Z ->
  (0 < SpecFloat.shr_m (fst (SpecFloat.shr_fexp prec emax (Z.pos m) e l)))%Z /\
  (SpecFloat.emin prec emax <= snd (SpecFloat.shr_fexp prec emax (Z.pos m) e l))%Z.
Proof.
  intros He. unfold SpecFloat.shr_fexp, SpecFloat.shr.
  assert (Hr : SpecFloat.shr_m (SpecFloat.shr_record_of_loc (Z.pos m) l) = Z.pos m)
    by (destruct l as [|[ | | ]]; reflexivity).
  destruct (SpecFloat.fexp prec emax (SpecFloat.Zdigits2 (Z.pos m) + e) - e)%Z
    as [|n|n] eqn:En; cbn [fst snd]; try (rewrite Hr; split; lia).
  rewrite iter_shr_1_m by (rewrite Hr; lia). rewrite Hr. split; [|lia].
  rewrite Z.shiftr_div_pow2 by lia.
  apply Z.div_str_pos.
  assert (Hn : (Z.pos n <= Z.log2 (Z.pos m))%Z).
  { rewrite Zdigits2_log2 in En. unfold SpecFloat.fexp in En.
    change prec with 53%Z in *. lia. }
  pose proof (Z.log2_spec (Z.pos m) ltac:(lia)) as [Hlo _].
  pose proof (Z.pow_le_mono_r 2 (Z.pos n) (Z.log2 (Z.pos m)) ltac:(lia) Hn).
  pose proof (Z.pow_pos_nonneg 2 (Z.pos n) ltac:(lia) ltac:(lia)).
  lia.
Qed.

Lemma round_nearest_even_positive (m : Z) (l : SpecFloat.location) :
  (0 < m)%Z -> (0 < SpecFloat.round_nearest_even m l)%Z.
Proof.
  intros Hm. unfold SpecFloat.round_nearest_even.
  destruct l as [|[ | | ]]; try lia. destruct (Z.even m); lia.
Qed.

(** The float of a positive mantissa is positive: finite or infinite. *)
Lemma binary_round_aux_positive (m : positive) (e : Z) (l : SpecFloat.location) :
  (SpecFloat.emin prec emax <= e)%Z ->
  SFltb (S754_zero false) (SpecFloat.binary_round_aux prec emax false (Z.pos m) e l) = true.
Proof.
  intros He. unfold SpecFloat.binary_round_aux.
  destruct (shr_fexp_positive m e l He) as [H1 H2].
  destruct (SpecFloat.shr_fexp prec emax (Z.pos m) e l) as [mrs' e'].
  cbn [fst snd] in H1, H2.
  pose proof (round_nearest_even_positive _ (SpecFloat.loc_of_shr_record mrs') H1) as H3.
  destruct (SpecFloat.round_nearest_even (SpecFloat.shr_m mrs')
              (SpecFloat.loc_of_shr_record mrs')) as [|m2|m2]; try lia.
  destruct (shr_fexp_positive m2 e' SpecFloat.loc_Exact H2) as [H4 _].
  destruct (SpecFloat.shr_fexp prec emax (Z.pos m2) e' SpecFloat.loc_Exact) as [mrs'' e''].
  cbn [fst] in H4.
  destruct (SpecFloat.shr_m mrs'') as [|m3|m3]; try lia.
  destruct (e'' <=? emax - prec)%Z; reflexivity.
Qed.

Lemma float_of_nat_positive (n : nat) :
  1 <= n -> (Z.of_nat n < 2 ^ 63)%Z -> (0 <? float_of_nat n)%float = true.
Proof.
  intros H1 H2. unfold float_of_nat, float_of_Z.
  rewrite FloatAxioms.ltb_spec, of_uint63_spec, Uint63.of_Z_spec.
  rewrite Z.mod_small by (change wB with (2 ^ 63)%Z; lia).
  change (Prim2SF 0) with (S754_zero false).
  destruct (Z.of_nat n) as [|p|p] eqn:E; try lia.
  unfold SpecFloat.binary_normalize, SpecFloat.binary_round.
  destruct (SpecFloat.shl_align p 0 _) as [mz ez] eqn:Es.
  apply binary_round_aux_positive.
  unfold SpecFloat.shl_align in Es.
  destruct (SpecFloat.fexp prec emax (Z.pos (SpecFloat.digits2_pos p) + 0) - 0)%Z eqn:Ef;
    injection Es as <- <-; try (vm_compute; discriminate).
  unfold SpecFloat.fexp. lia.
Qed.

(** ** The pairwise sum *)

Lemma pairwise_split (n : nat) :
  128 < n ->
  let n2 := n / 2 - (n / 2) mod 8 in 1 <= n2 /\ n2 < n.
Proof.
  intros H. cbv zeta.
  pose proof (Nat.mod_upper_bound (n / 2) 8).
  assert (64 <= n / 2) by (apply Nat.div_le_lower_bound; lia).
  assert (n / 2 <= n) by (apply Nat.Div0.div_le_upper_bound; lia).
  assert (n / 2 < n) by (apply Nat.div_lt; lia).
  lia.
Qed.

(** The length of the array is fuel enough: more changes nothing. *)
Lemma pairwise_sum_upto_enough (fuel : nat) (a : list float) :
  length a <= fuel -> pairwise_sum_upto fuel a = pairwise_sum a.
Proof.
  unfold pairwise_sum.
  assert (G : forall n (a : list float) f1 f2,
            length a <= n -> length a <= f1 -> length a <= f2 ->
            pairwise_sum_upto f1 a = pairwise_sum_upto f2 a).
  { induction n as [|n IH]; intros l f1 f2 Hn H1 H2.
    - destruct l; [|simpl in Hn; lia]. destruct f1, f2; reflexivity.
    - destruct f1 as [|f1], f2 as [|f2]; try reflexivity;
        cbn [pairwise_sum_upto]; cbv zeta;
        destruct (length l <? 8) eqn:E8; try reflexivity;
        destruct (length l <=? 128) eqn:E128; try reflexivity;
        apply Nat.leb_gt in E128; try lia.
      destruct (pairwise_split (length l) E128) as [P1 P2].
      f_equal; apply IH; rewrite ?length_firstn, ?length_skipn; lia. }
  intros H. apply (G (length a)); lia.
Qed.

Lemma Forall_map2 {A B C : Type} (P : C -> Prop) (f : A -> B -> C) (l : list A) (l' : list B) :
  (forall x y, In x l -> In y l' -> P (f x y)) -> Forall P (map2 f l l').
Proof.
  revert l'. induction l as [|x l IH]; intros [|y l'] H; simpl; try constructor.
  - apply H; left; reflexivity.
  - apply IH. intros a b Ha Hb. apply H; right; assumption.
Qed.

Lemma In_firstn_of {A : Type} (n : nat) (l : list A) (x : A) : In x (firstn n l) -> In x l.
Proof.
  intros H. rewrite <- (firstn_skipn n l). apply in_or_app. left. exact H.
Qed.

Lemma In_skipn_of {A : Type} (n : nat) (l : list A) (x : A) : In x (skipn n l) -> In x l.
Proof.
  intros H. rewrite <- (firstn_skipn n l). apply in_or_app. right. exact H.
Qed.

Section Closed.
Variable P : float -> Prop.
Hypothesis P_add : forall x y, P x -> P y -> P (x + y)%float.

Lemma fold_add_closed (l : list float) (x : float) :
  P x -> Forall P l -> P (fold_left PrimFloat.add l x).
Proof.
  intros Hx Hl. revert x Hx. induction Hl as [|y l Hy _ IH]; intros x Hx; [exact Hx|].
  cbn [fold_left]. apply IH. apply P_add; assumption.
Qed.

Lemma accumulate8_closed (groups : nat) (r a : list float) :
  length r = 8 -> 8 * groups <= length a -> Forall P r -> Forall P a ->
  length (fst (accumulate8 groups r a)) = 8 /\
  Forall P (fst (accumulate8 groups r a)) /\ Forall P (snd (accumulate8 groups r a)).
Proof.
  revert r a. induction groups as [|g IH]; intros r a Hr Ha Pr Pa; cbn [accumulate8].
  - auto.
  - apply IH.
    + rewrite length_map2, length_firstn. lia.
    + rewrite length_skipn. lia.
    + apply Forall_map2. intros x y Hx Hy. rewrite Forall_forall in Pr, Pa.
      apply P_add; [apply Pr; exact Hx | apply Pa; exact (In_firstn_of _ _ _ Hy)].
    + rewrite Forall_forall in *. intros x Hx. apply Pa. exact (In_skipn_of _ _ _ Hx).
Qed.

Lemma sum_block_closed (a : list float) :
  8 <= length a -> Forall P a -> P (sum_block a).
Proof.
  intros Hn Pa. unfold sum_block. cbv zeta.
  assert (Hd : 8 * (length a / 8) <= length a) by (apply Nat.Div0.mul_div_le).
  destruct (accumulate8_closed (length a / 8 - 1) (firstn 8 a) (skipn 8 a))
    as (Lr & Pr & Prest).
  - rewrite length_firstn. lia.
  - rewrite length_skipn. lia.
  - rewrite Forall_forall in *. intros x Hx. apply Pa. exact (In_firstn_of _ _ _ Hx).
  - rewrite Forall_forall in *. intros x Hx. apply Pa. exact (In_skipn_of _ _ _ Hx).
  - destruct (accumulate8 (length a / 8 - 1) (firstn 8 a) (skipn 8 a)) as [r rest].
    cbn [fst snd] in *.
    assert (Hk : forall k, k < 8 -> P (nth k r nan)).
    { intros k Hk. rewrite Forall_forall in Pr. apply Pr, nth_In. lia. }
    apply fold_add_closed; [|exact Prest].
    repeat apply P_add; match goal with |- P (nth ?k _ _) => apply (Hk k) end;
      clear; lia.
Qed.

Lemma pairwise_sum_closed (a : list float) :
  (forall x, P x -> P (-0 + x)%float) ->
  a <> [] -> Forall P a -> P (pairwise_sum a).
Proof.
  intros P0. unfold pairwise_sum.
  assert (G : forall fuel (l : list float),
            length l <= fuel -> l <> [] -> Forall P l -> P (pairwise_sum_upto fuel l)).
  { induction fuel as [|fuel IH]; intros l Hf Hne Pl.
    - destruct l; [congruence | simpl in Hf; lia].
    - cbn [pairwise_sum_upto]. cbv zeta.
      destruct (length l <? 8) eqn:E8.
      + destruct l as [|x l]; [congruence|]. cbn [fold_left].
        inversion Pl; subst. apply fold_add_closed; [apply P0|]; assumption.
      + apply Nat.ltb_ge in E8. destruct (length l <=? 128) eqn:E128.
        * apply sum_block_closed; assumption.
        * apply Nat.leb_gt in E128.
          destruct (pairwise_split (length l) E128) as [P1 P2].
          rewrite Forall_forall in Pl.
          apply P_add; apply IH.
          -- rewrite length_firstn. lia.
          -- intros E. apply (f_equal (@length float)) in E.
             rewrite length_firstn in E. cbn [length] in E. lia.
          -- apply Forall_forall. intros x Hx. apply Pl. exact (In_firstn_of _ _ _ Hx).
          -- rewrite length_skipn. lia.
          -- intros E. apply (f_equal (@length float)) in E.
             rewrite length_skipn in E. cbn [length] in E. lia.
          -- apply Forall_forall. intros x Hx. apply Pl. exact (In_skipn_of _ _ _ Hx). }
  intros Hne Pa. apply G; [lia | assumption | assumption].
Qed.

Lemma np_sum_closed (a : list float) :
  (forall x, P x -> P (-0 + x)%float) ->
  a <> [] -> Forall P a -> P (np_sum a).
Proof.
  intros P0 Hne Pa. unfold np_sum. destruct a as [|x l]; [congruence|].
  apply P0, pairwise_sum_closed; assumption.
Qed.
End Closed.

(** ** Arithmetic on zero *)

Lemma zero_div_positive (c : float) : (0 <? c)%float = true -> (0 / c)%float = 0%float.
Proof.
  intros H. apply Prim2SF_inj. rewrite FloatAxioms.div_spec.
  rewrite FloatAxioms.ltb_spec in H.
  change (Prim2SF 0) with (S754_zero false) in *.
  destruct (Prim2SF c) as [s|s| |s m e]; try discriminate;
    destruct s; try discriminate; reflexivity.
Qed.

Lemma sub_self (x : float) :
  is_nan x = false -> is_infinity x = false -> (x - x)%float = 0%float.
Proof.
  unfold is_nan, is_infinity. rewrite !FloatAxioms.eqb_spec, abs_spec. intros Hn Hi.
  apply Prim2SF_inj. rewrite FloatAxioms.sub_spec.
  change (Prim2SF infinity) with (S754_infinity false) in Hi.
  change (Prim2SF 0) with (S754_zero false).
  destruct (Prim2SF x) as [s|s| |s m e]; try discriminate.
  - destruct s; reflexivity.
  - unfold SF64sub, SpecFloat.SFsub. rewrite Z.sub_diag. reflexivity.
Qed.

Lemma zero_div_finite (a : float) :
  is_nan a = false -> is_infinity a = false -> (a =? 0)%float = false ->
  (0 / a)%float = 0%float \/ (0 / a)%float = (-0)%float.
Proof.
  unfold is_nan, is_infinity. rewrite !FloatAxioms.eqb_spec, abs_spec. intros Hn Hi Hz.
  change (Prim2SF infinity) with (S754_infinity false) in Hi.
  change (Prim2SF 0) with (S754_zero false) in Hz.
  destruct (Prim2SF a) as [s|s| |s m e] eqn:Ea; try discriminate.
  destruct s; [right | left]; apply Prim2SF_inj; rewrite FloatAxioms.div_spec, Ea;
    reflexivity.
Qed.

Lemma neg_zero_div_positive (c : float) :
  (0 <? c)%float = true -> (-0 / c)%float = (-0)%float.
Proof.
  intros H. apply Prim2SF_inj. rewrite FloatAxioms.div_spec.
  rewrite FloatAxioms.ltb_spec in H.
  change (Prim2SF 0) with (S754_zero false) in *.
  change (Prim2SF (-0)) with (S754_zero true).
  destruct (Prim2SF c) as [s|s| |s m e]; try discriminate;
    destruct s; try discriminate; reflexivity.
Qed.

(** [np.mean] of a non-empty array of zeros is zero. *)
Lemma np_mean_zeros (n : nat) :
  1 <= n -> (Z.of_nat n < 2 ^ 63)%Z -> np_mean (repeat 0%float n) = 0%float.
Proof.
  intros H1 H2. unfold np_mean.
  rewrite (np_sum_closed (fun x => x = 0%float)).
  - rewrite repeat_length. apply zero_div_positive, float_of_nat_positive; assumption.
  - intros x y -> ->. reflexivity.
  - intros x ->. reflexivity.
  - destruct n; [lia | discriminate].
  - apply Forall_forall. intros x Hx. apply repeat_spec in Hx. exact Hx.
Qed.

(** With zeros of either sign it is a zero of either sign. *)
Lemma np_mean_signed_zeros (l : list float) :
  l <> [] -> (Z.of_nat (length l) < 2 ^ 63)%Z ->
  Forall (fun v => v = 0%float \/ v = (-0)%float) l ->
  np_mean l = 0%float \/ np_mean l = (-0)%float.
Proof.
  intros Hne Hlen Hz. unfold np_mean.
  assert (Hpos : (0 <? float_of_nat (length l))%float = true).
  { apply float_of_nat_positive; [|exact Hlen]. destruct l; [congruence | simpl; lia]. }
  destruct (np_sum_closed (fun v => v = 0%float \/ v = (-0)%float)) with (a := l)
    as [-> | ->].
  - intros x y [-> | ->] [-> | ->]; auto.
  - intros x [-> | ->]; auto.
  - exact Hne.
  - exact Hz.
  - left. apply zero_div_positive. exact Hpos.
  - right. apply neg_zero_div_positive. exact Hpos.
Qed.

Lemma map2_sub_self (l : list float) :
  Forall (fun a => is_nan a = false /\ is_infinity a = false /\ (a =? 0)%float = false) l ->
  map2 PrimFloat.sub l l = repeat 0%float (length l).
Proof.
  induction 1 as [|a l (Hn & Hi & _) _ IH]; [reflexivity|]. cbn [map2 length repeat].
  rewrite (sub_self a Hn Hi), IH. reflexivity.
Qed.

Lemma map_repeat {A B : Type} (f : A -> B) (x : A) (n : nat) :
  map f (repeat x n) = repeat (f x) n.
Proof. induction n as [|n IH]; [reflexivity|]. simpl. rewrite IH. reflexivity. Qed.

(** ** Predictions that equal the closes *)

(** X12.  When every prediction equals the close of its own date, and
    those closes are numbers, finite and not zero, the metrics are an RMSE
    of 0, an MAE of 0 and an accuracy of 1. *)
Theorem exact_predictions_score_perfectly (data : DataFrame) (k o : nat) :
  wf data -> NoDup (index data) -> has_col "Close" data = true ->
  1 <= k -> o + k <= nrows data -> (Z.of_nat k < 2 ^ 63)%Z ->
  Forall (fun a => is_nan a = false /\ is_infinity a = false /\ (a =? 0)%float = false)
         (firstn k (skipn o (col "Close" data))) ->
  visualize_predictions data (firstn k (skipn o (index data)))
                        (firstn k (skipn o (col "Close" data)))
    = Ok (mkMetrics 0 0 1).
Proof.
  intros Hwf Hnd Hc Hk Ho Hz Hfin.
  set (actual := firstn k (skipn o (col "Close" data))) in *.
  assert (La : length actual = k).
  { unfold actual. rewrite length_firstn, length_skipn, (wf_col data "Close" Hwf Hc). lia. }
  pose proof (visualize_predictions_slice data k o actual Hwf Hnd Hc La Ho) as Hv.
  cbv zeta in Hv. fold actual in Hv. rewrite Hv. clear Hv.
  rewrite (map2_sub_self actual Hfin), La, !map_repeat.
  change (0 * 0)%float with 0%float. change (abs 0) with 0%float.
  rewrite (np_mean_zeros k Hk Hz).
  destruct (np_mean_signed_zeros (map2 PrimFloat.div (repeat 0%float k) actual))
    as [-> | ->].
  4, 5: reflexivity.
  - intros E. apply (f_equal (@length float)) in E.
    rewrite length_map2, repeat_length, La, Nat.min_id in E. simpl in E. lia.
  - rewrite length_map2, repeat_length, La, Nat.min_id. exact Hz.
  - clear La. revert Hfin. generalize actual. clear.
    induction k as [|k IH]; intros l Hl; [constructor|].
    destruct l as [|a l]; [constructor|]. cbn [repeat map2].
    inversion Hl as [|? ? (Hn & Hi & Hz) Hl']; subst.
    constructor; [exact (zero_div_finite a Hn Hi Hz) | exact (IH l Hl')].
Qed.

Lemma exact_predictions_score_perfectly_witness :
  visualize_predictions spike_bars (firstn 3 (skipn 1 (index spike_bars)))
                        (firstn 3 (skipn 1 (col "Close" spike_bars)))
    = Ok (mkMetrics 0 0 1).
Proof.
  apply exact_predictions_score_perfectly.
  - unfold wf. vm_compute. repeat constructor.
  - apply all_distinct_NoDup. vm_compute. reflexivity.
  - vm_compute. reflexivity.
  - lia.
  - vm_compute. lia.
  - vm_compute. reflexivity.
  - vm_compute. repeat constructor.
Defined.

(** ** A date that the table does not have *)

Lemma loc_labels_foreign (idx : list Date) (vals : column) (labels : list Date) (d : Date) :
  In d labels -> ~ In d idx -> loc_labels idx vals labels = Raise KeyError.
Proof.
  intros Hd Hn. induction labels as [|h rest IH]; [destruct Hd|].
  cbn [loc_labels]. destruct (existsb (Date_eqb h) idx) eqn:E; [|reflexivity].
  destruct Hd as [-> | Hd].
  - apply existsb_exists in E. destruct E as (x & Hx & Ex).
    apply Date_eqb_eq in Ex. subst x. contradiction.
  - rewrite (IH Hd). reflexivity.
Qed.

(** X13.  [visualize_predictions] raises [KeyError] when one of the dates
    it is given is not a date of the table, whatever the predictions are;
    without a [Close] column it raises [KeyError] for any dates. *)
Theorem visualize_predictions_foreign_date (data : DataFrame) (test_indices : list Date)
    (predictions : list float) (d : Date) :
  has_col "Close" data = false \/ (In d test_indices /\ ~ In d (index data)) ->
  visualize_predictions data test_indices predictions = Raise KeyError.
Proof.
  intros H. unfold visualize_predictions.
  destruct (has_col "Close" data) eqn:Ec.
  - destruct H as [H | [Hd Hn]]; [discriminate|].
    rewrite (getcol_col data "Close" Ec). cbn [bind].
    rewrite (loc_labels_foreign _ _ _ d Hd Hn). reflexivity.
  - rewrite (getcol_missing data "Close" Ec). reflexivity.
Qed.

Lemma visualize_predictions_foreign_date_witness :
  visualize_predictions spike_bars [mkDate 2024 1 3; mkDate 2024 1 6] [100; 150]%float
    = Raise KeyError.
Proof.
  apply (visualize_predictions_foreign_date _ _ _ (mkDate 2024 1 6)).
  right. split; [simpl; tauto|].
  simpl. intros [H | [H | [H | [H | []]]]]; discriminate.
Defined.

(* ================================================================== *)
(** * Fetching a history and the download batch *)
(* ================================================================== *)

(** ** The order of dates *)

Lemma Date_leb_spec (a b : Date) :
  Date_leb a b = true <->
  (year a < year b \/
   (year a = year b /\ (month a < month b \/ (month a = month b /\ day a <= day b))))%Z.
Proof.
  unfold Date_leb.
  rewrite !orb_true_iff, !andb_true_iff, !orb_true_iff, !andb_true_iff,
    !Z.ltb_lt, !Z.eqb_eq, Z.leb_le.
  reflexivity.
Qed.

Lemma Date_leb_total (a b : Date) : Date_leb a b = false -> Date_leb b a = true.
Proof.
  intros H. apply Date_leb_spec.
  destruct (Date_leb a b) eqn:E; [discriminate|].
  assert (Hn : ~ (year a < year b \/
    (year a = year b /\ (month a < month b \/ (month a = month b /\ day a <= day b))))%Z)
    by (intros Hc; apply Date_leb_spec in Hc; congruence).
  lia.
Qed.

Lemma Date_leb_trans (a b c : Date) :
  Date_leb a b = true -> Date_leb b c = true -> Date_leb a c = true.
Proof. rewrite !Date_leb_spec. lia. Qed.

(** ** Sorting *)

Lemma insert_sorted_perm {A : Type} (leb : A -> A -> bool) (x : A) (l : list A) :
  Permutation (insert_sorted leb x l) (x :: l).
Proof.
  induction l as [|y r IH]; simpl; [apply Permutation_refl|].
  destruct (leb x y); [apply Permutation_refl|].
  apply perm_trans with (y :: x :: r); [apply perm_skip; exact IH | apply perm_swap].
Qed.

Lemma sort_by_perm {A : Type} (leb : A -> A -> bool) (l : list A) :
  Permutation (sort_by leb l) l.
Proof.
  induction l as [|x l IH]; simpl; [apply perm_nil|].
  apply perm_trans with (x :: sort_by leb l);
    [apply insert_sorted_perm | apply perm_skip; exact IH].
Qed.

Lemma insert_by_date_sorted {A : Type} (x : Date * A) (l : list (Date * A)) :
  chronological (map fst l) ->
  chronological (map fst (insert_sorted (fun a b => Date_leb (fst a) (fst b)) x l)).
Proof.
  unfold chronological. induction l as [|y r IH]; intros Hs; simpl.
  - constructor; constructor.
  - simpl in Hs. inversion Hs as [|? ? Hr Hy]; subst.
    destruct (Date_leb (fst x) (fst y)) eqn:E; simpl.
    + constructor; [exact Hs|]. constructor; [exact E|].
      rewrite Forall_forall in Hy |- *. intros d Hd.
      apply (Date_leb_trans _ (fst y)); [exact E | apply Hy; exact Hd].
    + constructor; [apply IH; exact Hr|].
      apply Forall_forall. intros d Hd.
      apply (Permutation_in _ (Permutation_map fst (insert_sorted_perm _ x r))) in Hd.
      destruct Hd as [<- | Hd]; [apply Date_leb_total; exact E|].
      rewrite Forall_forall in Hy. apply Hy. exact Hd.
Qed.

Lemma sort_by_date_sorted {A : Type} (l : list (Date * A)) :
  chronological (map fst (sort_by (fun a b => Date_leb (fst a) (fst b)) l)).
Proof.
  induction l as [|x l IH]; simpl; [constructor|].
  apply insert_by_date_sorted. exact IH.
Qed.


(** ** The table built from an answer *)

Lemma In_combine_seq {A : Type} (d0 : A) (l : list A) (a : A) (i : nat) (s : nat) :
  In (a, i) (combine l (seq s (length l))) -> s <= i /\ nth (i - s) l d0 = a.
Proof.
  revert s. induction l as [|x l IH]; intros s H; simpl in H; [destruct H|].
  destruct H as [H | H].
  - injection H as -> ->. rewrite Nat.sub_diag. split; [lia | reflexivity].
  - apply IH in H. destruct H as [Hs Hn]. split; [lia|].
    replace (i - s) with (S (i - S s)) by lia. exact Hn.
Qed.

(** The rows of a sorted table: row [k] is the row of the given table at
    position [order[k]], and the positions are those of the given table,
    each once. *)
Lemma sort_index_rows (df : DataFrame) :
  let order := map snd (sort_by (fun a b => Date_leb (fst a) (fst b)) (combine (index df) (seq 0 (nrows df)))) in
  Permutation order (seq 0 (nrows df)) /\
  index (sort_index df) = map fst (sort_by (fun a b => Date_leb (fst a) (fst b)) (combine (index df) (seq 0 (nrows df)))) /\
  forall c, has_col c df = true ->
    has_col c (sort_index df) = true /\
    col c (sort_index df) = map (fun i => nth i (col c df) nan) order.
Proof.
  intros order.
  pose proof (sort_by_perm (fun a b : Date * nat => Date_leb (fst a) (fst b))
                (combine (index df) (seq 0 (nrows df)))) as Hp.
  split; [|split].
  - unfold order.
    apply perm_trans with (map snd (combine (index df) (seq 0 (nrows df))));
      [apply Permutation_map; exact Hp|].
    assert (E : forall (l : list Date) s,
               map snd (combine l (seq s (length l))) = seq s (length l)).
    { induction l as [|x l IH]; intros s; simpl; [reflexivity|]. rewrite IH. reflexivity. }
    unfold nrows. rewrite E. apply Permutation_refl.
  - unfold sort_index. cbn [index]. fold order. unfold order. rewrite map_map.
    apply map_ext_in. intros [d i] Hin. cbn [fst snd].
    apply (Permutation_in _ Hp) in Hin. unfold nrows in Hin.
    apply (In_combine_seq (mkDate 0 0 0)) in Hin. destruct Hin as [_ Hn].
    rewrite Nat.sub_0_r in Hn. exact Hn.
  - intros c Hc. unfold sort_index. fold order. split.
    + rewrite (has_col_map_values (fun v => map (fun i => nth i v nan) order)). exact Hc.
    + unfold col. cbn [columns].
      rewrite (find_map_keep (fun p => (fst p, map (fun i => nth i (snd p) nan) order)))
        by reflexivity.
      rewrite has_col_find in Hc.
      destruct (find (fun p => String.eqb c (fst p)) (columns df)); [reflexivity|discriminate].
Qed.

Lemma chronological_index_sort_index (df : DataFrame) : chronological (index (sort_index df)).
Proof.
  destruct (sort_index_rows df) as (_ & -> & _). apply sort_by_date_sorted.
Qed.

Lemma wf_sort_index (df : DataFrame) : wf (sort_index df).
Proof.
  unfold wf, sort_index, nrows. cbn [index columns].
  apply Forall_forall. intros q Hq. apply in_map_iff in Hq.
  destruct Hq as (p & <- & _). cbn [snd]. rewrite !length_map. reflexivity.
Qed.

(** X14.  For an answer that lists at least one bar, [get_daily_kline]
    returns a well-formed table with the columns [Open], [High], [Low],
    [Close], [Volume] whose rows are in ascending order of date, in whatever
    order the service lists them; the rows are the listed bars, each once.
    Without a list of bars it returns the empty table, and for an empty list
    it raises [KeyError]. *)
Theorem get_daily_kline_chronological (service : Service) (symbol : string) :
  match service symbol with
  | Raise e => get_daily_kline service symbol = Raise e
  | Ok None => get_daily_kline service symbol = Ok empty_frame
  | Ok (Some []) => get_daily_kline service symbol = Raise KeyError
  | Ok (Some values) =>
      exists df order,
        get_daily_kline service symbol = Ok df /\
        wf df /\ names df = ohlcv /\ nrows df = length values /\
        chronological (index df) /\
        Permutation order (seq 0 (length values)) /\
        index df = map (fun i => nth i (map bar_datetime values) (mkDate 0 0 0)) order /\
        col "Open" df = map (fun i => nth i (map bar_open values) nan) order /\
        col "High" df = map (fun i => nth i (map bar_high values) nan) order /\
        col "Low" df = map (fun i => nth i (map bar_low values) nan) order /\
        col "Close" df = map (fun i => nth i (map bar_close values) nan) order /\
        col "Volume" df = map (fun i => nth i (map bar_volume values) nan) order
  end.
Proof.
  unfold get_daily_kline.
  destruct (service symbol) as [[[|b values]|]|e]; cbn [bind]; try reflexivity.
  set (vs := b :: values). set (df0 := frame_of_values vs).
  destruct (sort_index_rows df0) as (Hperm & Hidx & Hcol).
  cbv zeta in Hperm, Hcol.
  assert (Hn : nrows df0 = length vs) by (unfold df0, frame_of_values, nrows; cbn [index]; apply length_map).
  exists (sort_index df0), (map snd (sort_by (fun a b => Date_leb (fst a) (fst b)) (combine (index df0) (seq 0 (nrows df0))))).
  split; [reflexivity|]. split; [apply wf_sort_index|].
  split; [reflexivity|]. split.
  { unfold nrows at 1. rewrite Hidx, length_map.
    rewrite (Permutation_length (sort_by_perm _ _)), length_combine, length_seq.
    unfold nrows in *. lia. }
  split; [apply chronological_index_sort_index|].
  split; [rewrite <- Hn; exact Hperm|].
  split; [reflexivity|].
  repeat split; apply Hcol; reflexivity.
Qed.

(** ** The date range *)

Lemma In_select_map {A : Type} (f : A -> bool) (l : list A) (x : A) :
  In x (select (map f l) l) -> In x l /\ f x = true.
Proof.
  induction l as [|a l IH]; simpl; [tauto|].
  destruct (f a) eqn:E.
  - intros [<- | H]; [tauto|]. apply IH in H. tauto.
  - intros H. apply IH in H. tauto.
Qed.

Lemma select_map_none {A : Type} (f : A -> bool) (l : list A) :
  (forall x, In x l -> f x = false) -> select (map f l) l = [].
Proof.
  induction l as [|a l IH]; intros H; simpl; [reflexivity|].
  rewrite (H a) by (left; reflexivity). apply IH. intros x Hx. apply H. right. exact Hx.
Qed.




(** ** What a fetch can raise *)

(** X16.  [fetch_stock_history] adds no failure of its own: it raises
    exactly when [get_daily_kline] raises, and with the same exception.
    When [get_daily_kline] returns an empty table, or a table that has no
    bar inside the requested range, the result is the empty table, also
    through the wrapper [get_stock_data]. *)
Theorem fetch_stock_history_failures (service : Service) (stock_symbol : string)
    (date_from date_to : Date) :
  (forall e,
     fetch_stock_history service stock_symbol date_from date_to = Raise e <->
     get_daily_kline service stock_symbol = Raise e) /\
  (forall df_raw,
     get_daily_kline service stock_symbol = Ok df_raw ->
     empty df_raw = true \/
     (forall d, In d (index df_raw) -> Date_leb date_from d && Date_leb d date_to = false) ->
     fetch_stock_history service stock_symbol date_from date_to = Ok empty_frame /\
     get_stock_data service stock_symbol date_from date_to = Ok empty_frame).
Proof.
  unfold get_stock_data, fetch_stock_history. split.
  - intros e. destruct (get_daily_kline service stock_symbol) as [df_raw|e']; cbn [bind].
    + split; [|discriminate].
      destruct (empty df_raw); [discriminate|].
      unfold compute_indicators.
      destruct (_ || _); cbn [returned]; discriminate.
    + reflexivity.
  - intros df_raw -> H. cbn [bind].
    destruct (empty df_raw) eqn:E; [split; reflexivity|].
    destruct H as [H | H]; [discriminate|].
    assert (Hg : forall df, nrows df = 0 -> returned (compute_indicators df) = Ok empty_frame).
    { intros df Hdf. unfold compute_indicators, empty. rewrite Hdf. reflexivity. }
    rewrite Hg; [split; reflexivity|].
    unfold nrows, filter_rows. cbn [index].
    rewrite (select_map_none _ (index df_raw) H). reflexivity.
Qed.

(** ** The pauses of the batch *)

Lemma process_loop_sleeps (service : Service) (from_date to_date : Date)
    (codes : list string) (i : nat) (st : Batch) :
  sleeps (process_loop service from_date to_date i codes st) =
  sleeps st ++ map pause (seq i (length codes)).
Proof.
  revert i st. induction codes as [|code rest IH]; intros i st; simpl.
  - rewrite app_nil_r. reflexivity.
  - rewrite IH. cbn [sleeps process_symbol]. rewrite <- app_assoc. reflexivity.
Qed.

Lemma pause_period (i : nat) : pause (7 + i) = pause i.
Proof.
  unfold pause. replace (7 + i + 1) with (i + 1 + 1 * 7) by lia.
  rewrite Nat.Div0.mod_add. reflexivity.
Qed.

(** Any seven pauses in a row hold one long pause and six short ones. *)
Lemma seven_pauses (k : nat) : list_sum (map pause (seq k 7)) = 113.
Proof.
  induction k as [k IH] using (well_founded_induction lt_wf).
  destruct (Nat.lt_ge_cases k 7) as [Hk | Hk].
  - do 7 (destruct k as [|k]; [reflexivity|]). lia.
  - replace k with (7 + (k - 7)) by lia.
    rewrite (map_seq_from _ pause (7 + (k - 7)) 7).
    rewrite <- (IH (k - 7)) by lia.
    rewrite (map_seq_from _ pause (k - 7) 7).
    f_equal. apply map_ext. intros i.
    replace (7 + (k - 7) + i) with (7 + (k - 7 + i)) by lia. apply pause_period.
Qed.

(** X17.  However the requests end, the batch pauses once after every
    symbol, and any seven pauses in a row add up to 113 seconds: the
    symbol at position [k + 7] is not requested before 113 seconds have
    passed since the request for the symbol at position [k], so no eight
    requests fall within one minute. *)
Theorem process_all_request_rate (service : Service) (from_date to_date : Date)
    (codes : list string) (k : nat) :
  k + 7 <= length codes ->
  let run := process_loop service from_date to_date 0 codes (mkBatch [] []) in
  length (sleeps run) = length codes /\
  list_sum (firstn 7 (skipn k (sleeps run))) = 113 /\
  60 < list_sum (firstn 7 (skipn k (sleeps run))).
Proof.
  intros Hk run. unfold run. rewrite process_loop_sleeps. cbn [sleeps app].
  split; [rewrite length_map, length_seq; reflexivity|].
  assert (H : list_sum (firstn 7 (skipn k (map pause (seq 0 (length codes))))) = 113).
  { rewrite skipn_map, firstn_map, skipn_seq, firstn_seq.
    replace (Nat.min 7 (length codes - k)) with 7 by lia.
    apply seven_pauses. }
  rewrite H. split; [reflexivity | lia].
Qed.

Lemma process_all_request_rate_witness :
  let run := process_all (fun _ => Raise (PyExc "ConnectionError")) in
  length (sleeps run) = length symbols /\
  list_sum (firstn 7 (skipn 23 (sleeps run))) = 113 /\
  60 < list_sum (firstn 7 (skipn 23 (sleeps run))).
Proof.
  apply (process_all_request_rate (fun _ => Raise (PyExc "ConnectionError"))
           (mkDate 2020 1 1) (mkDate 2024 1 1) symbols 23).
  vm_compute. lia.
Defined.

(** ** The files of the batch *)

Lemma process_loop_written (service : Service) (from_date to_date : Date)
    (codes : list string) (i : nat) (st : Batch) :
  written (process_loop service from_date to_date i codes st) =
  written st ++
  flat_map (fun code =>
              match fetch_stock_history service code from_date to_date with
              | Ok df_result => if empty df_result then [] else [(code, df_result)]
              | Raise _ => []
              end) codes.
Proof.
  revert i st. induction codes as [|code rest IH]; intros i st; simpl.
  - rewrite app_nil_r. reflexivity.
  - rewrite IH. cbn [written process_symbol].
    destruct (fetch_stock_history service code from_date to_date) as [df|e].
    + destruct (empty df); [reflexivity|]. rewrite <- app_assoc. reflexivity.
    + reflexivity.
Qed.

(** X18.  A failed or empty result for one symbol does not stop the batch
    and writes nothing: the files written are, in the order of the list,
    those of the symbols whose history was fetched and is not empty, each
    holding that history, which has at least one row, all of them dated
    inside the range. *)
Theorem process_all_writes_fetched_histories (service : Service)
    (from_date to_date : Date) (codes : list string) :
  let run := process_loop service from_date to_date 0 codes (mkBatch [] []) in
  map fst (written run) =
    filter (fun code =>
              match fetch_stock_history service code from_date to_date with
              | Ok df_result => negb (empty df_result)
              | Raise _ => false
              end) codes /\
  Forall (fun file =>
            fetch_stock_history service (fst file) from_date to_date
              = Ok (snd file) /\
            1 <= nrows (snd file) /\
            forall d, In d (index (snd file)) ->
              Date_leb from_date d = true /\ Date_leb d to_date = true)
         (written run).
Proof.
  intros run. unfold run. rewrite process_loop_written. cbn [written app]. split.
  - induction codes as [|code rest IH]; simpl; [reflexivity|].
    destruct (fetch_stock_history service code from_date to_date) as [df|e].
    + destruct (empty df); simpl; rewrite IH; reflexivity.
    + simpl. exact IH.
  - apply Forall_forall. intros [code df] Hin. apply in_flat_map in Hin.
    destruct Hin as (c & _ & Hin).
    destruct (fetch_stock_history service c from_date to_date) as [df'|e] eqn:E;
      [|destruct Hin].
    destruct (empty df') eqn:Ee; [destruct Hin|].
    destruct Hin as [Hin | []]. injection Hin as <- <-. cbn [fst snd].
    split; [exact E|]. split.
    + unfold empty in Ee. apply orb_false_iff in Ee. destruct Ee as [Ee _].
      apply Nat.eqb_neq in Ee. lia.
    + intros d Hd.
      unfold fetch_stock_history in E.
      destruct (get_daily_kline service c) as [df_raw|e]; cbn [bind] in E; [|discriminate].
      destruct (empty df_raw); [injection E as <-; destruct Hd|].
      apply returned_compute_indicators in E. destruct E as [-> | ->]; [destruct Hd|].
      unfold dropna in Hd. cbn [index] in Hd. apply In_select in Hd.
      rewrite index_add_indicators, index_clean_outliers in Hd.
      unfold filter_rows in Hd. cbn [index] in Hd.
      apply In_select_map in Hd. destruct Hd as [_ Hk].
      apply andb_true_iff in Hk. exact Hk.
Qed.

(* ================================================================== *)
(** * The batch driver of the models *)
(* ================================================================== *)

Lemma dict_set_keys {V : Type} (key : string) (value : V) (d : list (string * V)) (k : string) :
  In k (map fst (dict_set key value d)) <-> k = key \/ In k (map fst d).
Proof.
  unfold dict_set. destruct (existsb (fun p => String.eqb key (fst p)) d) eqn:E.
  - assert (Hk : map fst (map (fun p : string * V =>
                     if String.eqb key (fst p) then (key, value) else p) d) = map fst d).
    { rewrite map_map. apply map_ext. intros p.
      destruct (String.eqb key (fst p)) eqn:Ep; [|reflexivity].
      apply String.eqb_eq in Ep. cbn [fst]. exact Ep. }
    rewrite Hk. split; [tauto|]. intros [-> | H]; [|exact H].
    apply existsb_exists in E. destruct E as (p & Hp & Ek).
    apply String.eqb_eq in Ek. rewrite Ek. apply in_map. exact Hp.
  - rewrite map_app, in_app_iff. simpl. split; intros H; [|destruct H; auto];
      destruct H as [H | [H | []]]; auto.
Qed.

(** What holds of the two dictionaries after any number of tickers. *)
Lemma driver_step_keys (read_csv : string -> result DataFrame) (lstm gru : string -> Net)
    (tickers : list string) (st : Tally) (seen : list string) :
  (forall k, In k (map fst (all_gru_metrics st)) -> In k (map fst (all_lstm_metrics st))) ->
  (forall k, In k (map fst (all_lstm_metrics st)) -> In k seen) ->
  let out := fold_left (driver_step read_csv lstm gru) tickers st in
  (forall k, In k (map fst (all_gru_metrics out)) -> In k (map fst (all_lstm_metrics out))) /\
  (forall k, In k (map fst (all_lstm_metrics out)) -> In k (seen ++ tickers)).
Proof.
  revert st seen. induction tickers as [|t rest IH]; intros st seen H1 H2; cbn [fold_left].
  - rewrite app_nil_r. split; assumption.
  - replace (seen ++ t :: rest) with ((seen ++ [t]) ++ rest)
      by (rewrite <- app_assoc; reflexivity).
    apply IH.
    + unfold driver_step.
      destruct (read_csv t) as [data|]; [|exact H1].
      destruct (format_feature data) as [fs|]; [|exact H1].
      destruct (predict _ _ data fs "LSTM" 100 64) as [lm|]; [|exact H1].
      destruct (predict _ _ data fs "GRU" 100 64) as [gm|]; cbn [all_lstm_metrics all_gru_metrics];
        intros k Hk; apply dict_set_keys.
      * apply dict_set_keys in Hk. destruct Hk as [-> | Hk]; [left; reflexivity|].
        right. apply H1. exact Hk.
      * right. apply H1. exact Hk.
    + unfold driver_step.
      assert (Hseen : forall k, In k (map fst (all_lstm_metrics st)) -> In k (seen ++ [t]))
        by (intros k Hk; apply in_or_app; left; apply H2; exact Hk).
      destruct (read_csv t) as [data|]; [|exact Hseen].
      destruct (format_feature data) as [fs|]; [|exact Hseen].
      destruct (predict _ _ data fs "LSTM" 100 64) as [lm|]; [|exact Hseen].
      destruct (predict _ _ data fs "GRU" 100 64) as [gm|]; cbn [all_lstm_metrics all_gru_metrics];
        intros k Hk; apply dict_set_keys in Hk;
        (destruct Hk as [-> | Hk]; [apply in_or_app; right; left; reflexivity
                                   | apply Hseen; exact Hk]).
Qed.

(** X19.  In the dictionaries the driver collects, every ticker with GRU
    metrics also has LSTM metrics, and every ticker with metrics is one of
    the tickers of the list: the GRU model of a ticker is only run after its
    LSTM model has returned, and a ticker that fails at any point is
    skipped without an entry for the step that failed. *)
Theorem driver_gru_metrics_have_lstm_metrics (read_csv : string -> result DataFrame)
    (lstm gru : string -> Net) (tickers : list string) :
  let out := driver read_csv lstm gru tickers in
  Forall (fun k => In k (map fst (all_lstm_metrics out))) (map fst (all_gru_metrics out)) /\
  Forall (fun k => In k tickers) (map fst (all_lstm_metrics out)).
Proof.
  intros out. unfold out, driver.
  destruct (driver_step_keys read_csv lstm gru tickers (mkTally [] []) [])
    as [H1 H2]; try (intros k []).
  split; apply Forall_forall; assumption.
Qed.

(* ================================================================== *)
(** * The curves of cumulated returns *)
(* ================================================================== *)

Lemma map2_take_second (p a : list float) :
  Forall (fun v => (0 <? v)%float = true) p -> length a <= length p ->
  map2 (fun p a => if (0 <? p)%float then a else 0%float) p a = a.
Proof.
  intros H. revert a. induction H as [|x p Hx _ IH]; intros [|v a] Hl; simpl in *;
    try reflexivity; try lia.
  rewrite Hx, IH by lia. reflexivity.
Qed.

Lemma map2_take_zero (p a : list float) :
  Forall (fun v => (0 <? v)%float = false) p ->
  map2 (fun p a => if (0 <? p)%float then a else 0%float) p a =
  repeat 0%float (Nat.min (length p) (length a)).
Proof.
  intros H. revert a. induction H as [|x p Hx _ IH]; intros [|v a]; simpl;
    try reflexivity.
  rewrite Hx, IH. reflexivity.
Qed.

Lemma np_cumsum_zeros (n : nat) : np_cumsum (repeat 0%float n) = repeat 0%float n.
Proof.
  destruct n as [|n]; [reflexivity|]. cbn [repeat np_cumsum]. f_equal.
  induction n as [|n IH]; [reflexivity|]. cbn [repeat scan].
  change (0 + 0)%float with 0%float. f_equal. exact IH.
Qed.

(** X20.  Of the two curves of the earnings plot, the model's curve is the
    naive curve when every predicted return is positive, and it stays at
    zero when none is: a prediction that is zero, negative or missing
    counts as staying out of the market that day. *)
Theorem cumulative_earnings_extremes (actual_percentages predict_percentages : list float) :
  length actual_percentages = length predict_percentages ->
  let curves := cumulative_earnings actual_percentages predict_percentages in
  (Forall (fun p => (0 <? p)%float = true) predict_percentages ->
   snd curves = fst curves) /\
  (Forall (fun p => (0 <? p)%float = false) predict_percentages ->
   snd curves = repeat 0%float (length actual_percentages)).
Proof.
  intros Hlen curves. unfold curves, cumulative_earnings. cbn [fst snd]. split; intros H.
  - rewrite map2_take_second by (assumption || lia). reflexivity.
  - rewrite map2_take_zero by assumption. rewrite <- Hlen, Nat.min_id.
    apply np_cumsum_zeros.
Qed.

Lemma cumulative_earnings_extremes_witness :
  let curves := cumulative_earnings [1.5; -2; 0.25]%float [0.5; 1; 2]%float in
  (Forall (fun p => (0 <? p)%float = true) [0.5; 1; 2]%float ->
   snd curves = fst curves) /\
  (Forall (fun p => (0 <? p)%float = false) [0.5; 1; 2]%float ->
   snd curves = repeat 0%float (length [1.5; -2; 0.25]%float)).
Proof.
  apply cumulative_earnings_extremes. reflexivity.
Defined.

(* ================================================================== *)
(** * The comparison chart *)
(* ================================================================== *)

Lemma dict_getitem_key {V : Type} (d : list (string * V)) (key : string) :
  In key (map fst d) -> exists v, dict_getitem d key = Ok v.
Proof.
  intros H. unfold dict_getitem.
  destruct (find (fun p => String.eqb key (fst p)) d) as [p|] eqn:E; [eauto|].
  exfalso. apply in_map_iff in H. destruct H as (p & <- & Hp).
  pose proof (find_none _ _ E p Hp) as Hn. cbn beta in Hn.
  rewrite String.eqb_refl in Hn. discriminate.
Qed.

Lemma dict_getitem_raises {V : Type} (d : list (string * V)) (key : string) (e : exn) :
  dict_getitem d key = Raise e -> ~ In key (map fst d).
Proof.
  intros H Hin. destruct (dict_getitem_key d key Hin) as [v Hv]. congruence.
Qed.

Lemma accuracies_of_keys (d : list (string * Metrics)) (tickers : list string) :
  (forall t, In t tickers -> In t (map fst d)) ->
  exists acc,
    accuracies d tickers = Ok acc /\
    Forall2 (fun t a => exists m, dict_getitem d t = Ok m /\ a = (accuracy m * 100)%float)
            tickers acc.
Proof.
  induction tickers as [|t rest IH]; intros H.
  - exists []. split; [reflexivity | constructor].
  - destruct (dict_getitem_key d t (H t (or_introl eq_refl))) as [m Hm].
    destruct IH as (acc & Hacc & HF); [intros u Hu; apply H; right; exact Hu|].
    exists ((accuracy m * 100)%float :: acc). split.
    + cbn [accuracies]. rewrite Hm, Hacc. reflexivity.
    + constructor; [exists m; split; [exact Hm | reflexivity] | exact HF].
Qed.

(** The tickers of a chart are the tickers with LSTM metrics. *)
Lemma plot_accuracy_comparison_chart (lstm_metrics gru_metrics : list (string * Metrics)) :
  match plot_accuracy_comparison lstm_metrics gru_metrics with
  | None => lstm_metrics = [] \/ gru_metrics = []
  | Some (tickers, _, _) => Permutation tickers (map fst lstm_metrics)
  end.
Proof.
  unfold plot_accuracy_comparison.
  destruct lstm_metrics as [|l0 lstm]; [left; reflexivity|].
  destruct gru_metrics as [|g0 gru]; [right; reflexivity|].
  cbn [length Nat.eqb orb]. cbv zeta.
  set (L := l0 :: lstm).
  pose proof (sort_by_perm String.leb (map fst L)) as Hperm. fold (sorted (map fst L)) in Hperm.
  destruct (accuracies_of_keys L (sorted (map fst L))) as (acc & -> & _).
  { intros t Ht. apply (Permutation_in _ Hperm). exact Ht. }
  exact Hperm.
Qed.

(** X22.  [plot_accuracy_comparison] draws no chart exactly when one of
    the two dictionaries is empty; none of its dictionary lookups can raise.
    Otherwise the
    chart has one pair of bars for every ticker with LSTM metrics, each
    once: the LSTM bar is 100 times its accuracy, the GRU bar is 100 times
    the GRU accuracy of that ticker, or 0 when the ticker has no GRU
    metrics.  A ticker that only has GRU metrics has no bars. *)
Theorem plot_accuracy_comparison_bars (lstm_metrics gru_metrics : list (string * Metrics)) :
  match plot_accuracy_comparison lstm_metrics gru_metrics with
  | None => lstm_metrics = [] \/ gru_metrics = []
  | Some (tickers, lstm_acc, gru_acc) =>
      lstm_metrics <> [] /\ gru_metrics <> [] /\
      Permutation tickers (map fst lstm_metrics) /\
      Forall2 (fun t a => exists m, dict_getitem lstm_metrics t = Ok m /\
                                    a = (accuracy m * 100)%float) tickers lstm_acc /\
      Forall2 (fun t g => match dict_getitem gru_metrics t with
                          | Ok m => g = (accuracy m * 100)%float
                          | Raise _ => ~ In t (map fst gru_metrics) /\ g = 0%float
                          end) tickers gru_acc
  end.
Proof.
  unfold plot_accuracy_comparison.
  destruct lstm_metrics as [|l0 lstm]; [left; reflexivity|].
  destruct gru_metrics as [|g0 gru]; [right; reflexivity|].
  cbn [length Nat.eqb orb]. cbv zeta.
  set (L := l0 :: lstm). set (G := g0 :: gru).
  pose proof (sort_by_perm String.leb (map fst L)) as Hperm. fold (sorted (map fst L)) in Hperm.
  destruct (accuracies_of_keys L (sorted (map fst L))) as (acc & -> & HF).
  { intros t Ht. apply (Permutation_in _ Hperm). exact Ht. }
  split; [discriminate|]. split; [discriminate|]. split; [exact Hperm|].
  split; [exact HF|].
  generalize (sorted (map fst L)). intros tickers.
  induction tickers as [|t rest IH]; cbn [map]; constructor; [|exact IH].
  destruct (dict_getitem G t) as [m|e] eqn:E; [reflexivity|].
  split; [exact (dict_getitem_raises G t e E) | reflexivity].
Qed.

(** X23.  The chart the driver draws at the end leaves no result out:
    either no chart is drawn, and then no GRU run has returned, or every
    ticker with GRU metrics, and every ticker with LSTM metrics, has its
    pair of bars. *)
Theorem driver_chart_shows_every_result (read_csv : string -> result DataFrame)
    (lstm gru : string -> Net) (tickers : list string) :
  let out := driver read_csv lstm gru tickers in
  match plot_accuracy_comparison (all_lstm_metrics out) (all_gru_metrics out) with
  | None => all_gru_metrics out = []
  | Some (shown, _, _) =>
      Forall (fun k => In k shown) (map fst (all_gru_metrics out)) /\
      Forall (fun k => In k shown) (map fst (all_lstm_metrics out))
  end.
Proof.
  intros out.
  destruct (driver_step_keys read_csv lstm gru tickers (mkTally [] []) [])
    as [H1 _]; try (intros k []).
  fold (driver read_csv lstm gru tickers) in H1. fold out in H1. cbv zeta in H1.
  pose proof (plot_accuracy_comparison_chart (all_lstm_metrics out) (all_gru_metrics out))
    as Hc.
  destruct (plot_accuracy_comparison (all_lstm_metrics out) (all_gru_metrics out))
    as [[[shown la] ga]|].
  - split; apply Forall_forall; intros k Hk; apply (Permutation_in _ (Permutation_sym Hc));
      [apply H1|]; exact Hk.
  - destruct Hc as [Hc | Hc]; [|exact Hc].
    destruct (all_gru_metrics out) as [|[k m] rest]; [reflexivity|].
    exfalso. specialize (H1 k (or_introl eq_refl)). rewrite Hc in H1. destruct H1.
Qed.

(* ================================================================== *)
(** * Further properties of the indicators *)
(* ================================================================== *)

(** ** The calendar fields *)

Lemma select_map {A B : Type} (f : A -> B) (mask : list bool) (l : list A) :
  select mask (map f l) = map f (select mask l).
Proof.
  revert l. induction mask as [|m mask IH]; intros [|x l]; simpl; try reflexivity.
  destruct m; simpl; rewrite IH; reflexivity.
Qed.

(** X24.  In the table [compute_indicators] returns, the fields [Year],
    [Month] and [Day] of a row are those of the row's own date, not of the
    day before. *)
Theorem calendar_fields_of_own_date (bars T : DataFrame) :
  returned (compute_indicators bars) = Ok T ->
  col "Year" T = map (fun d => float_of_Z (year d)) (index T) /\
  col "Month" T = map (fun d => float_of_Z (month d)) (index T) /\
  col "Day" T = map (fun d => float_of_Z (day d)) (index T).
Proof.
  intros H. apply returned_compute_indicators in H. destruct H as [-> | ->].
  - repeat split; reflexivity.
  - rewrite !col_dropna. unfold dropna. cbn [index].
    rewrite <- !select_map, add_indicators_closed_form, !col_set_cols, index_set_cols.
    repeat split; reflexivity.
Qed.

Lemma calendar_fields_of_own_date_witness :
  col "Year" sample_table = map (fun d => float_of_Z (year d)) (index sample_table) /\
  col "Month" sample_table = map (fun d => float_of_Z (month d)) (index sample_table) /\
  col "Day" sample_table = map (fun d => float_of_Z (day d)) (index sample_table).
Proof.
  apply (calendar_fields_of_own_date sample_bars). vm_compute. reflexivity.
Defined.

(** ** A flat close *)

Lemma firstn_skipn_constant {A : Type} (l : list A) (o k : nat) (x d : A) :
  o + k <= length l -> (forall j, o <= j < o + k -> nth j l d = x) ->
  firstn k (skipn o l) = repeat x k.
Proof.
  revert o. induction k as [|k IH]; intros o Hl Hx; [reflexivity|].
  rewrite (firstn_skipn_nth l o k d) by lia. cbn [repeat]. f_equal.
  - apply Hx. lia.
  - apply IH; [lia|]. intros j Hj. apply Hx. lia.
Qed.

Lemma nth_map_in_range {A B : Type} (f : A -> B) (l : list A) (i : nat) (dA : A) (dB : B) :
  i < length l -> nth i (map f l) dB = f (nth i l dA).
Proof.
  intros H. rewrite (nth_indep _ dB (f dA)) by (rewrite length_map; exact H).
  apply map_nth.
Qed.

Lemma nth_diff (c : column) (j : nat) :
  1 <= j -> j < length c -> nth j (diff c) nan = (nth j c nan - nth (j - 1) c nan)%float.
Proof.
  intros H1 H2. unfold diff.
  rewrite (nth_map2 PrimFloat.sub c (shift1 c) j nan nan nan)
    by (rewrite ?length_shift1; exact H2).
  destruct j as [|j]; [lia|]. rewrite (nth_shift1 j c H2).
  replace (S j - 1) with j by lia. reflexivity.
Qed.

Lemma nth_rolling (w : nat) (agg : list float -> float) (c : column) (i : nat) :
  w <= S i -> i < length c ->
  nth i (rolling w agg c) nan = agg (firstn w (skipn (S i - w) (inf_to_nan c))).
Proof.
  intros Hw Hi. unfold rolling. cbv zeta. rewrite length_inf_to_nan.
  rewrite (nth_map_in_range _ _ i 0 nan) by (rewrite length_seq; exact Hi).
  rewrite seq_nth by exact Hi. cbn [Nat.add].
  replace (S i <? w) with false by (symmetry; apply Nat.ltb_ge; lia).
  reflexivity.
Qed.

(** After 15 equal closes the relative strength is [0 / 0]. *)
Lemma rsi_after_flat_close (close : column) (n : nat) (c : float) :
  15 <= n -> n < length close ->
  is_nan c = false -> is_infinity c = false ->
  (forall j, n - 15 <= j < n -> nth j close nan = c) ->
  is_nan (nth n (rsi close) nan) = true.
Proof.
  intros Hn Hlen Hc1 Hc2 Hflat. unfold rsi.
  destruct n as [|m]; [lia|].
  rewrite nth_shift1
    by (unfold ksub, kdiv, kadd, cdiv, rolling_mean, clip_lower, clip_upper, cneg;
        rewrite !length_map, length_map2, !length_rolling, !length_map;
        unfold diff; rewrite length_map2, length_shift1; lia).
  assert (Ld : length (diff close) = length close)
    by (unfold diff; rewrite length_map2, length_shift1; lia).
  assert (Hd : forall j, m - 13 <= j < S m -> nth j (diff close) nan = 0%float).
  { intros j Hj. rewrite nth_diff by lia.
    rewrite (Hflat j), (Hflat (j - 1)) by lia. apply sub_self; assumption. }
  unfold ksub, kdiv, kadd, cdiv, rolling_mean.
  assert (Lr : forall v : column, length v = length close ->
                 m < length (rolling 14 mean v))
    by (intros v Hv; rewrite length_rolling; lia).
  assert (Lrise : length (clip_lower 0 (diff close)) = length close)
    by (unfold clip_lower; rewrite length_map; exact Ld).
  assert (Ldrop : length (cneg (clip_upper 0 (diff close))) = length close)
    by (unfold cneg, clip_upper; rewrite !length_map; exact Ld).
  rewrite !(nth_map_in_range _ _ m nan nan)
    by (rewrite ?length_map, length_map2, !length_rolling; lia).
  rewrite (nth_map2 PrimFloat.div _ _ m nan nan nan) by (apply Lr; assumption).
  rewrite !nth_rolling by lia.
  replace (S m - 14) with (m - 13) by lia.
  rewrite (firstn_skipn_constant (inf_to_nan (clip_lower 0 (diff close))) (m - 13) 14
             0%float nan).
  2:{ rewrite length_inf_to_nan. lia. }
  2:{ intros j Hj. unfold inf_to_nan, clip_lower.
      rewrite !(nth_map_in_range _ _ j nan nan) by (rewrite ?length_map; lia).
      rewrite Hd by lia. reflexivity. }
  rewrite (firstn_skipn_constant (inf_to_nan (cneg (clip_upper 0 (diff close)))) (m - 13) 14
             (-0)%float nan).
  2:{ rewrite length_inf_to_nan. lia. }
  2:{ intros j Hj. unfold inf_to_nan, cneg, clip_upper.
      rewrite !(nth_map_in_range _ _ j nan nan) by (rewrite ?length_map; lia).
      rewrite Hd by lia. reflexivity. }
  vm_compute. reflexivity.
Qed.

Lemma col_add_indicators_rsi (df : DataFrame) :
  col "RSI" (add_indicators df) = rsi (col "Close" df).
Proof. rewrite add_indicators_closed_form, col_set_cols. reflexivity. Qed.

Lemma not_In_select {A : Type} (mask : list bool) (l : list A) (n : nat) (d : A) :
  NoDup l -> n < length l -> nth n mask false = false -> ~ In (nth n l d) (select mask l).
Proof.
  revert mask n. induction l as [|x l IH]; intros mask n Hnd Hn Hm; [simpl in Hn; lia|].
  inversion Hnd as [|? ? Hx Hnd']; subst.
  destruct mask as [|m mask]; [intros []|].
  destruct n as [|n]; simpl in *.
  - subst m. intros Hin. apply Hx. apply (In_select _ _ _ Hin).
  - intros Hin.
    assert (Hrest : ~ In (nth n l d) (select mask l)) by (apply IH; [assumption | lia | assumption]).
    destruct m; [|contradiction].
    destruct Hin as [E | Hin]; [|contradiction].
    apply Hx. rewrite E. apply nth_In. lia.
Qed.

(** X25.  When the cleaned close is the same finite number in the 15 rows
    before row [n], the RSI of row [n] is missing (the average gain and the
    average loss are both zero) and [compute_indicators] does not return a
    row for that date: a flat stretch of the price silently removes dates
    from the table. *)
Theorem flat_close_drops_the_row (bars T : DataFrame) (n : nat) (c : float) :
  wf bars -> NoDup (index bars) ->
  returned (compute_indicators bars) = Ok T ->
  15 <= n -> n < nrows bars ->
  is_nan c = false -> is_infinity c = false ->
  (forall j, n - 15 <= j < n -> nth j (col "Close" (clean_outliers bars)) nan = c) ->
  ~ In (nth n (index bars) (mkDate 0 0 0)) (index T).
Proof.
  intros Hwf Hnd H Hn Hlt Hc1 Hc2 Hflat.
  unfold compute_indicators in H.
  destruct (empty bars || negb (has_col "Close" bars)) eqn:Eg; cbn [returned] in H;
    injection H as <-; [intros []|].
  apply orb_false_iff in Eg. destruct Eg as [Ee Ec]. apply negb_false_iff in Ec.
  unfold dropna. cbn [index]. rewrite index_add_indicators, index_clean_outliers.
  apply not_In_select; [exact Hnd | exact Hlt |].
  destruct (nth n (notna_rows (add_indicators (clean_outliers bars))) false) eqn:E;
    [|reflexivity].
  exfalso. apply nth_notna_rows in E. destruct E as [_ E].
  rewrite existsb_false_Forall, Forall_forall in E.
  assert (Hr : has_col "RSI" (add_indicators (clean_outliers bars)) = true)
    by (apply has_col_add_indicators; simpl; tauto).
  apply col_in_columns in Hr.
  apply (in_map (fun p => nth n (snd p) nan)) in Hr.
  apply E in Hr. cbn [snd] in Hr.
  rewrite col_add_indicators_rsi in Hr.
  rewrite (rsi_after_flat_close _ n c Hn) in Hr; try assumption; [discriminate|].
  rewrite (length_clean_col bars "Close" Hwf Ec) by (simpl; tauto). exact Hlt.
Qed.

(** The sample bars followed by twenty flat bars: the closes of rows 62 to
    76 are equal, and row 77 does not come back. *)
Lemma flat_close_drops_the_row_witness :
  returned (compute_indicators flat_tail_bars) = Ok flat_tail_table /\
  nrows flat_tail_bars = 82 /\ nrows flat_tail_table = 26 /\
  ~ In (nth 77 (index flat_tail_bars) (mkDate 0 0 0)) (index flat_tail_table).
Proof.
  assert (H : returned (compute_indicators flat_tail_bars) = Ok flat_tail_table)
    by (vm_compute; reflexivity).
  split; [exact H|]. split; [vm_compute; reflexivity|]. split; [vm_compute; reflexivity|].
  apply (flat_close_drops_the_row flat_tail_bars flat_tail_table 77 100%float).
  - unfold wf. vm_compute. repeat constructor.
  - apply all_distinct_NoDup. vm_compute. reflexivity.
  - exact H.
  - lia.
  - vm_compute. lia.
  - reflexivity.
  - reflexivity.
  - intros j Hj. assert (Hj' : exists k, j = 62 + k /\ k < 15) by (exists (j - 62); lia).
    destruct Hj' as (k & -> & Hk). clear Hj.
    do 15 (destruct k as [|k]; [vm_compute; reflexivity|]). lia.
Defined.

(** ** An infinite indicator *)

(** X26.  [dropna] removes missing values, not infinities.  When a feature
    column of the table [compute_indicators] returns holds an infinity
    below its first row, the frame [format_feature] builds from the table
    holds it too, and both training functions raise [ValueError] on it.
    A rolling window reads an infinity as a missing value; a column
    computed without one, such as [VWAP], keeps it. *)
Theorem infinite_indicator_fails_training (net : Net) (bars T X : DataFrame) (y : Series)
    (n_steps num_epochs : nat) (batch_size : positive) (c : string) (i : nat) :
  returned (compute_indicators bars) = Ok T ->
  format_feature T = Ok (X, y) ->
  In c features -> 1 <= i -> i < nrows T ->
  is_infinity (nth i (col c T) nan) = true ->
  existsb (existsb is_infinity) (values X) = true /\
  train_and_predict_lstm net T X y n_steps num_epochs batch_size = Raise ValueError /\
  train_and_predict_gru net T X y n_steps num_epochs batch_size = Raise ValueError.
Proof.
  intros H HF Hc Hi Hlt Hinf.
  assert (HX : existsb (existsb is_infinity) (values X) = true).
  { destruct (format_feature_without_fill T X y (returned_no_missing bars T H) HF)
      as [_ Hcols].
    assert (Hidx : nrows X = nrows T - 1).
    { unfold format_feature, select_columns in HF.
      destruct (getcols T features) as [cols|e]; [|discriminate]. cbn [bind] in HF.
      destruct (getcol T "Close") as [close|e]; [|discriminate]. cbn [bind] in HF.
      injection HF as <- _.
      destruct (isnull_any _); unfold nrows, fillna_ffill, iloc_from1; cbn [index];
        destruct (index T); simpl; lia. }
    apply existsb_exists. exists (row_at (i - 1) X). split.
    - unfold values. apply in_map_iff. exists (i - 1). split; [reflexivity|].
      apply in_seq. lia.
    - apply existsb_exists. exists (nth i (col c T) nan). split; [|exact Hinf].
      unfold row_at. rewrite Hcols, map_map. cbn [snd].
      apply in_map_iff. exists c. split; [|exact Hc].
      rewrite nth_tl. f_equal. lia. }
  split; [exact HX|].
  split; apply train_and_predict_infinity; right; exact HX.
Qed.

(** The sample with a volume of 2e306: [Close * Volume] overflows, so the
    [VWAP] of every returned row is infinite. *)
Lemma infinite_indicator_fails_training_witness :
  exists X y,
    returned (compute_indicators huge_volume_bars) = Ok huge_volume_table /\
    format_feature huge_volume_table = Ok (X, y) /\
    nrows huge_volume_table = 12 /\
    nth 1 (col "VWAP" huge_volume_table) nan = infinity /\
    existsb (existsb is_infinity) (values X) = true /\
    train_and_predict_lstm const_net huge_volume_table X y 2 100 64 = Raise ValueError /\
    train_and_predict_gru const_net huge_volume_table X y 2 100 64 = Raise ValueError.
Proof.
  assert (H : exists X y, format_feature huge_volume_table = Ok (X, y)).
  { eexists. eexists. vm_compute. reflexivity. }
  destruct H as (X & y & HF). exists X, y.
  split; [vm_compute; reflexivity|].
  split; [exact HF|]. split; [vm_compute; reflexivity|]. split; [vm_compute; reflexivity|].
  apply (infinite_indicator_fails_training const_net huge_volume_bars huge_volume_table X y
           2 100 64 "VWAP" 1).
  - vm_compute. reflexivity.
  - exact HF.
  - simpl. tauto.
  - lia.
  - vm_compute. lia.
  - vm_compute. reflexivity.
Defined.
